(** * Channel growth survey: date parsing, date filtering and growth ranking

    A shallow embedding of [app.py]: [parse_date], [search_channels],
    [get_channel_stats] and [analyze_channels_growth], together with the
    part of the Python runtime these functions rely on (exceptions, [int]
    true division and [float] arithmetic, [datetime] values, their
    comparison and subtraction, [datetime.strptime],
    [datetime.fromisoformat], [str.replace] and [list.sort]).

    Conventions.
    - A Python [str] is a Rocq [string]: a sequence of characters with code
      points below 256.  On such strings the regular expression class [\d]
      is exactly [0-9].
    - A Python [int] is a [Z]; a Python [float] is an IEEE-754 binary64
      value, represented by [spec_float] with [prec = 53], [emax = 1024].
    - A Python call that may raise is a value of [result A = exn + A].
    - [datetime.now()] reads the clock: the functions that call it take the
      clock as an argument, [clock k] being the value of the [k]-th call.
    - The client of the platform is an argument as well: a record of the
      answers to the two requests the code sends.

    The file has three parts: the model, the vocabulary of the statements
    with the inputs of the scenarios, and the properties. *)

From Stdlib Require Import ZArith Ascii String Floats.SpecFloat.
From Stdlib Require DecimalString DecimalPos.
From stdpp Require Import base list strings sorting gmap.

Local Open Scope Z_scope.

(** ** Exceptions *)

Inductive exn : Set :=
| ValueError
| TypeError
| ZeroDivisionError
| OverflowError
| KeyError.

Global Instance exn_eq_dec : EqDecision exn.
Proof. solve_decision. Defined.

Definition result (A : Type) : Type := exn + A.

Definition ret {A} (x : A) : result A := inr x.
Definition raise {A} (e : exn) : result A := inl e.

Definition bind {A B} (m : result A) (k : A -> result B) : result B :=
  match m with
  | inl e => inl e
  | inr x => k x
  end.

Notation "'let*' x ':=' m 'in' k" := (bind m (fun x => k))
  (at level 10, x name, m at level 100, k at level 200).
Notation "'let*' ' pat ':=' m 'in' k" := (bind m (fun x => let 'pat := x in k))
  (at level 10, pat pattern, m at level 100, k at level 200).

(** [try: m  except ValueError: h] *)
Definition try_except_ValueError {A} (m h : result A) : result A :=
  match m with
  | inl ValueError => h
  | other => other
  end.

(** [if not c: raise e] *)
Definition require (c : bool) (e : exn) : result unit :=
  if c then ret tt else raise e.

(** ** Floats and integer true division *)

Module PyFloat.

Definition prec : Z := 53.
Definition emax : Z := 1024.

Definition float : Set := spec_float.

(** An integer as an unrounded dyadic number (exponent 0). *)
Definition exact_of_int (n : Z) : spec_float :=
  match n with
  | Z0 => S754_zero false
  | Zpos p => S754_finite false p 0
  | Zneg p => S754_finite true p 0
  end.

(** [float(n)] for an [int] literal such as [100]. *)
Definition of_int (n : Z) : float := binary_normalize prec emax n 0 false.

(** [a / b] on two [int]s: the exact quotient rounded once, to nearest
    even; [ZeroDivisionError] when [b] is zero, [OverflowError] when the
    rounded quotient is outside the range of a float. *)
Definition int_true_divide (a b : Z) : result float :=
  if b =? 0 then raise ZeroDivisionError
  else if a =? 0 then ret (S754_zero (b <? 0))
  else match SFdiv prec emax (exact_of_int a) (exact_of_int b) with
       | S754_infinity _ => raise OverflowError
       | q => ret q
       end.

(** [x * y] on two [float]s (no exception: overflow gives an infinity). *)
Definition mul (x y : float) : float := SFmul prec emax x y.

(** [x < y], [x <= y], [x == y] on two [float]s. *)
Definition lt (x y : float) : bool := SFltb x y.
Definition le (x y : float) : bool := SFleb x y.
Definition eq (x y : float) : bool := SFeqb x y.

(** [x >= y] *)
Definition ge (x y : float) : bool := SFleb y x.

Definition is_nan (x : float) : bool :=
  match x with S754_nan => true | _ => false end.

(** A float that is a zero or a finite number. *)
Definition is_finite (x : float) : bool :=
  match x with
  | S754_zero _ | S754_finite _ _ _ => true
  | _ => false
  end.

(** The mantissa [m] at the exponent [e] is a value below [2 ^ 1023]. *)
Definition below (m e : Z) : Prop := 0 <= m < 2 ^ (1023 - e).

End PyFloat.

(** ** [datetime] and [timedelta] *)

Module Datetime.

Definition MINYEAR : Z := 1.
Definition MAXYEAR : Z := 9999.

(** [tzinfo] is [None] for a naive value; an aware value produced by
    [fromisoformat] carries a fixed offset from UTC, kept here in
    microseconds ([timezone.utc] is offset 0). *)
Record datetime : Set := mk_datetime {
  year : Z;
  month : Z;
  day : Z;
  hour : Z;
  minute : Z;
  second : Z;
  microsecond : Z;
  tzinfo : option Z
}.

Global Instance datetime_eq_dec : EqDecision datetime.
Proof. solve_decision. Defined.

Record timedelta : Set := mk_timedelta {
  days : Z;
  seconds : Z;
  microseconds : Z
}.

Definition _is_leap (y : Z) : bool :=
  (y mod 4 =? 0) && (negb (y mod 100 =? 0) || (y mod 400 =? 0)).

Definition _DAYS_IN_MONTH (m : Z) : Z :=
  match m with
  | 1 => 31 | 2 => 28 | 3 => 31 | 4 => 30 | 5 => 31 | 6 => 30
  | 7 => 31 | 8 => 31 | 9 => 30 | 10 => 31 | 11 => 30 | 12 => 31
  | _ => 0
  end.

Definition _DAYS_BEFORE_MONTH (m : Z) : Z :=
  match m with
  | 1 => 0 | 2 => 31 | 3 => 59 | 4 => 90 | 5 => 120 | 6 => 151
  | 7 => 181 | 8 => 212 | 9 => 243 | 10 => 273 | 11 => 304 | 12 => 334
  | _ => 0
  end.

Definition _days_before_year (y : Z) : Z :=
  let y := y - 1 in
  y * 365 + y / 4 - y / 100 + y / 400.

Definition _days_in_month (y m : Z) : Z :=
  if (m =? 2) && _is_leap y then 29 else _DAYS_IN_MONTH m.

Definition _days_before_month (y m : Z) : Z :=
  _DAYS_BEFORE_MONTH m + (if (2 <? m) && _is_leap y then 1 else 0).

Definition _ymd2ord (y m d : Z) : Z :=
  _days_before_year y + _days_before_month y m + d.

Definition _check_date_fields (y m d : Z) : result unit :=
  let* _ := require ((MINYEAR <=? y) && (y <=? MAXYEAR)) ValueError in
  let* _ := require ((1 <=? m) && (m <=? 12)) ValueError in
  require ((1 <=? d) && (d <=? _days_in_month y m)) ValueError.

Definition _check_time_fields (h mi s us : Z) : result unit :=
  let* _ := require ((0 <=? h) && (h <=? 23)) ValueError in
  let* _ := require ((0 <=? mi) && (mi <=? 59)) ValueError in
  let* _ := require ((0 <=? s) && (s <=? 59)) ValueError in
  require ((0 <=? us) && (us <=? 999999)) ValueError.

(** The constructor [datetime(y, m, d, h, mi, s, us, tzinfo)]. *)
Definition new (y m d h mi s us : Z) (tz : option Z) : result datetime :=
  let* _ := _check_date_fields y m d in
  let* _ := _check_time_fields h mi s us in
  ret (mk_datetime y m d h mi s us tz).

(** The constructor [timedelta(days, seconds, microseconds)] on integers:
    the fields are normalised so that [0 <= microseconds < 1000000] and
    [0 <= seconds < 86400]; [OverflowError] beyond 999999999 days. *)
Definition new_timedelta (d s us : Z) : result timedelta :=
  let s := s + us / 1000000 in
  let us := us mod 1000000 in
  let d := d + s / 86400 in
  let s := s mod 86400 in
  if 999999999 <? Z.abs d then raise OverflowError
  else ret (mk_timedelta d s us).

Definition toordinal (t : datetime) : Z :=
  _ymd2ord (year t) (month t) (day t).

(** [self - other] *)
Definition sub (self other : datetime) : result timedelta :=
  let days1 := toordinal self in
  let days2 := toordinal other in
  let secs1 := second self + minute self * 60 + hour self * 3600 in
  let secs2 := second other + minute other * 60 + hour other * 3600 in
  let base := new_timedelta (days1 - days2) (secs1 - secs2)
                            (microsecond self - microsecond other) in
  match tzinfo self, tzinfo other with
  | None, None => base
  | Some myoff, Some otoff =>
      if myoff =? otoff then base
      else new_timedelta (days1 - days2) (secs1 - secs2)
             (microsecond self - microsecond other + otoff - myoff)
  | _, _ => raise TypeError
  end.

Definition fields (t : datetime) : list Z :=
  [year t; month t; day t; hour t; minute t; second t; microsecond t].

(** Lexicographic comparison of two tuples of integers: -1, 0 or 1. *)
Fixpoint _cmp_tuple (x y : list Z) : Z :=
  match x, y with
  | [], [] => 0
  | [], _ :: _ => -1
  | _ :: _, [] => 1
  | a :: x, b :: y =>
      if a <? b then -1 else if b <? a then 1 else _cmp_tuple x y
  end.

(** [self._cmp(other, allow_mixed)]: -1, 0 or 1; with [allow_mixed] a
    naive and an aware value compare as different (2), without it the
    comparison raises [TypeError]. *)
Definition _cmp (self other : datetime) (allow_mixed : bool) : result Z :=
  match tzinfo self, tzinfo other with
  | None, None => ret (_cmp_tuple (fields self) (fields other))
  | Some myoff, Some otoff =>
      if myoff =? otoff then ret (_cmp_tuple (fields self) (fields other))
      else
        let* diff := sub self other in
        if days diff <? 0 then ret (-1)
        else if (days diff =? 0) && (seconds diff =? 0)
                && (microseconds diff =? 0)
             then ret 0 else ret 1
  | _, _ => if allow_mixed then ret 2 else raise TypeError
  end.

(** [self < other], [self > other], [self == other] *)
Definition lt (self other : datetime) : result bool :=
  let* c := _cmp self other false in ret (c <? 0).

Definition gt (self other : datetime) : result bool :=
  let* c := _cmp self other false in ret (0 <? c).

Definition eq (self other : datetime) : result bool :=
  let* c := _cmp self other true in ret (c =? 0).

(** [self <= other] *)
Definition le (self other : datetime) : result bool :=
  let* c := _cmp self other false in ret (c <=? 0).

End Datetime.

(** ** Strings *)

Module PyStr.

Local Open Scope char_scope.
Local Open Scope Z_scope.

Definition is_digit (c : ascii) : bool :=
  let n := nat_of_ascii c in (48 <=? n)%nat && (n <=? 57)%nat.

Definition digit_value (c : ascii) : Z := Z.of_nat (nat_of_ascii c) - 48.

Definition in_range (lo hi : ascii) (c : ascii) : bool :=
  let n := nat_of_ascii c in
  (nat_of_ascii lo <=? n)%nat && (n <=? nat_of_ascii hi)%nat.

(** Lower-casing of a one-byte character whose upper-case form is an
    ASCII letter. *)
Definition lower (c : ascii) : ascii :=
  if in_range "A" "Z" c then ascii_of_nat (nat_of_ascii c + 32) else c.

(** [s.replace(old, new)] for a one-character [old]. *)
Fixpoint replace (old : ascii) (new : string) (s : string) : string :=
  match s with
  | EmptyString => EmptyString
  | String c s' =>
      if Ascii.eqb c old then new +:+ replace old new s'
      else String c (replace old new s')
  end.

(** [s[:n]] and [s[n:]] for [0 <= n]. *)
Fixpoint take (n : nat) (s : string) : string :=
  match n, s with
  | S n', String c s' => String c (take n' s')
  | _, _ => EmptyString
  end.

Fixpoint drop (n : nat) (s : string) : string :=
  match n, s with
  | S n', String _ s' => drop n' s'
  | _, _ => s
  end.

Fixpoint all_digits (s : string) : bool :=
  match s with
  | EmptyString => true
  | String c s' => is_digit c && all_digits s'
  end.

Fixpoint digits_value (acc : Z) (s : string) : Z :=
  match s with
  | EmptyString => acc
  | String c s' => digits_value (acc * 10 + digit_value c) s'
  end.

Fixpoint lstrip (s : string) : string :=
  match s with
  | String " " s' => lstrip s'
  | _ => s
  end.

(** [int(s)] on a string of decimal digits, possibly preceded by blanks;
    [ValueError] on anything else. *)
Definition int (s : string) : result Z :=
  let d := lstrip s in
  match d with
  | EmptyString => raise ValueError
  | _ => if all_digits d then ret (digits_value 0 d) else raise ValueError
  end.

End PyStr.

(** ** Regular expressions, as far as [strptime] needs them

    Matching is the backtracking, leftmost-alternative-first matching of
    Python's [re]; [Lit] compares without regard to case, as the patterns of
    [_strptime] are compiled with [IGNORECASE]. *)

Module Re.

Inductive regex : Type :=
| Eps
| Lit (c : ascii)
| Class (p : ascii -> bool)
| Cat (r1 r2 : regex)
| Alt (r1 r2 : regex)
| Group (name : ascii) (r : regex).

Definition groupdict : Type := list (ascii * string).

Fixpoint lookup (name : ascii) (g : groupdict) : option string :=
  match g with
  | [] => None
  | (n, v) :: g' => if Ascii.eqb n name then Some v else lookup name g'
  end.

(** [run r s g k]: match [r] at the start of [s], then continue with [k]
    on the rest; when the continuation fails, the next way of matching
    [r] is tried. *)
Fixpoint run {A} (r : regex) (s : string) (g : groupdict)
         (k : string -> groupdict -> option A) : option A :=
  match r with
  | Eps => k s g
  | Lit c =>
      match s with
      | String c' s' =>
          if Ascii.eqb (PyStr.lower c) (PyStr.lower c') then k s' g else None
      | EmptyString => None
      end
  | Class p =>
      match s with
      | String c' s' => if p c' then k s' g else None
      | EmptyString => None
      end
  | Cat r1 r2 => run r1 s g (fun s' g' => run r2 s' g' k)
  | Alt r1 r2 =>
      match run r1 s g k with
      | Some x => Some x
      | None => run r2 s g k
      end
  | Group name r =>
      run r s g (fun s' g' =>
        k s' ((name, PyStr.take (String.length s - String.length s') s) :: g'))
  end.

(** [r.match(s)]: the group dictionary of the first match and the
    unmatched rest of [s]. *)
Definition match_ (r : regex) (s : string) : option (groupdict * string) :=
  run r s [] (fun s' g => Some (g, s')).

(** [r?] and [r{1,n}], greedy. *)
Definition opt (r : regex) : regex := Alt r Eps.

Fixpoint upto (n : nat) (r : regex) : regex :=
  match n with
  | O => Eps
  | S n' => opt (Cat r (upto n' r))
  end.

Definition rep1 (n : nat) (r : regex) : regex := Cat r (upto (n - 1) r).

End Re.

(** ** [datetime.strptime]

    [_strptime.py]: the format is turned into a regular expression through
    the table of directives [TimeRE]; the string has to match it from its
    start and to its end; the matched groups are converted with [int] and
    handed to the [datetime] constructor.  Only the directives that occur in
    the formats of [parse_date] are in the table; the formats contain no
    white space. *)

Module Strptime.

Import Re.
Local Open Scope char_scope.
Local Open Scope Z_scope.

Definition d_ : regex := Class PyStr.is_digit.
Definition rng (lo hi : ascii) : regex := Class (PyStr.in_range lo hi).

Definition TimeRE (directive : ascii) : option regex :=
  match directive with
  | "d" => Some (Group "d"
             (Alt (Cat (Lit "3") (rng "0" "1"))
             (Alt (Cat (rng "1" "2") d_)
             (Alt (Cat (Lit "0") (rng "1" "9"))
             (Alt (rng "1" "9")
                  (Cat (Lit " ") (rng "1" "9")))))))
  | "f" => Some (Group "f" (rep1 6 (rng "0" "9")))
  | "H" => Some (Group "H"
             (Alt (Cat (Lit "2") (rng "0" "3"))
             (Alt (Cat (rng "0" "1") d_)
                  d_)))
  | "m" => Some (Group "m"
             (Alt (Cat (Lit "1") (rng "0" "2"))
             (Alt (Cat (Lit "0") (rng "1" "9"))
                  (rng "1" "9"))))
  | "M" => Some (Group "M" (Alt (Cat (rng "0" "5") d_) d_))
  | "S" => Some (Group "S"
             (Alt (Cat (Lit "6") (rng "0" "1"))
             (Alt (Cat (rng "0" "5") d_)
                  d_)))
  | "Y" => Some (Group "Y" (Cat d_ (Cat d_ (Cat d_ d_))))
  | _ => None
  end.

(** [TimeRE.pattern(format)]; [None] for a directive outside the table or
    a stray [%]. *)
Fixpoint pattern (format : string) : option regex :=
  match format with
  | EmptyString => Some Eps
  | String "%" EmptyString => None
  | String "%" (String directive rest) =>
      match TimeRE directive, pattern rest with
      | Some r, Some p => Some (Cat r p)
      | _, _ => None
      end
  | String c rest =>
      match pattern rest with
      | Some p => Some (Cat (Lit c) p)
      | None => None
      end
  end.

(** The value of a group, or [default] when the format has no such
    directive. *)
Definition group_int (found_dict : groupdict) (name : ascii) (default : Z)
  : result Z :=
  match lookup name found_dict with
  | Some s => PyStr.int s
  | None => ret default
  end.

(** [%f]: the digits are padded with zeros on the right to six. *)
Definition group_fraction (found_dict : groupdict) : result Z :=
  match lookup "f" found_dict with
  | Some s =>
      PyStr.int (s +:+ string_of_list_ascii
                         (repeat "0" (6 - String.length s)))
  | None => ret 0
  end.

Definition strptime (data_string format : string)
  : result Datetime.datetime :=
  match pattern format with
  | None => raise ValueError
  | Some format_regex =>
      match match_ format_regex data_string with
      | None => raise ValueError
      | Some (found_dict, String _ _) => raise ValueError
      | Some (found_dict, EmptyString) =>
          let* year := group_int found_dict "Y" 1900 in
          let* month := group_int found_dict "m" 1 in
          let* day := group_int found_dict "d" 1 in
          let* hour := group_int found_dict "H" 0 in
          let* minute := group_int found_dict "M" 0 in
          let* second := group_int found_dict "S" 0 in
          let* fraction := group_fraction found_dict in
          let* _ := Datetime._check_date_fields year month day in
          Datetime.new year month day hour minute second fraction None
      end
  end.

End Strptime.

(** ** [datetime.fromisoformat]

    The grammar documented for Python 3.7 to 3.10,
    [YYYY-MM-DD[*HH[:MM[:SS[.fff[fff]]]][+HH:MM[:SS[.ffffff]]]]] where [*]
    is any single character: the inverse of [datetime.isoformat].  An
    offset makes the result aware.  (Later versions accept more strings;
    they agree with this grammar on the strings it accepts.) *)

Module IsoFormat.

Local Open Scope char_scope.
Local Open Scope Z_scope.

(** Exactly [n] decimal digits. *)
Definition parse_digits (n : nat) (s : string) : option (Z * string) :=
  let d := PyStr.take n s in
  if (String.length d =? n)%nat && PyStr.all_digits d
  then Some (PyStr.digits_value 0 d, PyStr.drop n s)
  else None.

Definition expect (c : ascii) (s : string) : option string :=
  match s with
  | String c' s' => if Ascii.eqb c c' then Some s' else None
  | EmptyString => None
  end.

(** [YYYY-MM-DD], and what follows it. *)
Definition parse_isoformat_date (s : string) : option (Z * Z * Z * string) :=
  '(y, s) ← parse_digits 4 s;
  s ← expect "-" s;
  '(m, s) ← parse_digits 2 s;
  s ← expect "-" s;
  '(d, s) ← parse_digits 2 s;
  Some (y, m, d, s).

(** [HH[:MM[:SS[.fff[fff]]]]], to the end of [s]: hour, minute, second,
    microsecond. *)
Definition parse_hh_mm_ss_ff (s : string) : option (Z * Z * Z * Z) :=
  '(h, s) ← parse_digits 2 s;
  match s with
  | EmptyString => Some (h, 0, 0, 0)
  | _ =>
    s ← expect ":" s;
    '(mi, s) ← parse_digits 2 s;
    match s with
    | EmptyString => Some (h, mi, 0, 0)
    | _ =>
      s ← expect ":" s;
      '(sec, s) ← parse_digits 2 s;
      match s with
      | EmptyString => Some (h, mi, sec, 0)
      | _ =>
        s ← expect "." s;
        match String.length s with
        | 3%nat => '(ms, _) ← parse_digits 3 s; Some (h, mi, sec, ms * 1000)
        | 6%nat => '(us, _) ← parse_digits 6 s; Some (h, mi, sec, us)
        | _ => None
        end
      end
    end
  end.

(** The position of the first [+] or [-]: the text before it, and the
    sign and the text after it. *)
Fixpoint split_tz (s : string) : string * option (Z * string) :=
  match s with
  | EmptyString => (EmptyString, None)
  | String c s' =>
      if Ascii.eqb c "+" then (EmptyString, Some (1, s'))
      else if Ascii.eqb c "-" then (EmptyString, Some (-1, s'))
      else let '(t, tz) := split_tz s' in (String c t, tz)
  end.

(** [timezone(timedelta(microseconds=offset))]: the offset has to be
    strictly between minus and plus 24 hours. *)
Definition timezone (offset : Z) : result Z :=
  if (-86400000000 <? offset) && (offset <? 86400000000) then ret offset
  else raise ValueError.

(** The [tzinfo] for an offset of [tzoffset] seconds and [tzusec]
    microseconds: [timezone.utc] as soon as the seconds are zero. *)
Definition tzinfo_from_isoformat_results (tzoffset tzusec : Z) : result Z :=
  if tzoffset =? 0 then ret 0
  else timezone (tzoffset * 1000000 + tzusec).

(** The time and the offset, the latter as seconds and microseconds:
    [HH:MM], [HH:MM:SS] or [HH:MM:SS.ffffff] after the sign. *)
Definition parse_isoformat_time (tstr : string)
  : option (Z * Z * Z * Z * option (Z * Z)) :=
  let '(timestr, tz) := split_tz tstr in
  '(h, mi, sec, us) ← parse_hh_mm_ss_ff timestr;
  match tz with
  | None => Some (h, mi, sec, us, None)
  | Some (tzsign, tzstr) =>
      match String.length tzstr with
      | 5%nat | 8%nat | 15%nat =>
          '(tzhour, tzminute, tzsecond, tzusec) ← parse_hh_mm_ss_ff tzstr;
          Some (h, mi, sec, us,
                Some (tzsign * (tzhour * 3600 + tzminute * 60 + tzsecond),
                      tzsign * tzusec))
      | _ => None
      end
  end.

Definition fromisoformat (date_string : string) : result Datetime.datetime :=
  match parse_isoformat_date date_string with
  | None => raise ValueError
  | Some (y, m, d, EmptyString) => Datetime.new y m d 0 0 0 0 None
  | Some (y, m, d, String _ tstr) =>
      match parse_isoformat_time tstr with
      | None => raise ValueError
      | Some (h, mi, sec, us, None) => Datetime.new y m d h mi sec us None
      | Some (h, mi, sec, us, Some (tzoffset, tzusec)) =>
          let* tz := tzinfo_from_isoformat_results tzoffset tzusec in
          Datetime.new y m d h mi sec us (Some tz)
      end
  end.

End IsoFormat.

(** ** [list.sort]

    [l.sort(key=key, reverse=reverse)] is stable and compares keys with [<]
    only.  With [reverse] the list is reversed, sorted and reversed again,
    which keeps elements with equal keys in their original order.  The
    sorting itself is modelled by insertion from the right; on keys that
    [<] orders totally up to equality, as floats other than NaN are, a
    sorted and stable rearrangement is unique
    ([PyListFacts.stable_sorted_unique]), so that the algorithm does not
    matter. *)

Module PyList.

Section sort.
Context {A K : Type} (key : A -> K) (lt : K -> K -> bool).

Fixpoint insert (x : A) (l : list A) : list A :=
  match l with
  | [] => [x]
  | y :: l' => if lt (key y) (key x) then y :: insert x l' else x :: l
  end.

Definition sort_ascending (l : list A) : list A := foldr insert [] l.

Definition sort (rev : bool) (l : list A) : list A :=
  if rev then reverse (sort_ascending (reverse l))
  else sort_ascending l.

(** [x] may stand before [y] in ascending order: [y] is not below
    [x]. *)
Definition ascending (x y : A) : Prop := lt (key y) (key x) = false.

End sort.

End PyList.

(** ** The application: [app.py] *)

(** The dictionary returned by [get_channel_stats]. *)
Module Channel.
Record t : Set := mk {
  channel_id : string;
  title : string;
  subscriber_count : Z;
  view_count : Z;
  video_count : Z;
  published_at : string
}.
End Channel.

(** The dictionary built by [analyze_channels_growth] for one channel. *)
Module Growth.
Record t : Set := mk {
  channel_name : string;
  channel_id : string;
  current_subs : Z;
  current_views : Z;
  published_at : string;
  days_since_creation : Z;
  daily_subs : PyFloat.float;
  daily_views : PyFloat.float;
  growth_rate : PyFloat.float
}.
End Growth.

(** The client [youtube]: what [search().list(...).execute()] and
    [channels().list(...).execute()] answer.  Of a search response only the
    channel identifiers of its items are kept; of a channel resource the
    fields the code reads, the statistics already as integers. *)
Module Api.
Record resource : Set := mk_resource {
  snippet_title : string;
  snippet_publishedAt : string;
  statistics_subscriberCount : Z;
  statistics_viewCount : Z;
  statistics_videoCount : Z
}.

Record t : Type := mk {
  search_list : string -> Z -> list string;
  channels_list : string -> list resource
}.
End Api.

Local Open Scope string_scope.

Definition parse_date (date_str : string) : result Datetime.datetime :=
  try_except_ValueError
    (Strptime.strptime date_str "%Y-%m-%dT%H:%M:%S.%fZ")
    (try_except_ValueError
       (Strptime.strptime date_str "%Y-%m-%dT%H:%M:%SZ")
       (IsoFormat.fromisoformat (PyStr.replace "Z" "+00:00" date_str))).

Definition get_channel_stats (youtube : Api.t) (channel_id : string)
  : option Channel.t :=
  match Api.channels_list youtube channel_id with
  | [] => None
  | item :: _ =>
      Some {| Channel.channel_id := channel_id;
              Channel.title := Api.snippet_title item;
              Channel.subscriber_count := Api.statistics_subscriberCount item;
              Channel.view_count := Api.statistics_viewCount item;
              Channel.video_count := Api.statistics_videoCount item;
              Channel.published_at := Api.snippet_publishedAt item |}
  end.

(** [bound and published_at < bound] and [bound and published_at > bound]:
    a bound that is [None] is false and the comparison is not evaluated. *)
Definition before_bound (min_date : option Datetime.datetime)
           (published_at : Datetime.datetime) : result bool :=
  match min_date with
  | None => ret false
  | Some bound => Datetime.lt published_at bound
  end.

Definition after_bound (max_date : option Datetime.datetime)
           (published_at : Datetime.datetime) : result bool :=
  match max_date with
  | None => ret false
  | Some bound => Datetime.gt published_at bound
  end.

(** Lines 48 to 53: whether the loop reaches [channels.append]. *)
Definition date_filter (min_date max_date : option Datetime.datetime)
           (channel_info : Channel.t) : result bool :=
  let* published_at := parse_date (Channel.published_at channel_info) in
  let* too_early := before_bound min_date published_at in
  if too_early then ret false
  else
    let* too_late := after_bound max_date published_at in
    if too_late then ret false else ret true.

(** The loop of [search_channels] over the items of the response;
    [stats item] is [get_channel_stats(item['id']['channelId'])]. *)
Section search_loop.
Context {Item : Type} (stats : Item -> option Channel.t).
Context (min_date max_date : option Datetime.datetime).

Fixpoint search_loop (items : list Item) (channels : list Channel.t)
  : result (list Channel.t) :=
  match items with
  | [] => ret channels
  | item :: items' =>
      match stats item with
      | None => search_loop items' channels
      | Some channel_info =>
          let* keep := date_filter min_date max_date channel_info in
          if keep then search_loop items' (channels ++ [channel_info])
          else search_loop items' channels
      end
  end.
End search_loop.

Definition search_channels (youtube : Api.t) (query : string)
           (max_results : Z) (min_date max_date : option Datetime.datetime)
  : result (list Channel.t) :=
  let response := Api.search_list youtube query max_results in
  search_loop (get_channel_stats youtube) min_date max_date response [].

(** Lines 86 and 87: [(datetime.now() - parse_date(...)).days]. *)
Definition days_since_creation (now : Datetime.datetime) (channel : Channel.t)
  : result Z :=
  let* published_at := parse_date (Channel.published_at channel) in
  let* delta := Datetime.sub now published_at in
  ret (Datetime.days delta).

(** The body of the loop of [analyze_channels_growth]: the dictionary
    appended to [results]. *)
Definition growth_row (now : Datetime.datetime) (channel : Channel.t)
  : result Growth.t :=
  let* days_since_creation := days_since_creation now channel in
  let* daily_subs :=
    PyFloat.int_true_divide (Channel.subscriber_count channel)
                            days_since_creation in
  let* daily_views :=
    PyFloat.int_true_divide (Channel.view_count channel)
                            days_since_creation in
  let* quotient :=
    PyFloat.int_true_divide (Channel.subscriber_count channel)
                            days_since_creation in
  let growth_rate := PyFloat.mul quotient (PyFloat.of_int 100) in
  ret {| Growth.channel_name := Channel.title channel;
         Growth.channel_id := Channel.channel_id channel;
         Growth.current_subs := Channel.subscriber_count channel;
         Growth.current_views := Channel.view_count channel;
         Growth.published_at := Channel.published_at channel;
         Growth.days_since_creation := days_since_creation;
         Growth.daily_subs := daily_subs;
         Growth.daily_views := daily_views;
         Growth.growth_rate := growth_rate |}.

(** The loop of [analyze_channels_growth].  [clock k] is the value of the
    [k]-th call of [datetime.now()]; the loop reads the clock once for each
    channel. *)
Fixpoint analyze_loop (clock : nat -> Datetime.datetime) (k : nat)
         (channels : list Channel.t) (results : list Growth.t)
  : result (list Growth.t) :=
  match channels with
  | [] => ret results
  | channel :: channels' =>
      let* row := growth_row (clock k) channel in
      analyze_loop clock (S k) channels' (results ++ [row])
  end.

Definition analyze_channels_growth (clock : nat -> Datetime.datetime)
           (channels : list Channel.t) (days : Z) : result (list Growth.t) :=
  let* results := analyze_loop clock 0 channels [] in
  ret (PyList.sort Growth.growth_rate PyFloat.lt true results).

(** [main], lines 165 and 166: the bounds handed to [search_channels] for
    the calendar dates chosen in the side bar. *)
Definition combine_min_time (y m d : Z) : Datetime.datetime :=
  Datetime.mk_datetime y m d 0 0 0 0 None.

Definition combine_max_time (y m d : Z) : Datetime.datetime :=
  Datetime.mk_datetime y m d 23 59 59 999999 None.

Local Close Scope string_scope.

(** ** The store: lists and dictionaries as shared, mutable objects

    [channels] and [results] are references to list objects, and a list
    object holds references to dictionary objects.  The functions of this
    section are [analyze_channels_growth] once more, with every read,
    allocation and update of an object written out.  An object of another
    kind than the one the code expects is outside the model; reading it
    answers [TypeError]. *)

Module Store.

Definition loc : Set := nat.

Inductive object : Set :=
| ChannelDict (channel : Channel.t)
| GrowthDict (row : Growth.t)
| ListObj (items : list loc).

Abbreviation heap := (gmap nat object).

(** A computation reads and updates the heap and returns or raises; what
    it has done to the heap before raising stays done. *)
Definition M (A : Type) : Type := heap → result A * heap.

Definition mret {A} (x : A) : M A := λ h, (inr x, h).

Definition mbind {A B} (m : M A) (k : A → M B) : M B :=
  λ h, match m h with
       | (inl e, h') => (inl e, h')
       | (inr x, h') => k x h'
       end.

Definition lift {A} (r : result A) : M A := λ h, (r, h).

Notation "'do*' x ':=' m 'in' k" := (mbind m (fun x => k))
  (at level 10, x name, m at level 100, k at level 200).

(** A new object, at a reference that is not in use. *)
Definition alloc (o : object) : M loc :=
  λ h, let l := fresh (dom h) in (inr l, <[l:=o]> h).

Definition get_channel (l : loc) : M Channel.t :=
  λ h, match h !! l with
       | Some (ChannelDict channel) => (inr channel, h)
       | _ => (inl TypeError, h)
       end.

Definition get_growth (l : loc) : M Growth.t :=
  λ h, match h !! l with
       | Some (GrowthDict row) => (inr row, h)
       | _ => (inl TypeError, h)
       end.

Definition get_list (l : loc) : M (list loc) :=
  λ h, match h !! l with
       | Some (ListObj items) => (inr items, h)
       | _ => (inl TypeError, h)
       end.

Definition set_list (l : loc) (items : list loc) : M unit :=
  λ h, (inr tt, <[l:=ListObj items]> h).

(** [l.append(x)] *)
Definition append (l x : loc) : M unit :=
  do* items := get_list l in
  set_list l (items ++ [x]).

(** The body of the loop: the dictionary literal is a new object, and
    [results.append] updates the list object [results]. *)
Definition loop_body (now : Datetime.datetime) (channel results : loc)
  : M unit :=
  do* c := get_channel channel in
  do* row := lift (growth_row now c) in
  do* d := alloc (GrowthDict row) in
  append results d.

(** [for channel in channels: ...]: the iterator holds an index into the
    list object and reads the object again at every step; it stops when the
    index has reached the length.  [fuel] bounds the number of steps; the
    answer is [false] when it runs out. *)
Fixpoint for_loop (fuel : nat) (clock : nat → Datetime.datetime) (i : nat)
         (channels results : loc) : M bool :=
  match fuel with
  | O => mret false
  | S fuel' =>
      do* items := get_list channels in
      match items !! i with
      | None => mret true
      | Some channel =>
          do* _ := loop_body (clock i) channel results in
          for_loop fuel' clock (S i) channels results
      end
  end.

(** The keys of [sort]: [x['growth_rate']] for every element, computed
    before any element is moved. *)
Fixpoint keys (items : list loc) : M (list (loc * PyFloat.float)) :=
  match items with
  | [] => mret []
  | l :: items' =>
      do* row := get_growth l in
      do* keyed := keys items' in
      mret ((l, Growth.growth_rate row) :: keyed)
  end.

(** [results.sort(key=lambda x: x['growth_rate'], reverse=True)]: the
    list object is updated in place. *)
Definition sort_by_growth_rate (results : loc) : M unit :=
  do* items := get_list results in
  do* keyed := keys items in
  set_list results (fst <$> PyList.sort snd PyFloat.lt true keyed).

(** [analyze_channels_growth(channels, days)]; [None] when [fuel] does not
    suffice for the loop. *)
Definition analyze_channels_growth (fuel : nat)
           (clock : nat → Datetime.datetime) (channels : loc) (days : Z)
  : M (option loc) :=
  do* results := alloc (ListObj []) in
  do* finished := for_loop fuel clock 0 channels results in
  if finished : bool then
    do* _ := sort_by_growth_rate results in
    mret (Some results)
  else mret None.

(** The list object at [l] holds references to dictionaries with the given
    contents. *)
Definition channels_at (h : heap) (l : loc) (channels : list Channel.t)
  : Prop :=
  ∃ items, h !! l = Some (ListObj items)
           ∧ Forall2 (λ r c, h !! r = Some (ChannelDict c)) items channels.

Definition rows_at (h : heap) (l : loc) (rows : list Growth.t) : Prop :=
  ∃ items, h !! l = Some (ListObj items)
           ∧ Forall2 (λ r row, h !! r = Some (GrowthDict row)) items rows.

(** Every object of [h] is in [h'], unchanged. *)
Definition preserved (h h' : heap) : Prop :=
  ∀ l o, h !! l = Some o → h' !! l = Some o.

(** The growth dictionaries of the list object [results], each with its
    reference. *)
Definition holds (h : heap) (results : loc) (ps : list (loc * Growth.t))
  : Prop :=
  h !! results = Some (ListObj ps.*1)
  ∧ Forall (λ p, h !! p.1 = Some (GrowthDict p.2)) ps.

(** The outcome of the loop on the store, against the pure loop. *)
Definition loop_outcome (h0 : heap) (results : loc)
           (pure : result (list Growth.t)) (out : result bool * heap) : Prop :=
  preserved h0 out.2
  ∧ match pure with
    | inl e => out.1 = inl e
    | inr rows =>
        out.1 = inr true ∧ ∃ ps, rows = ps.*2 ∧ holds out.2 results ps
    end.

End Store.

(** ** The dictionaries of the platform

    [get_channel_stats] and [search_channels] once more, on the responses
    as the client hands them over: dictionaries in which a key may be
    missing and in which the counts are strings, to be converted by
    [int]. *)

(** ** [int] on a [str]

    [PyLong_FromString] in base 10: white space, a sign, decimal digits
    with single underscores between them, white space.  Everything else is
    a [ValueError], and so is a numeral of more than 4300 digits, the
    default of [sys.set_int_max_str_digits]. *)

Module PyInt.

Local Open Scope char_scope.
Local Open Scope Z_scope.

(** The characters [int] skips at both ends: tab to carriage return, the
    blank, and the two other white space characters below 256. *)
Definition is_space (c : ascii) : bool :=
  let n := nat_of_ascii c in
  ((9 <=? n)%nat && (n <=? 13)%nat) || (n =? 32)%nat || (n =? 133)%nat
  || (n =? 160)%nat.

Fixpoint skip_spaces (s : string) : string :=
  match s with
  | String c s' => if is_space c then skip_spaces s' else s
  | EmptyString => s
  end.

(** The digits and underscores at the start of [s]: the value, the number
    of digits and the rest; [None] for two underscores in a row and for an
    underscore at the end. *)
Fixpoint scan (prev_underscore : bool) (acc : Z) (digits : Z) (s : string)
  : option (Z * Z * string) :=
  match s with
  | String c s' =>
      if PyStr.is_digit c
      then scan false (acc * 10 + PyStr.digit_value c) (digits + 1) s'
      else if Ascii.eqb c "_"
      then if prev_underscore then None else scan true acc digits s'
      else if prev_underscore then None else Some (acc, digits, s)
  | EmptyString => if prev_underscore then None else Some (acc, digits, s)
  end.

Definition _MAX_STR_DIGITS : Z := 4300.

(** The sign, and what follows it. *)
Definition sign (s : string) : Z * string :=
  match s with
  | String c s' =>
      if Ascii.eqb c "+" then (1, s')
      else if Ascii.eqb c "-" then (-1, s')
      else (1, s)
  | EmptyString => (1, s)
  end.

Definition starts_with_underscore (s : string) : bool :=
  match s with
  | String c _ => Ascii.eqb c "_"
  | EmptyString => false
  end.

Definition int (s : string) : result Z :=
  let '(sign, s) := sign (skip_spaces s) in
  if starts_with_underscore s then raise ValueError
  else
    match scan false 0 0 s with
    | None => raise ValueError
    | Some (n, digits, rest) =>
        if digits =? 0 then raise ValueError
        else if _MAX_STR_DIGITS <? digits then raise ValueError
        else
          match skip_spaces rest with
          | EmptyString => ret (sign * n)
          | String _ _ => raise ValueError
          end
    end.

End PyInt.

(** ** The responses of the platform as dictionaries

    What [execute()] returns is the JSON document of the platform as
    nested dictionaries and lists.  A dictionary of strings is a [gmap];
    of a dictionary with values of several kinds the keys the code reads
    are kept, each present or missing; the values have the kinds the
    platform gives them, the counts being strings.  Reading a missing key
    raises [KeyError]. *)

Module Json.

Local Open Scope string_scope.

(** An item of the answer to [channels().list]. *)
Record channel_item : Type := mk_channel_item {
  statistics : option (gmap string string);
  snippet : option (gmap string string)
}.

Record channels_response : Type := mk_channels_response {
  channels_items : option (list channel_item)
}.

(** An item of the answer to [search().list]. *)
Record search_item : Type := mk_search_item {
  id : option (gmap string string)
}.

Record search_response : Type := mk_search_response {
  search_items : option (list search_item)
}.

(** The client [youtube]. *)
Record client : Type := mk_client {
  search_list : string → Z → search_response;
  channels_list : string → channels_response
}.

(** [d[key]] *)
Definition getitem {V} (d : gmap string V) (key : string) : result V :=
  match d !! key with
  | Some v => ret v
  | None => raise KeyError
  end.

(** [d[key]] for a key kept as a field. *)
Definition getfield {V} (field : option V) : result V :=
  match field with
  | Some v => ret v
  | None => raise KeyError
  end.

Definition get_channel_stats (youtube : client) (channel_id : string)
  : result (option Channel.t) :=
  let response := channels_list youtube channel_id in
  let* items := getfield (channels_items response) in
  match items with
  | [] => ret None
  | item :: _ =>
      let* stats := getfield (statistics item) in
      let* snippet := getfield (snippet item) in
      let* title := getitem snippet "title" in
      let* subscriber_count :=
        (let* count := getitem stats "subscriberCount" in PyInt.int count) in
      let* view_count :=
        (let* count := getitem stats "viewCount" in PyInt.int count) in
      let* video_count :=
        (let* count := getitem stats "videoCount" in PyInt.int count) in
      let* published_at := getitem snippet "publishedAt" in
      ret (Some {| Channel.channel_id := channel_id;
                   Channel.title := title;
                   Channel.subscriber_count := subscriber_count;
                   Channel.view_count := view_count;
                   Channel.video_count := video_count;
                   Channel.published_at := published_at |})
  end.

(** The loop of [search_channels], lines 43 to 53. *)
Fixpoint search_loop (youtube : client)
         (min_date max_date : option Datetime.datetime)
         (items : list search_item) (channels : list Channel.t)
  : result (list Channel.t) :=
  match items with
  | [] => ret channels
  | item :: items' =>
      let* channel_id :=
        (let* id := getfield (id item) in getitem id "channelId") in
      let* channel_info := get_channel_stats youtube channel_id in
      match channel_info with
      | None => search_loop youtube min_date max_date items' channels
      | Some channel_info =>
          let* keep := date_filter min_date max_date channel_info in
          if keep
          then search_loop youtube min_date max_date items'
                           (channels ++ [channel_info])
          else search_loop youtube min_date max_date items' channels
      end
  end.

Definition search_channels (youtube : client) (query : string)
           (max_results : Z) (min_date max_date : option Datetime.datetime)
  : result (list Channel.t) :=
  let response := search_list youtube query max_results in
  let* items := getfield (search_items response) in
  search_loop youtube min_date max_date items [].

End Json.

(** ** [main]: the bounds of the search and the rows put on display *)

(** Line 234: [results[:5]]. *)
Definition top_growth (results : list Growth.t) : list Growth.t :=
  take 5 results.

(** * The vocabulary of the statements *)

(** The rows of the channels in the order of the input, each with the
    clock value its iteration reads. *)
Definition rows_in_order (clock : nat → Datetime.datetime)
           (channels : list Channel.t) : list (result Growth.t) :=
  imap (λ i channel, growth_row (clock i) channel) channels.

(** The quotient [a / d] is within the range of a float: the division
    raises no exception. *)
Definition quotient_is_float (a d : Z) : Prop :=
  ∃ q, PyFloat.int_true_divide a d = inr q.

(** Every channel has a positive number of days since its creation, each
    taken at the clock value its iteration reads. *)
Definition all_days_positive (clock : nat → Datetime.datetime)
           (channels : list Channel.t) : Prop :=
  ∀ i channel, channels !! i = Some channel →
    ∃ d, days_since_creation (clock i) channel = inr d ∧ 0 < d.

(** The parsers raise nothing but [ValueError]. *)
Definition only_ValueError {A} (m : result A) : Prop :=
  ∀ e, m = inl e → e = ValueError.

(** The channel passes the date filter. *)
Definition kept (min_date max_date : option Datetime.datetime)
           (channel : Channel.t) : Prop :=
  date_filter min_date max_date channel = inr true.

#[local] Instance kept_dec min_date max_date channel :
  Decision (kept min_date max_date channel).
Proof. unfold kept. apply _. Defined.

(** Two values that can be compared field by field: both naive, or both
    aware with one offset; and a bound that is absent or such a value for
    [published_at].  The bounds [main] builds and the timestamps that
    [strptime] parses are all naive. *)
Definition same_zone (a b : Datetime.datetime) : Prop :=
  Datetime.tzinfo a = Datetime.tzinfo b.

Definition bound_in_zone (bound : option Datetime.datetime)
           (published_at : Datetime.datetime) : Prop :=
  ∀ t, bound = Some t → same_zone t published_at.

(** [min_date <= published_at] and [published_at <= max_date], each for a
    bound that is supplied. *)
Definition not_before (min_date : option Datetime.datetime)
           (published_at : Datetime.datetime) : Prop :=
  ∀ bound, min_date = Some bound → Datetime.le bound published_at = inr true.

Definition not_after (max_date : option Datetime.datetime)
           (published_at : Datetime.datetime) : Prop :=
  ∀ bound, max_date = Some bound → Datetime.le published_at bound = inr true.

(** The fields a row takes over from its channel. *)
Definition carried_through (channel : Channel.t) (row : Growth.t) : Prop :=
  Growth.channel_name row = Channel.title channel
  ∧ Growth.channel_id row = Channel.channel_id channel
  ∧ Growth.current_subs row = Channel.subscriber_count channel
  ∧ Growth.current_views row = Channel.view_count channel
  ∧ Growth.published_at row = Channel.published_at channel.

(** ** The textual shapes of an instant

    The three shapes of a timestamp that [parse_date] accepts, written out
    from the fields of a [datetime]. *)

Module Shape.

Local Open Scope char_scope.
Local Open Scope Z_scope.

(** The character of a decimal digit. *)
Definition digit (v : Z) : ascii := ascii_of_nat (48 + Z.to_nat (v mod 10)).

(** [n] with two, four and six digits, followed by [rest]. *)
Definition pad2 (n : Z) (rest : string) : string :=
  String (digit (n / 10)) (String (digit n) rest).

Definition pad4 (n : Z) (rest : string) : string :=
  String (digit (n / 1000)) (String (digit (n / 100)) (pad2 n rest)).

Definition pad6 (n : Z) (rest : string) : string :=
  String (digit (n / 100000)) (String (digit (n / 10000)) (pad4 n rest)).

(** [YYYY-MM-DDTHH:MM:SS], followed by [rest]. *)
Definition seconds (t : Datetime.datetime) (rest : string) : string :=
  pad4 (Datetime.year t) (String "-"
    (pad2 (Datetime.month t) (String "-"
      (pad2 (Datetime.day t) (String "T"
        (pad2 (Datetime.hour t) (String ":"
          (pad2 (Datetime.minute t) (String ":"
            (pad2 (Datetime.second t) rest)))))))))).

(** Shape (a), [YYYY-MM-DDTHH:MM:SS.ffffffZ], and shape (b),
    [YYYY-MM-DDTHH:MM:SSZ]. *)
Definition shape_a (t : Datetime.datetime) : string :=
  seconds t (String "." (pad6 (Datetime.microsecond t) "Z")).

Definition shape_b (t : Datetime.datetime) : string := seconds t "Z".

(** Shape (c), what [isoformat] gives for the instant in UTC:
    [YYYY-MM-DDTHH:MM:SS+00:00], with [.ffffff] after the seconds when the
    microseconds are not zero. *)
Definition shape_c (t : Datetime.datetime) : string :=
  seconds t
    (if Datetime.microsecond t =? 0 then "+00:00"%string
     else String "." (pad6 (Datetime.microsecond t) "+00:00")).

(** A naive value the constructor accepts. *)
Definition valid (t : Datetime.datetime) : Prop :=
  Datetime.new (Datetime.year t) (Datetime.month t) (Datetime.day t)
               (Datetime.hour t) (Datetime.minute t) (Datetime.second t)
               (Datetime.microsecond t) None = inr t.

(** The same fields, in UTC. *)
Definition utc (t : Datetime.datetime) : Datetime.datetime :=
  Datetime.mk_datetime (Datetime.year t) (Datetime.month t) (Datetime.day t)
    (Datetime.hour t) (Datetime.minute t) (Datetime.second t)
    (Datetime.microsecond t) (Some 0).

(** The regular expression of a directive. *)
Definition re (directive : ascii) : Re.regex :=
  default Re.Eps (Strptime.TimeRE directive).

(** The regular expression of [%Y-%m-%dT%H:%M:%S], followed by [r], and
    the groups it binds on the digits of [t], last first. *)
Definition seconds_re (r : Re.regex) : Re.regex :=
  Re.Cat (re "Y") (Re.Cat (Re.Lit "-")
    (Re.Cat (re "m") (Re.Cat (Re.Lit "-")
      (Re.Cat (re "d") (Re.Cat (Re.Lit "T")
        (Re.Cat (re "H") (Re.Cat (Re.Lit ":")
          (Re.Cat (re "M") (Re.Cat (Re.Lit ":")
            (Re.Cat (re "S") r)))))))))).

Definition groups (t : Datetime.datetime) : Re.groupdict :=
  [("S", pad2 (Datetime.second t) ""); ("M", pad2 (Datetime.minute t) "");
   ("H", pad2 (Datetime.hour t) ""); ("d", pad2 (Datetime.day t) "");
   ("m", pad2 (Datetime.month t) ""); ("Y", pad4 (Datetime.year t) "")].

(** A continuation of the matcher that fails on every string that starts
    with a digit. *)
Definition fails_on_digits {A} (k : string → Re.groupdict → option A) : Prop :=
  ∀ c s g, PyStr.is_digit c = true → k (String c s) g = None.

End Shape.

(** ** Dates, timestamps, signs and numerals *)

(** The calendar date of a value, and the order of calendar dates. *)
Definition date_of (t : Datetime.datetime) : list Z :=
  [Datetime.year t; Datetime.month t; Datetime.day t].

Definition date_le (a b : list Z) : bool := Datetime._cmp_tuple a b <=? 0.

(** The bounds [min_date'] and [max_date'] leave at least the range of
    [min_date] and [max_date]. *)
Definition lower_bound_widened (min_date' min_date : option Datetime.datetime)
  : Prop :=
  match min_date', min_date with
  | None, _ => True
  | Some bound', Some bound => Datetime.le bound' bound = inr true
  | Some _, None => False
  end.

Definition upper_bound_widened (max_date' max_date : option Datetime.datetime)
  : Prop :=
  match max_date', max_date with
  | None, _ => True
  | Some bound', Some bound => Datetime.le bound bound' = inr true
  | Some _, None => False
  end.

(** The microseconds from the start of day 0 of the calendar to a naive
    value. *)
Definition timestamp (t : Datetime.datetime) : Z :=
  ((Datetime.toordinal t * 86400 + Datetime.hour t * 3600
    + Datetime.minute t * 60 + Datetime.second t) * 1000000
   + Datetime.microsecond t).

(** A naive value with a date of the calendar and a time of day. *)
Definition in_calendar (t : Datetime.datetime) : Prop :=
  Datetime.tzinfo t = None
  ∧ (1 <= Datetime.year t <= 9999 ∧ 1 <= Datetime.month t <= 12
     ∧ 1 <= Datetime.day t
         <= Datetime._days_in_month (Datetime.year t) (Datetime.month t))
  ∧ (0 <= Datetime.hour t <= 23 ∧ 0 <= Datetime.minute t <= 59
     ∧ 0 <= Datetime.second t <= 59 ∧ 0 <= Datetime.microsecond t <= 999999).

(** The sign bit of a float that is not a NaN. *)
Definition signed (x : PyFloat.float) (s : bool) : Prop :=
  match x with
  | S754_zero s' | S754_infinity s' | S754_finite s' _ _ => s' = s
  | S754_nan => False
  end.

(** No two rows have equal growth rates: of every rate there is at most
    one row. *)
Definition no_ties (rows : list Growth.t) : Prop :=
  ∀ rate,
    (length (filter (λ r, PyFloat.eq (Growth.growth_rate r) rate = true) rows)
     <= 1)%nat.

(** [str(n)] for an [int]: the decimal numeral of [n]; and the number of
    its digits. *)
Definition decimal (n : Z) : string :=
  DecimalString.NilZero.string_of_int (Z.to_int n).

Definition digits (n : Z) : nat := String.length (decimal (Z.abs n)).

(** The item of a response to [channels().list] that carries the fields of
    [c], the counts as decimal numerals. *)
Definition item_of (c : Channel.t) : Json.channel_item :=
  {| Json.statistics :=
       Some (<["subscriberCount" := decimal (Channel.subscriber_count c)]>
             (<["viewCount" := decimal (Channel.view_count c)]>
             (<["videoCount" := decimal (Channel.video_count c)]> ∅)));
     Json.snippet :=
       Some (<["title" := Channel.title c]>
             (<["publishedAt" := Channel.published_at c]> ∅)) |}.

(** The search item that names the channel [channel_id]. *)
Definition search_item_of (channel_id : string) : Json.search_item :=
  {| Json.id := Some (<["kind" := "youtube#channel"]>
                      (<["channelId" := channel_id]> ∅)) |}.

(** Shape (a) with the fraction of the second written with the digits
    [ds], the microseconds these digits stand for, and the date alone. *)
Definition fraction_digits (ds : list Z) (rest : string) : string :=
  foldr (λ d s, String (Shape.digit d) s) rest ds.

Definition shape_a_fraction (t : Datetime.datetime) (ds : list Z) : string :=
  Shape.seconds t (String "." (fraction_digits ds "Z")).

Definition fraction_microseconds (ds : list Z) : Z :=
  foldl (λ acc d, acc * 10 + d `mod` 10) 0
        (ds ++ replicate (6 - length ds) 0).

Definition shape_date (t : Datetime.datetime) : string :=
  Shape.pad4 (Datetime.year t) (String "-"
    (Shape.pad2 (Datetime.month t) (String "-"
      (Shape.pad2 (Datetime.day t) "")))).

(** ** Inputs of the scenarios *)

Section examples.
Local Open Scope string_scope.

(** A clock that stands still at noon of 1 June 2024. *)
Definition noon : Datetime.datetime :=
  Datetime.mk_datetime 2024 6 1 12 0 0 0 None.

Definition frozen (now : Datetime.datetime) : nat → Datetime.datetime :=
  λ _, now.

Definition channel_of (id : string) (subs views : Z) (published : string)
  : Channel.t :=
  {| Channel.channel_id := id; Channel.title := "Channel " +:+ id;
     Channel.subscriber_count := subs; Channel.view_count := views;
     Channel.video_count := 10; Channel.published_at := published |}.

(** Created 100 days before [noon], 1000 subscribers, 50000 views. *)
Definition scenario_A : Channel.t :=
  channel_of "A" 1000 50000 "2024-02-22T12:00:00Z".

(** Two channels with the growth rate 50.0 and one with a higher rate. *)
Definition scenario_B : list Channel.t :=
  [ channel_of "B1" 50 700 "2024-02-22T12:00:00Z";
    channel_of "B2" 100 300 "2023-11-14T12:00:00Z";
    channel_of "B3" 400 900 "2024-02-22T08:30:00.250Z" ].

(** What [analyze_channels_growth] returns for [scenario_B] at [noon]. *)
Definition scenario_B_rows : list Growth.t :=
  [ {| Growth.channel_name := "Channel B3"; Growth.channel_id := "B3";
       Growth.current_subs := 400; Growth.current_views := 900;
       Growth.published_at := "2024-02-22T08:30:00.250Z";
       Growth.days_since_creation := 100;
       Growth.daily_subs := PyFloat.of_int 4;
       Growth.daily_views := PyFloat.of_int 9;
       Growth.growth_rate := PyFloat.of_int 400 |};
    {| Growth.channel_name := "Channel B1"; Growth.channel_id := "B1";
       Growth.current_subs := 50; Growth.current_views := 700;
       Growth.published_at := "2024-02-22T12:00:00Z";
       Growth.days_since_creation := 100;
       Growth.daily_subs := S754_finite false 4503599627370496 (-53);
       Growth.daily_views := PyFloat.of_int 7;
       Growth.growth_rate := PyFloat.of_int 50 |};
    {| Growth.channel_name := "Channel B2"; Growth.channel_id := "B2";
       Growth.current_subs := 100; Growth.current_views := 300;
       Growth.published_at := "2023-11-14T12:00:00Z";
       Growth.days_since_creation := 200;
       Growth.daily_subs := S754_finite false 4503599627370496 (-53);
       Growth.daily_views := S754_finite false 6755399441055744 (-52);
       Growth.growth_rate := PyFloat.of_int 50 |} ].

(** Published on the day of the analysis, and on the day after it. *)
Definition published_today : Channel.t :=
  channel_of "E" 1000 50000 "2024-06-01T00:00:00Z".

Definition published_tomorrow : Channel.t :=
  channel_of "F" 1000 50000 "2024-06-02T00:00:00Z".

(** One day old, with more subscribers than a float can hold. *)
Definition beyond_float : Channel.t :=
  channel_of "G" (2 ^ 1024) 50000 "2024-05-31T12:00:00Z".
End examples.

(** A heap with the three dictionaries of scenario B at the references 1, 2
    and 3 and the list of them at the reference 4. *)
Definition scenario_B_heap : gmap nat Store.object :=
  <[4%nat:=Store.ListObj [1; 2; 3]%nat]>
    (list_to_map (zip [1; 2; 3]%nat (Store.ChannelDict <$> scenario_B))).

(** ** Inputs of the examples *)

Section more_examples.
Local Open Scope string_scope.

Definition channel_A : Channel.t :=
  channel_of "A" 1000 50000 "2020-06-15T08:30:00Z".

Definition channel_B : Channel.t :=
  channel_of "B" 500 1000 "2023-01-01T00:00:00.500Z".

(** A client whose search names channel A twice, channel B once and a
    channel that is gone: as dictionaries, and as typed answers. *)
Definition example_youtube : Json.client :=
  {| Json.search_list := λ _ _,
       {| Json.search_items :=
            Some (search_item_of <$> ["A"; "B"; "A"; "gone"]) |};
     Json.channels_list := λ channel_id,
       {| Json.channels_items :=
            Some (if decide (channel_id = "A") then [item_of channel_A]
                  else if decide (channel_id = "B") then [item_of channel_B]
                  else []) |} |}.

Definition resource_of (c : Channel.t) : Api.resource :=
  {| Api.snippet_title := Channel.title c;
     Api.snippet_publishedAt := Channel.published_at c;
     Api.statistics_subscriberCount := Channel.subscriber_count c;
     Api.statistics_viewCount := Channel.view_count c;
     Api.statistics_videoCount := Channel.video_count c |}.

Definition example_api : Api.t :=
  {| Api.search_list := λ _ _, ["A"; "B"; "A"; "gone"];
     Api.channels_list := λ channel_id,
       if decide (channel_id = "A") then [resource_of channel_A]
       else if decide (channel_id = "B") then [resource_of channel_B]
       else [] |}.

(** Half a second after midnight of 1 January 2023. *)
Definition half_past_midnight : Datetime.datetime :=
  Datetime.mk_datetime 2023 1 1 0 0 0 500000 None.

End more_examples.

(** * Properties *)

(** ** The order of floats *)

Module PyFloatFacts.

Import PyFloat.

Lemma SFcompare_antisym x y :
  SFcompare y x = CompOpp <$> SFcompare x y.
Proof.
  destruct x as [sx|sx| |sx mx ex], y as [sy|sy| |sy my ey];
    try destruct sx; try destruct sy; simpl; try reflexivity.
  - rewrite (Z.compare_antisym ex ey).
    destruct (ex ?= ey)%Z eqn:E; simpl; try reflexivity.
    rewrite (Pos.compare_cont_antisym _ _ Eq). simpl.
    by destruct (Pos.compare_cont Eq mx my).
  - rewrite (Z.compare_antisym ex ey).
    destruct (ex ?= ey)%Z eqn:E; simpl; try reflexivity.
    rewrite (Pos.compare_cont_antisym _ _ Eq). reflexivity.
Qed.

Lemma lt_asym x y : lt x y = true → lt y x = false.
Proof.
  unfold lt, SFltb. rewrite (SFcompare_antisym x y).
  by destruct (SFcompare x y) as [[]|].
Qed.

Lemma lt_irrefl x : lt x x = false.
Proof. destruct (lt x x) eqn:E; [|done]. by rewrite (lt_asym _ _ E) in E. Qed.

Lemma not_lt_ge x y :
  is_nan x = false → is_nan y = false → lt x y = false → ge x y = true.
Proof.
  unfold lt, ge, SFltb, SFleb. rewrite (SFcompare_antisym x y).
  destruct x as [sx|sx| |sx mx ex], y as [sy|sy| |sy my ey]; try done;
    try destruct sx; try destruct sy; simpl; try done.
  all: destruct (ex ?= ey)%Z; simpl; try done;
       by destruct (Pos.compare_cont Eq mx my).
Qed.

Lemma ge_not_lt x y : ge x y = true → lt x y = false.
Proof.
  unfold lt, ge, SFltb, SFleb. rewrite (SFcompare_antisym x y).
  by destruct (SFcompare x y) as [[]|].
Qed.

(** Two floats equal to a third one are not below one another. *)
Lemma eq_eq_not_lt x y k :
  eq x k = true → eq y k = true → lt y x = false.
Proof.
  unfold eq, lt, SFeqb, SFltb.
  destruct x as [sx|sx| |sx mx ex], y as [sy|sy| |sy my ey],
           k as [sk|sk| |sk mk ek];
    try destruct sx; try destruct sy; try destruct sk; simpl; try done.
  all: destruct (ex ?= ek)%Z eqn:E1; try done;
       destruct (ey ?= ek)%Z eqn:E2; try done;
       apply Z.compare_eq in E1, E2; subst;
       rewrite Z.compare_refl;
       destruct (Pos.compare_cont Eq mx mk) eqn:E3; try done;
       destruct (Pos.compare_cont Eq my mk) eqn:E4; try done;
       apply Pos.compare_eq in E3, E4; subst;
       by rewrite Pos.compare_cont_refl.
Qed.

(** Case analysis on every comparison of exponents or mantissas. *)
Ltac cases_compare :=
  repeat match goal with
         | |- context [(?a ?= ?b)%Z] =>
             destruct (Z.compare_spec a b); cbv beta iota delta [CompOpp]
         | |- context [(?a ?= ?b)%positive] =>
             destruct (Pos.compare_spec a b); cbv beta iota delta [CompOpp]
         | |- context [Pos.compare_cont Eq ?a ?b] =>
             change (Pos.compare_cont Eq a b) with (Pos.compare a b);
             destruct (Pos.compare_spec a b); cbv beta iota delta [CompOpp]
         end.

(** On floats other than NaN, [not (x < y)] is a total preorder whose
    equivalence is [==]. *)
Lemma not_lt_trans x y z :
  is_nan x = false → is_nan y = false → is_nan z = false →
  lt x y = false → lt y z = false → lt x z = false.
Proof.
  unfold lt, SFltb.
  destruct x as [[]|[]| |[] mx ex], y as [[]|[]| |[] my ey],
           z as [[]|[]| |[] mz ez]; simpl; try done;
    intros _ _ _.
  all: cases_compare; try done; try lia.
Qed.

Lemma not_lt_eq x y :
  is_nan x = false → is_nan y = false →
  lt x y = false → lt y x = false → eq y x = true.
Proof.
  unfold lt, eq, SFltb, SFeqb. rewrite (SFcompare_antisym x y).
  destruct x as [[]|[]| |[] mx ex], y as [[]|[]| |[] my ey]; simpl; try done;
    intros _ _.
  all: cases_compare; try done; try lia.
Qed.

Lemma eq_reflexive x : is_nan x = false → eq x x = true.
Proof.
  unfold eq, SFeqb.
  destruct x as [[]|[]| |[] mx ex]; simpl; try done;
    by rewrite Z.compare_refl, Pos.compare_cont_refl.
Qed.

(** Rounding a non-negative mantissa never produces a NaN. *)
Lemma shr_1_nonneg mrs : 0 <= shr_m mrs → 0 <= shr_m (shr_1 mrs).
Proof. destruct mrs as [[|[p|p|]|p] r s]; simpl; lia. Qed.

Lemma iter_shr_1_nonneg p mrs :
  0 <= shr_m mrs → 0 <= shr_m (SpecFloat.iter_pos shr_1 p mrs).
Proof.
  revert mrs. induction p as [p IH|p IH|]; simpl; intros mrs H.
  - by apply IH, IH, shr_1_nonneg.
  - by apply IH, IH.
  - by apply shr_1_nonneg.
Qed.

Lemma shr_fexp_nonneg m e l :
  0 <= m → 0 <= shr_m (fst (shr_fexp prec emax m e l)).
Proof.
  intros H. unfold shr_fexp, shr.
  assert (0 <= shr_m (shr_record_of_loc m l)) by (by destruct l as [|[]]).
  destruct (fexp prec emax (Zdigits2 m + e) - e); simpl; try done.
  by apply iter_shr_1_nonneg.
Qed.

Lemma round_nearest_even_nonneg m l :
  0 <= m → 0 <= round_nearest_even m l.
Proof.
  intros H. destruct l as [|[]]; simpl; try lia.
  destruct (Z.even m); lia.
Qed.

Lemma binary_round_aux_not_nan sx mx ex lx :
  0 <= mx → is_nan (binary_round_aux prec emax sx mx ex lx) = false.
Proof.
  intros H. unfold binary_round_aux.
  pose proof (shr_fexp_nonneg mx ex lx H) as H1.
  destruct (shr_fexp prec emax mx ex lx) as [mrs' e']. simpl in H1.
  pose proof (shr_fexp_nonneg _ e' loc_Exact
                (round_nearest_even_nonneg _ (loc_of_shr_record mrs') H1))
    as H2.
  destruct (shr_fexp prec emax _ e' loc_Exact) as [mrs'' e'']. simpl in H2.
  destruct (shr_m mrs'') as [|m|m]; [done| |lia].
  by destruct (e'' <=? emax - prec).
Qed.

Lemma SFdiv_core_binary_nonneg m1 e1 m2 e2 :
  0 <= m1 → 0 < m2 →
  0 <= (SFdiv_core_binary prec emax m1 e1 m2 e2).1.1.
Proof.
  intros H1 H2. unfold SFdiv_core_binary.
  set (s := e1 - e2 - _).
  set (m' := match s with Z0 => m1 | Zpos _ => Z.shiftl m1 s | Zneg _ => 0 end).
  assert (0 <= m') as Hm'.
  { subst m'. destruct s; try lia. by apply Z.shiftl_nonneg. }
  pose proof (Z.div_eucl_eq m' m2 ltac:(lia)) as Heq.
  pose proof (Z.mod_pos_bound m' m2 H2) as Hmod.
  unfold Z.modulo in Hmod.
  destruct (Z.div_eucl m' m2) as [q r]. simpl. nia.
Qed.

(** The quotient of two integers is a zero or a finite float. *)
Lemma int_true_divide_finite a b q :
  int_true_divide a b = inr q → is_finite q = true.
Proof.
  unfold int_true_divide.
  destruct (b =? 0) eqn:Hb; [done|].
  destruct (a =? 0) eqn:Ha; [by intros [= <-]|].
  destruct a as [|a|a], b as [|b|b]; try done; simpl.
  all: match goal with
       | |- context [SFdiv_core_binary _ _ ?m1 ?e1 ?m2 ?e2] =>
           pose proof (SFdiv_core_binary_nonneg m1 e1 m2 e2
                         ltac:(lia) ltac:(lia)) as Hq;
           destruct (SFdiv_core_binary prec emax m1 e1 m2 e2)
             as [[mz ez] lz]; simpl in Hq
       end.
  all: match goal with
       | |- context [binary_round_aux _ _ ?s ?m ?e ?l] =>
           pose proof (binary_round_aux_not_nan s m e l Hq) as Hn;
           destruct (binary_round_aux prec emax s m e l)
       end; try done; by intros [= <-].
Qed.

Lemma mul_100_not_nan q :
  is_finite q = true → is_nan (mul q (of_int 100)) = false.
Proof.
  change (of_int 100) with (S754_finite false 7036874417766400 (-46)).
  destruct q as [s|s| |s m e]; try done. intros _.
  apply binary_round_aux_not_nan. lia.
Qed.

Lemma digits2_pos_size p : digits2_pos p = Pos.size p.
Proof. induction p; simpl; congruence. Qed.

Lemma Zdigits2_le n k : 0 <= n < 2 ^ k -> 0 <= k -> Zdigits2 n <= k.
Proof.
  intros [Hn Hlt] Hk. destruct n as [|p|p]; simpl; try lia.
  rewrite digits2_pos_size.
  pose proof (Pos.size_le p) as Hs.
  apply Pos2Z.pos_le_pos in Hs. rewrite Pos2Z.inj_pow in Hs.
  destruct (Z.le_gt_cases (Z.pos (Pos.size p)) k) as [|Hgt]; [assumption|].
  assert (2 ^ (k + 1) <= 2 ^ Z.pos (Pos.size p)) by (apply Z.pow_le_mono_r; lia).
  rewrite Z.pow_add_r in H by lia. lia.
Qed.

Lemma shr_1_m mrs : 0 <= shr_m mrs -> shr_m (shr_1 mrs) = shr_m mrs / 2.
Proof.
  destruct mrs as [[|[p|p|]|p] r s]; simpl; intros H; try lia;
    rewrite <- Z.div2_div; reflexivity.
Qed.

Lemma pow2_xO p : 2 ^ Z.pos p~0 = 2 ^ Z.pos p * 2 ^ Z.pos p.
Proof. rewrite <- Z.pow_add_r by lia. f_equal. lia. Qed.

Lemma pow2_xI p : 2 ^ Z.pos p~1 = 2 * 2 ^ Z.pos p * 2 ^ Z.pos p.
Proof.
  replace (Z.pos p~1) with (1 + Z.pos p + Z.pos p) by lia.
  rewrite !Z.pow_add_r by lia. reflexivity.
Qed.

Lemma iter_shr_1_m p mrs :
  0 <= shr_m mrs ->
  shr_m (SpecFloat.iter_pos shr_1 p mrs) = shr_m mrs / 2 ^ Z.pos p.
Proof.
  revert mrs. induction p as [p IH|p IH|]; simpl SpecFloat.iter_pos; intros mrs H.
  - assert (0 <= shr_m (shr_1 mrs))
      by (rewrite shr_1_m by lia; apply Z.div_pos; lia).
    assert (0 <= shr_m (SpecFloat.iter_pos shr_1 p (shr_1 mrs)))
      by (rewrite IH by lia; apply Z.div_pos; lia).
    rewrite IH, IH, shr_1_m by lia.
    rewrite !Z.div_div by lia. rewrite pow2_xI. f_equal. lia.
  - assert (0 <= shr_m (SpecFloat.iter_pos shr_1 p mrs))
      by (rewrite IH by lia; apply Z.div_pos; lia).
    rewrite IH, IH by lia.
    rewrite !Z.div_div by lia. rewrite pow2_xO; reflexivity.
  - rewrite shr_1_m by lia. reflexivity.
Qed.

Lemma shr_fexp_below m e l :
  e <= 970 -> below m e ->
  let '(mrs, e') := shr_fexp prec emax m e l in
  e' <= 970 /\ below (shr_m mrs) e'.
Proof.
  intros He [Hm Hlt]. unfold shr_fexp, shr.
  assert (shr_m (shr_record_of_loc m l) = m) as Hrec by (destruct l as [|[]]; reflexivity).
  assert (Zdigits2 m <= 1023 - e) as Hd by (apply Zdigits2_le; lia).
  destruct (fexp prec emax (Zdigits2 m + e) - e) as [|n|n] eqn:Hn.
  - rewrite Hrec. split; [lia|split; lia].
  - rewrite iter_shr_1_m, Hrec by lia.
    assert (e + Z.pos n <= 970) as He'.
    { unfold fexp, emin, prec, emax in Hn. lia. }
    split; [exact He'|]. split; [apply Z.div_pos; lia|].
    apply Z.div_lt_upper_bound; [lia|].
    rewrite <- Z.pow_add_r by lia.
    replace (Z.pos n + (1023 - (e + Z.pos n))) with (1023 - e) by lia. lia.
  - rewrite Hrec. split; [lia|split; lia].
Qed.

Lemma round_nearest_even_bounds m l :
  0 <= m -> 0 <= round_nearest_even m l <= m + 1.
Proof.
  intros H. destruct l as [|[]]; simpl; try lia.
  destruct (Z.even m); lia.
Qed.

Lemma binary_round_aux_in_range sx mx ex lx :
  ex <= 970 -> below mx ex ->
  match binary_round_aux prec emax sx mx ex lx with
  | S754_zero _ | S754_finite _ _ _ => True
  | _ => False
  end.
Proof.
  intros He Hb. unfold binary_round_aux.
  pose proof (shr_fexp_below mx ex lx He Hb) as H1.
  destruct (shr_fexp prec emax mx ex lx) as [mrs' e1].
  destruct H1 as [He1 [Hm1 Hlt1]].
  pose proof (round_nearest_even_bounds (shr_m mrs') (loc_of_shr_record mrs') Hm1)
    as Hr.
  set (m1 := round_nearest_even (shr_m mrs') (loc_of_shr_record mrs')) in *.
  clearbody m1.
  assert (Zdigits2 m1 <= 1024 - e1) as Hd.
  { apply Zdigits2_le; [|lia]. split; [lia|].
    replace (1024 - e1) with (1 + (1023 - e1)) by lia.
    rewrite Z.pow_add_r by lia. change (2 ^ 1) with 2. lia. }
  unfold shr_fexp, shr. simpl shr_record_of_loc.
  assert (fexp prec emax (Zdigits2 m1 + e1) <= 971) as Hf.
  { unfold fexp, emin, prec, emax. lia. }
  destruct (fexp prec emax (Zdigits2 m1 + e1) - e1) as [|n|n] eqn:Hn; simpl shr_m.
  - destruct m1 as [|p|p]; [exact I| |lia].
    replace (e1 <=? emax - prec) with true; [exact I|].
    symmetry. apply Z.leb_le. unfold emax, prec. lia.
  - pose proof (iter_shr_1_m n {| shr_m := m1; shr_r := false; shr_s := false |}
                  ltac:(simpl; lia)) as Hi.
    simpl shr_m in Hi.
    assert (0 <= m1 / 2 ^ Z.pos n) as Hq by (apply Z.div_pos; lia).
    rewrite <- Hi in Hq.
    destruct (shr_m (SpecFloat.iter_pos shr_1 n _)) as [|p|p]; [exact I| |lia].
    replace (e1 + Z.pos n <=? emax - prec) with true; [exact I|].
    symmetry. apply Z.leb_le. unfold emax, prec. lia.
  - destruct m1 as [|p|p]; [exact I| |lia].
    replace (e1 <=? emax - prec) with true; [exact I|].
    symmetry. apply Z.leb_le. unfold emax, prec. lia.
Qed.

Lemma SFdiv_core_binary_below m1 m2 :
  0 < m1 < 2 ^ 1023 -> 0 < m2 ->
  let '(q, e, l) := SFdiv_core_binary prec emax m1 0 m2 0 in
  e <= 970 /\ below q e.
Proof.
  intros [H1 Hlt] H2. unfold SFdiv_core_binary.
  set (e' := Z.min (fexp prec emax (Zdigits2 m1 + 0 - (Zdigits2 m2 + 0))) (0 - 0)).
  assert (e' <= 0) as He' by (subst e'; lia).
  set (s := 0 - 0 - e').
  set (m' := match s with Z0 => m1 | Zpos _ => Z.shiftl m1 s | Zneg _ => 0 end).
  assert (0 <= m' < 2 ^ (1023 - e')) as Hm'.
  { subst m'. destruct s as [|p|p] eqn:Hs; try lia.
    - replace e' with 0 by lia. simpl. lia.
    - rewrite Z.shiftl_mul_pow2 by lia. split; [lia|].
      replace (1023 - e') with (1023 + Z.pos p) by lia.
      rewrite Z.pow_add_r by lia.
      apply Z.mul_lt_mono_pos_r; lia. }
  pose proof (Z.div_eucl_eq m' m2 ltac:(lia)) as Heq.
  pose proof (Z.mod_pos_bound m' m2 H2) as Hmod. unfold Z.modulo in Hmod.
  destruct (Z.div_eucl m' m2) as [q r].
  split; [lia|]. unfold below. split; nia.
Qed.

(** The quotient of an integer below [2 ^ 1023] in magnitude by an integer
    other than zero is within the range of a float. *)
Lemma int_true_divide_in_range a b :
  b ≠ 0 → Z.abs a < 2 ^ 1023 → ∃ q, int_true_divide a b = inr q.
Proof.
  intros Hb Ha. unfold int_true_divide.
  destruct (Z.eqb_spec b 0) as [|_]; [done|].
  destruct (Z.eqb_spec a 0) as [|Ha0]; [by eauto|].
  assert (∀ pa pb s,
            Z.pos pa < 2 ^ 1023 →
            ∃ q, match binary_round_aux prec emax s
                         (SFdiv_core_binary prec emax (Z.pos pa) 0 (Z.pos pb) 0).1.1
                         (SFdiv_core_binary prec emax (Z.pos pa) 0 (Z.pos pb) 0).1.2
                         (SFdiv_core_binary prec emax (Z.pos pa) 0 (Z.pos pb) 0).2
                 with
                 | S754_infinity _ => raise OverflowError
                 | q => ret q
                 end = inr q) as Hdiv.
  { intros pa pb s Hpa.
    pose proof (SFdiv_core_binary_below (Z.pos pa) (Z.pos pb)
                  ltac:(lia) ltac:(lia)) as Hcore.
    destruct (SFdiv_core_binary prec emax (Z.pos pa) 0 (Z.pos pb) 0)
      as [[mz ez] lz]. destruct Hcore as [He Hbelow]. simpl.
    pose proof (binary_round_aux_in_range s mz ez lz He Hbelow) as Hr.
    destruct (binary_round_aux prec emax s mz ez lz); try done; by eauto. }
  destruct a as [|pa|pa], b as [|pb|pb]; try done; simpl;
    match goal with
    | |- context [binary_round_aux _ _ ?s] =>
        destruct (Hdiv pa pb s ltac:(lia)) as [q Hq]
    end;
    destruct (SFdiv_core_binary prec emax (Z.pos pa) 0 (Z.pos pb) 0)
      as [[mz ez] lz]; by eauto.
Qed.

End PyFloatFacts.

(** ** [list.sort]: permutation, order and stability *)

Module PyListFacts.

Import PyList.

Section sort.
Context {A K : Type} (key : A → K) (lt : K → K → bool).
Implicit Types (x y : A) (l : list A).

Lemma insert_Permutation x l : insert key lt x l ≡ₚ x :: l.
Proof.
  induction l as [|y l IH]; simpl; [done|].
  destruct (lt (key y) (key x)); [|done].
  rewrite IH. apply Permutation_swap.
Qed.

Lemma sort_ascending_Permutation l : sort_ascending key lt l ≡ₚ l.
Proof.
  induction l as [|x l IH]; simpl; [done|].
  by rewrite insert_Permutation, IH.
Qed.

Lemma sort_Permutation rev l : sort key lt rev l ≡ₚ l.
Proof.
  destruct rev; simpl; [|apply sort_ascending_Permutation].
  by rewrite reverse_Permutation, sort_ascending_Permutation,
             reverse_Permutation.
Qed.

Lemma length_sort rev l : length (sort key lt rev l) = length l.
Proof. apply Permutation_length, sort_Permutation. Qed.

Section order.
Hypothesis lt_asym : ∀ a b, lt a b = true → lt b a = false.

Lemma HdRel_insert x y l :
  ascending key lt y x → HdRel (ascending key lt) y l →
  HdRel (ascending key lt) y (insert key lt x l).
Proof.
  intros Hyx [|z l' Hyz]; simpl; [by constructor|].
  destruct (lt (key z) (key x)); by constructor.
Qed.

Lemma Sorted_insert x l :
  Sorted (ascending key lt) l → Sorted (ascending key lt) (insert key lt x l).
Proof.
  induction 1 as [|y l Hsort IH Hhd]; simpl.
  { repeat constructor. }
  destruct (lt (key y) (key x)) eqn:Hlt.
  - constructor; [done|].
    apply HdRel_insert; [|done]. by apply lt_asym.
  - by repeat constructor.
Qed.

Lemma Sorted_sort_ascending l : Sorted (ascending key lt) (sort_ascending key lt l).
Proof.
  induction l as [|x l IH]; simpl; [constructor|by apply Sorted_insert].
Qed.

(** With [reverse=True] every element is followed by one that is not
    above it. *)
Lemma Sorted_sort_reverse l :
  Sorted (flip (ascending key lt)) (sort key lt true l).
Proof. apply Sorted_reverse, Sorted_sort_ascending. Qed.
End order.

Section stable.
(** [P] selects keys none of which is below another: the elements with
    such keys keep their order. *)
Context (P : K → Prop) `{!∀ k, Decision (P k)}.
Hypothesis P_not_lt : ∀ a b, P a → P b → lt a b = false.

Lemma filter_insert x l :
  filter (λ y, P (key y)) (insert key lt x l)
  = filter (λ y, P (key y)) (x :: l).
Proof.
  induction l as [|y l IH]; simpl; [done|].
  destruct (lt (key y) (key x)) eqn:Hlt; [|done].
  rewrite filter_cons, IH, !filter_cons.
  destruct (decide (P (key y))) as [Hy|Hy]; [|done].
  destruct (decide (P (key x))) as [Hx|Hx]; [|done].
  by rewrite (P_not_lt _ _ Hy Hx) in Hlt.
Qed.

Lemma filter_sort_ascending l :
  filter (λ y, P (key y)) (sort_ascending key lt l)
  = filter (λ y, P (key y)) l.
Proof.
  induction l as [|x l IH]; simpl; [done|].
  by rewrite filter_insert, !filter_cons, IH.
Qed.

Lemma filter_sort rev l :
  filter (λ y, P (key y)) (sort key lt rev l)
  = filter (λ y, P (key y)) l.
Proof.
  destruct rev; simpl; [|apply filter_sort_ascending].
  by rewrite filter_reverse, filter_sort_ascending, filter_reverse,
             reverse_involutive.
Qed.
End stable.
End sort.

(** A sorted rearrangement that keeps the order within every class of
    equivalent elements is unique: whatever algorithm a stable sort uses,
    it returns this list. *)
Section unique.
Context {A : Type} (R : relation A) (good : A → Prop) (same : A → A → Prop).
Context {same_dec : ∀ x y, Decision (same y x)}.
Hypothesis R_trans :
  ∀ x y z, good x → good y → good z → R x y → R y z → R x z.
Hypothesis R_same : ∀ x y, good x → good y → R x y → R y x → same y x.
Hypothesis same_refl : ∀ x, good x → same x x.

Lemma Sorted_head_least x l :
  Forall good (x :: l) → Sorted R (x :: l) → Forall (R x) l.
Proof.
  revert x. induction l as [|y l IH]; intros x Hgood Hsorted; [constructor|].
  apply Sorted_inv in Hsorted as [Hsorted Hhd].
  apply HdRel_inv in Hhd.
  apply Forall_cons in Hgood as [Hx Hgood].
  pose proof Hgood as [Hy Hl]%Forall_cons.
  constructor; [done|].
  eapply Forall_impl; [|exact (λ z (H : good z ∧ R y z),
                                R_trans x y z Hx Hy (proj1 H) Hhd (proj2 H))].
  apply Forall_and. split; [done|]. by apply IH.
Qed.

Lemma stable_sorted_unique l1 l2 :
  Forall good l1 → Sorted R l1 → Sorted R l2 → l1 ≡ₚ l2 →
  (∀ x, filter (λ y, same y x) l1 = filter (λ y, same y x) l2) →
  l1 = l2.
Proof.
  revert l2. induction l1 as [|x1 l1 IH]; intros l2 Hgood H1 H2 Hperm Hstable.
  { by apply Permutation_nil_l in Hperm. }
  destruct l2 as [|x2 l2]; [by apply Permutation_nil_r in Hperm|].
  assert (Forall good (x2 :: l2)) as Hgood2 by (by rewrite <-Hperm).
  pose proof (Sorted_head_least _ _ Hgood H1) as Hleast1.
  pose proof (Sorted_head_least _ _ Hgood2 H2) as Hleast2.
  pose proof Hgood as [Hx1 Hl1]%Forall_cons.
  pose proof Hgood2 as [Hx2 Hl2]%Forall_cons.
  assert (x1 = x2) as <-.
  { assert (x2 ∈ x1 :: l1) as Hin2 by (rewrite Hperm; left).
    assert (x1 ∈ x2 :: l2) as Hin1 by (rewrite <-Hperm; left).
    apply elem_of_cons in Hin2 as [|Hin2]; [done|].
    apply elem_of_cons in Hin1 as [|Hin1]; [done|].
    assert (same x2 x1) as Hsame.
    { apply R_same; [done..| |].
      - by eapply Forall_forall in Hleast1.
      - by eapply Forall_forall in Hleast2. }
    specialize (Hstable x1). rewrite !filter_cons in Hstable.
    destruct (decide (same x1 x1)) as [|[]]; [|by apply same_refl].
    destruct (decide (same x2 x1)); [|done]. by injection Hstable. }
  f_equal. apply IH.
  - done.
  - by apply Sorted_inv in H1 as [? _].
  - by apply Sorted_inv in H2 as [? _].
  - by eapply Permutation_cons_inv.
  - intros x. specialize (Hstable x). rewrite !filter_cons in Hstable.
    destruct (decide (same x1 x)); [by injection Hstable|done].
Qed.
End unique.

(** Adjacent positions of a sorted list are related. *)
Lemma Sorted_lookup {A} (R : relation A) (l : list A) i x y :
  Sorted R l → l !! i = Some x → l !! S i = Some y → R x y.
Proof.
  intros Hs. revert i. induction Hs as [|z l Hs IH Hhd]; intros i Hx Hy.
  { done. }
  destruct i as [|i]; simpl in *.
  - injection Hx as ->. destruct Hhd as [|w l' Hzw]; [done|].
    by injection Hy as ->.
  - by eapply IH.
Qed.

End PyListFacts.

(** ** The monad of results *)

Lemma bind_inr {A B} (m : result A) (k : A → result B) y :
  bind m k = inr y ↔ ∃ x, m = inr x ∧ k x = inr y.
Proof.
  destruct m as [e|x]; simpl; split.
  - done.
  - by intros (? & ? & ?).
  - eauto.
  - by intros (? & [= ->] & ?).
Qed.

Lemma bind_inl {A B} (m : result A) (k : A → result B) e :
  m = inl e → bind m k = inl e.
Proof. by intros ->. Qed.

Lemma result_inl_or_inr {A} (m : result A) : (∃ e, m = inl e) ∨ (∃ x, m = inr x).
Proof. destruct m; eauto. Qed.

(** ** The loop of [analyze_channels_growth] *)

Lemma analyze_loop_inr clock k channels results rows :
  analyze_loop clock k channels results = inr rows ↔
  ∃ new, rows = results ++ new
         ∧ imap (λ i channel, growth_row (clock (k + i)%nat) channel) channels
           = inr <$> new.
Proof.
  revert k results. induction channels as [|c channels IH]; intros k results.
  - simpl. split.
    + intros [= <-]. exists []. by rewrite app_nil_r.
    + intros (new & -> & Hnew). destruct new; [|done]. by rewrite app_nil_r.
  - simpl. rewrite bind_inr. split.
    + intros (row & Hrow & Hloop). apply IH in Hloop as (new & -> & Hnew).
      exists (row :: new). split; [by rewrite <-app_assoc|].
      rewrite Nat.add_0_r, fmap_cons. f_equal; [done|].
      rewrite <-Hnew. apply imap_ext. intros i x _. simpl.
      by rewrite Nat.add_succ_r.
    + intros (new & -> & Hnew). destruct new as [|row new]; [done|].
      rewrite fmap_cons, Nat.add_0_r in Hnew. injection Hnew as Hrow Hnew.
      exists row. split; [done|]. apply IH. exists new.
      split; [by rewrite <-app_assoc|].
      rewrite <-Hnew. apply imap_ext. intros i x _. simpl.
      by rewrite Nat.add_succ_r.
Qed.

(** [analyze_channels_growth] returns exactly when every row can be
    computed, and then returns the rows sorted. *)
Lemma analyze_channels_growth_inr clock channels days rows :
  analyze_channels_growth clock channels days = inr rows ↔
  ∃ results, rows_in_order clock channels = inr <$> results
             ∧ rows = PyList.sort Growth.growth_rate PyFloat.lt true results.
Proof.
  unfold analyze_channels_growth. rewrite bind_inr. split.
  - intros (results & Hloop & [= <-]).
    apply analyze_loop_inr in Hloop as (new & -> & Hnew). by exists new.
  - intros (results & Hrows & ->). exists results. split; [|done].
    apply analyze_loop_inr. by exists results.
Qed.

(** The first channel whose row cannot be computed decides the exception. *)
Lemma analyze_loop_inl clock k before channel after results e :
  (∀ i c, before !! i = Some c → ∃ row, growth_row (clock (k + i)%nat) c = inr row) →
  growth_row (clock (k + length before)%nat) channel = inl e →
  analyze_loop clock k (before ++ channel :: after) results = inl e.
Proof.
  revert k results. induction before as [|c before IH]; intros k results Hok He.
  - simpl in *. rewrite Nat.add_0_r in He. by rewrite He.
  - simpl. destruct (Hok 0%nat c eq_refl) as [row Hrow].
    rewrite Nat.add_0_r in Hrow. rewrite Hrow. simpl. apply IH.
    + intros i c' Hi. specialize (Hok (S i) c' Hi).
      by rewrite Nat.add_succ_r in Hok.
    + simpl in He. by rewrite Nat.add_succ_r in He.
Qed.

Lemma rows_in_order_lookup clock channels results i channel :
  rows_in_order clock channels = inr <$> results →
  channels !! i = Some channel →
  ∃ row, results !! i = Some row ∧ growth_row (clock i) channel = inr row.
Proof.
  intros Hrows Hi.
  assert (rows_in_order clock channels !! i
          = Some (growth_row (clock i) channel)) as Hl.
  { unfold rows_in_order. by rewrite list_lookup_imap, Hi. }
  rewrite Hrows, list_lookup_fmap in Hl.
  destruct (results !! i) as [row|]; [|done]. injection Hl as Hl. eauto.
Qed.

Lemma rows_in_order_length clock channels results :
  rows_in_order clock channels = inr <$> results →
  length results = length channels.
Proof.
  intros H. apply (f_equal length) in H.
  unfold rows_in_order in H. by rewrite length_imap, length_fmap in H.
Qed.

(** What one row holds. *)
Lemma growth_row_inr now channel row :
  growth_row now channel = inr row ↔
  ∃ d daily_subs daily_views,
    days_since_creation now channel = inr d
    ∧ PyFloat.int_true_divide (Channel.subscriber_count channel) d
      = inr daily_subs
    ∧ PyFloat.int_true_divide (Channel.view_count channel) d = inr daily_views
    ∧ row = {| Growth.channel_name := Channel.title channel;
               Growth.channel_id := Channel.channel_id channel;
               Growth.current_subs := Channel.subscriber_count channel;
               Growth.current_views := Channel.view_count channel;
               Growth.published_at := Channel.published_at channel;
               Growth.days_since_creation := d;
               Growth.daily_subs := daily_subs;
               Growth.daily_views := daily_views;
               Growth.growth_rate :=
                 PyFloat.mul daily_subs (PyFloat.of_int 100) |}.
Proof.
  unfold growth_row. split.
  - intros H.
    apply bind_inr in H as (d & Hd & H).
    apply bind_inr in H as (ds & Hds & H).
    apply bind_inr in H as (dv & Hdv & H).
    apply bind_inr in H as (q & Hq & H).
    rewrite Hds in Hq. injection Hq as <-. injection H as <-.
    by exists d, ds, dv.
  - intros (d & ds & dv & Hd & Hds & Hdv & ->).
    rewrite Hd. simpl. rewrite Hds. simpl. rewrite Hdv. by simpl.
Qed.

Lemma growth_rate_not_nan now channel row :
  growth_row now channel = inr row →
  PyFloat.is_nan (Growth.growth_rate row) = false.
Proof.
  intros (d & ds & dv & _ & Hds & _ & ->)%growth_row_inr. simpl.
  eapply PyFloatFacts.mul_100_not_nan, PyFloatFacts.int_true_divide_finite.
  exact Hds.
Qed.

(** The list [list.sort] leaves behind does not depend on how it sorts:
    every rearrangement of the rows that is in descending order of
    [growth_rate] and keeps rows of equal rate in their order is the list
    of the model. *)
Lemma sort_by_growth_rate_unique (results rows : list Growth.t) :
  Forall (λ r, PyFloat.is_nan (Growth.growth_rate r) = false) results →
  rows ≡ₚ results →
  Sorted (λ x y, PyFloat.lt (Growth.growth_rate x) (Growth.growth_rate y)
                 = false) rows →
  (∀ x, filter (λ y, PyFloat.eq (Growth.growth_rate y) (Growth.growth_rate x)
                     = true) rows
        = filter (λ y, PyFloat.eq (Growth.growth_rate y) (Growth.growth_rate x)
                       = true) results) →
  rows = PyList.sort Growth.growth_rate PyFloat.lt true results.
Proof.
  intros Hgood Hperm Hsorted Hstable.
  apply (PyListFacts.stable_sorted_unique
           (λ x y, PyFloat.lt (Growth.growth_rate x) (Growth.growth_rate y)
                   = false)
           (λ r, PyFloat.is_nan (Growth.growth_rate r) = false)
           (λ y x, PyFloat.eq (Growth.growth_rate y) (Growth.growth_rate x)
                   = true)
           (same_dec := λ x y,
              decide (PyFloat.eq (Growth.growth_rate y) (Growth.growth_rate x)
                      = true))).
  - intros x y z Hx Hy Hz. by apply PyFloatFacts.not_lt_trans.
  - intros x y Hx Hy. by apply PyFloatFacts.not_lt_eq.
  - intros x Hx. by apply PyFloatFacts.eq_reflexive.
  - by rewrite Hperm.
  - done.
  - apply (PyListFacts.Sorted_sort_reverse Growth.growth_rate PyFloat.lt
             PyFloatFacts.lt_asym).
  - by rewrite Hperm, PyListFacts.sort_Permutation.
  - intros x. rewrite Hstable. symmetry.
    pose proof (PyListFacts.filter_sort Growth.growth_rate PyFloat.lt
                  (λ k, PyFloat.eq k (Growth.growth_rate x) = true)) as Hst.
    apply Hst. intros a b Ha Hb.
    by apply (PyFloatFacts.eq_eq_not_lt b a (Growth.growth_rate x)).
Qed.

(** ** Claims on [analyze_channels_growth] *)

(** C3: whenever [analyze_channels_growth] returns, the rows are in
    descending order of [growth_rate] (each row's rate is [>=] the rate of
    the next row), they are a rearrangement of the rows computed in input
    order, and the rows with a rate equal to any given rate stand in the
    order of the input: the sort is stable. *)
Theorem analyze_sorted_descending_stable clock channels days rows :
  analyze_channels_growth clock channels days = inr rows →
  (∀ i r1 r2,
     rows !! i = Some r1 → rows !! S i = Some r2 →
     PyFloat.ge (Growth.growth_rate r1) (Growth.growth_rate r2) = true)
  ∧ ∃ results,
      rows_in_order clock channels = inr <$> results
      ∧ rows ≡ₚ results
      ∧ ∀ rate,
          filter (λ r, PyFloat.eq (Growth.growth_rate r) rate = true) rows
          = filter (λ r, PyFloat.eq (Growth.growth_rate r) rate = true) results.
Proof.
  intros (results & Hrows & ->)%analyze_channels_growth_inr.
  assert (∀ r, r ∈ results → PyFloat.is_nan (Growth.growth_rate r) = false)
    as Hnan.
  { intros r (i & Hi)%list_elem_of_lookup.
    assert (rows_in_order clock channels !! i = Some (inr r)) as Hl
      by (by rewrite Hrows, list_lookup_fmap, Hi).
    unfold rows_in_order in Hl. rewrite list_lookup_imap in Hl.
    destruct (channels !! i) as [c|]; [|done]. injection Hl as Hl.
    by eapply growth_rate_not_nan. }
  split.
  - intros i r1 r2 H1 H2.
    pose proof (PyListFacts.Sorted_sort_reverse Growth.growth_rate PyFloat.lt
                  PyFloatFacts.lt_asym results) as Hsorted.
    pose proof (PyListFacts.Sorted_lookup _ _ _ _ _ Hsorted H1 H2) as Hadj.
    unfold flip, PyList.ascending in Hadj.
    apply PyFloatFacts.not_lt_ge; [| |done]; apply Hnan.
    + eapply list_elem_of_lookup_2 in H1.
      by rewrite PyListFacts.sort_Permutation in H1.
    + eapply list_elem_of_lookup_2 in H2.
      by rewrite PyListFacts.sort_Permutation in H2.
  - exists results. split; [done|]. split.
    + apply PyListFacts.sort_Permutation.
    + intros rate.
      pose proof (PyListFacts.filter_sort Growth.growth_rate PyFloat.lt
                    (λ k, PyFloat.eq k rate = true)) as Hstable.
      apply Hstable.
      intros a b Ha Hb. by apply (PyFloatFacts.eq_eq_not_lt b a rate).
Qed.

(** Scenario B: of two channels that both have the rate 50.0 the one that
    comes first in the input comes first in the output. *)
Lemma analyze_sorted_descending_stable_scenario_B :
  analyze_channels_growth (frozen noon) scenario_B 30 = inr scenario_B_rows
  ∧ (∀ i r1 r2,
       scenario_B_rows !! i = Some r1 → scenario_B_rows !! S i = Some r2 →
       PyFloat.ge (Growth.growth_rate r1) (Growth.growth_rate r2) = true)
  ∧ ∃ results,
      rows_in_order (frozen noon) scenario_B = inr <$> results
      ∧ scenario_B_rows ≡ₚ results
      ∧ ∀ rate,
          filter (λ r, PyFloat.eq (Growth.growth_rate r) rate = true)
                 scenario_B_rows
          = filter (λ r, PyFloat.eq (Growth.growth_rate r) rate = true) results.
Proof.
  assert (analyze_channels_growth (frozen noon) scenario_B 30
          = inr scenario_B_rows) as H by (vm_compute; reflexivity).
  split; [exact H|].
  exact (analyze_sorted_descending_stable
           (frozen noon) scenario_B 30 scenario_B_rows H).
Defined.

(** C4: whenever [analyze_channels_growth] returns, the row of every input
    channel holds [daily_subs = subscriber_count / d],
    [daily_views = view_count / d] and [growth_rate = daily_subs * 100],
    where [d] is the channel's [days_since_creation]; and a channel created
    100 days ago with 1000 subscribers and 50000 views gets
    [daily_subs = 10.0], [growth_rate = 1000.0], [daily_views = 500.0]. *)
Theorem analyze_growth_metrics :
  (∀ clock channels days rows,
     analyze_channels_growth clock channels days = inr rows →
     ∀ i channel, channels !! i = Some channel →
       ∃ row,
         row ∈ rows
         ∧ Growth.channel_id row = Channel.channel_id channel
         ∧ days_since_creation (clock i) channel
           = inr (Growth.days_since_creation row)
         ∧ PyFloat.int_true_divide (Channel.subscriber_count channel)
                                   (Growth.days_since_creation row)
           = inr (Growth.daily_subs row)
         ∧ PyFloat.int_true_divide (Channel.view_count channel)
                                   (Growth.days_since_creation row)
           = inr (Growth.daily_views row)
         ∧ Growth.growth_rate row
           = PyFloat.mul (Growth.daily_subs row) (PyFloat.of_int 100))
  ∧ (∀ clock channel days,
       days_since_creation (clock 0%nat) channel = inr 100 →
       Channel.subscriber_count channel = 1000 →
       Channel.view_count channel = 50000 →
       ∃ row,
         analyze_channels_growth clock [channel] days = inr [row]
         ∧ Growth.daily_subs row = PyFloat.of_int 10
         ∧ Growth.growth_rate row = PyFloat.of_int 1000
         ∧ Growth.daily_views row = PyFloat.of_int 500).
Proof.
  split.
  - intros clock channels days rows
      (results & Hrows & ->)%analyze_channels_growth_inr i channel Hi.
    destruct (rows_in_order_lookup _ _ _ _ _ Hrows Hi) as (row & Hrow & Hg).
    apply growth_row_inr in Hg as (d & ds & dv & Hd & Hds & Hdv & ->).
    eexists. split.
    { rewrite PyListFacts.sort_Permutation. by eapply list_elem_of_lookup_2. }
    by repeat split.
  - intros clock channel days Hd Hsubs Hviews.
    eexists. split.
    + unfold analyze_channels_growth. simpl. unfold growth_row.
      rewrite Hd, Hsubs, Hviews. vm_compute. reflexivity.
    + by vm_compute.
Qed.

(** Scenario A at [noon], through the theorem. *)
Lemma analyze_growth_metrics_scenario_A :
  days_since_creation noon scenario_A = inr 100
  ∧ ∃ row,
      analyze_channels_growth (frozen noon) [scenario_A] 30 = inr [row]
      ∧ Growth.daily_subs row = PyFloat.of_int 10
      ∧ Growth.growth_rate row = PyFloat.of_int 1000
      ∧ Growth.daily_views row = PyFloat.of_int 500.
Proof.
  assert (days_since_creation noon scenario_A = inr 100) as H
    by (vm_compute; reflexivity).
  split; [exact H|].
  exact (proj2 analyze_growth_metrics (frozen noon) scenario_A 30
               H eq_refl eq_refl).
Defined.

(** C5 as stated fails: a channel that is one day old and has [2 ^ 1024]
    subscribers makes the division overflow, and [analyze_channels_growth]
    raises [OverflowError] instead of returning one row. *)
Lemma analyze_cardinality_overflow :
  ¬ (∀ clock channels days,
       all_days_positive clock channels →
       ∃ rows, analyze_channels_growth clock channels days = inr rows
               ∧ length rows = length channels).
Proof.
  intros H. destruct (H (frozen noon) [beyond_float] 30) as (rows & Hrows & _).
  - intros [|i] c Hc; [|done]. injection Hc as <-.
    exists 1. split; [|done]. vm_compute. reflexivity.
  - vm_compute in Hrows. discriminate Hrows.
Qed.

(** C5, amended: when every channel has a positive number of days since its
    creation and the quotients of its two counts by that number are within
    the range of a float, [analyze_channels_growth] returns, and returns
    exactly one row for each channel: as many rows as channels, a
    rearrangement of the rows of the channels taken in input order.  The
    quotients are within the range of a float whenever the counts are below
    [2 ^ 1023] in magnitude.  The empty input gives the empty output. *)
Theorem analyze_cardinality :
  (∀ clock channels days,
     (∀ i channel, channels !! i = Some channel →
        ∃ d, days_since_creation (clock i) channel = inr d ∧ 0 < d
             ∧ quotient_is_float (Channel.subscriber_count channel) d
             ∧ quotient_is_float (Channel.view_count channel) d) →
     ∃ rows results,
       analyze_channels_growth clock channels days = inr rows
       ∧ length rows = length channels
       ∧ rows ≡ₚ results
       ∧ Forall2 (λ channel row, Growth.channel_id row = Channel.channel_id channel)
                 channels results)
  ∧ (∀ clock channels days,
       all_days_positive clock channels →
       (∀ channel, channel ∈ channels →
          Z.abs (Channel.subscriber_count channel) < 2 ^ 1023
          ∧ Z.abs (Channel.view_count channel) < 2 ^ 1023) →
       ∃ rows, analyze_channels_growth clock channels days = inr rows
               ∧ length rows = length channels)
  ∧ (∀ clock days, analyze_channels_growth clock [] days = inr []).
Proof.
  assert (∀ clock channels days,
     (∀ i channel, channels !! i = Some channel →
        ∃ d, days_since_creation (clock i) channel = inr d ∧ 0 < d
             ∧ quotient_is_float (Channel.subscriber_count channel) d
             ∧ quotient_is_float (Channel.view_count channel) d) →
     ∃ rows results,
       analyze_channels_growth clock channels days = inr rows
       ∧ length rows = length channels
       ∧ rows ≡ₚ results
       ∧ Forall2 (λ channel row, Growth.channel_id row = Channel.channel_id channel)
                 channels results) as Hmain; [|split; [exact Hmain|split; [|done]]].
  2:{ intros clock channels days Hdays Hcounts.
      destruct (Hmain clock channels days) as (rows & _ & Hrows & Hlen & _);
        [|by eauto].
      intros i channel Hi. destruct (Hdays i channel Hi) as (d & Hd & Hpos).
      destruct (Hcounts channel) as [Hsubs Hviews];
        [by eapply list_elem_of_lookup_2|].
      exists d. split; [done|]. split; [done|].
      split; apply PyFloatFacts.int_true_divide_in_range; (done || lia). }
  intros clock channels days Hall.
  assert (∃ results, rows_in_order clock channels = inr <$> results
                     ∧ Forall2 (λ channel row,
                                  Growth.channel_id row = Channel.channel_id channel)
                               channels results)
    as (results & Hrows & Hids).
  { unfold rows_in_order.
    generalize dependent clock. induction channels as [|c channels IH];
      intros clock Hall.
    { exists []. by split. }
    destruct (Hall 0%nat c eq_refl) as (d & Hd & _ & [ds Hds] & [dv Hdv]).
    destruct (IH (clock ∘ S)) as (results & Hrows & Hids).
    { intros i c' Hi. exact (Hall (S i) c' Hi). }
    eexists (_ :: results). rewrite imap_cons, fmap_cons. split.
    - f_equal; [|exact Hrows].
      apply growth_row_inr. by exists d, ds, dv.
    - by constructor. }
  exists (PyList.sort Growth.growth_rate PyFloat.lt true results), results.
  split; [apply analyze_channels_growth_inr; by exists results|].
  split; [|split; [apply PyListFacts.sort_Permutation|done]].
  rewrite PyListFacts.length_sort. by eapply rows_in_order_length.
Qed.

(** Scenario B satisfies the conditions of the amended C5. *)
Lemma analyze_cardinality_scenario_B :
  ∃ rows results,
    analyze_channels_growth (frozen noon) scenario_B 30 = inr rows
    ∧ length rows = length scenario_B
    ∧ rows ≡ₚ results
    ∧ Forall2 (λ channel row, Growth.channel_id row = Channel.channel_id channel)
              scenario_B results.
Proof.
  apply (proj1 analyze_cardinality (frozen noon) scenario_B 30).
  intros [|[|[|i]]] c Hc; [| | |done]; injection Hc as <-.
  - exists 100.
    split; [by vm_compute|]. split; [done|].
    split; eexists; vm_compute; reflexivity.
  - exists 200.
    split; [by vm_compute|]. split; [done|].
    split; eexists; vm_compute; reflexivity.
  - exists 100.
    split; [by vm_compute|]. split; [done|].
    split; eexists; vm_compute; reflexivity.
Defined.

(** C1 fails on the code: the loop divides by [days_since_creation]
    without looking at it.  A channel created less than a day before the
    clock value has 0 days, and the division raises [ZeroDivisionError] for
    the whole analysis as soon as the channels before it have their rows; a
    channel dated after the clock value has a negative number of days and
    enters the ranking with a negative [growth_rate]. *)
Theorem analyze_zero_days_raises :
  (∀ clock before channel after days,
     (∀ i c, before !! i = Some c → ∃ row, growth_row (clock i) c = inr row) →
     days_since_creation (clock (length before)) channel = inr 0 →
     analyze_channels_growth clock (before ++ channel :: after) days
     = inl ZeroDivisionError)
  ∧ analyze_channels_growth (frozen noon) [published_today] 30
    = inl ZeroDivisionError
  ∧ ∃ row,
      analyze_channels_growth (frozen noon) [published_tomorrow] 30 = inr [row]
      ∧ Growth.days_since_creation row = -1
      ∧ Growth.growth_rate row = PyFloat.of_int (-100000).
Proof.
  split; [|split].
  - intros clock before channel after days Hbefore Hd.
    unfold analyze_channels_growth.
    rewrite (analyze_loop_inl clock 0 before channel after [] ZeroDivisionError);
      [done|done|].
    simpl. unfold growth_row. rewrite Hd. reflexivity.
  - vm_compute. reflexivity.
  - eexists. split; [vm_compute; reflexivity|]. by vm_compute.
Qed.

(** The channel published on the day of the analysis, after scenario B. *)
Lemma analyze_zero_days_raises_today :
  analyze_channels_growth (frozen noon) (scenario_B ++ [published_today]) 30
  = inl ZeroDivisionError.
Proof.
  apply (proj1 analyze_zero_days_raises (frozen noon) scenario_B
               published_today [] 30).
  - intros [|[|[|i]]] c Hc; [| | |done]; injection Hc as <-;
      eexists; vm_compute; reflexivity.
  - vm_compute. reflexivity.
Defined.

(** C9: the parameter [days] is never read: two calls that differ only in
    it return the same. *)
Theorem analyze_ignores_days clock channels days1 days2 :
  analyze_channels_growth clock channels days1
  = analyze_channels_growth clock channels days2.
Proof. reflexivity. Qed.

(** ** Claims on [parse_date] *)

Lemma only_ValueError_bind {A B} (m : result A) (k : A → result B) :
  only_ValueError m → (∀ x, only_ValueError (k x)) → only_ValueError (bind m k).
Proof.
  intros Hm Hk e. destruct m as [e'|x]; simpl; [|apply Hk].
  intros [= <-]. by apply Hm.
Qed.

Lemma only_ValueError_ret {A} (x : A) : only_ValueError (ret x).
Proof. by intros e. Qed.

Lemma only_ValueError_raise {A} : only_ValueError (@raise A ValueError).
Proof. by intros e [= <-]. Qed.

Lemma only_ValueError_require c : only_ValueError (require c ValueError).
Proof. destruct c; [apply only_ValueError_ret|apply only_ValueError_raise]. Qed.

Lemma only_ValueError_int s : only_ValueError (PyStr.int s).
Proof.
  unfold PyStr.int. destruct (PyStr.lstrip s).
  - apply only_ValueError_raise.
  - destruct (PyStr.all_digits _);
      [apply only_ValueError_ret|apply only_ValueError_raise].
Qed.

Lemma only_ValueError_new y m d h mi s us tz :
  only_ValueError (Datetime.new y m d h mi s us tz).
Proof.
  unfold Datetime.new, Datetime._check_date_fields,
    Datetime._check_time_fields.
  repeat (apply only_ValueError_bind; [|intros ?]);
    try apply only_ValueError_require; apply only_ValueError_ret.
Qed.

Create HintDb only_ve.

#[local] Hint Resolve only_ValueError_ret only_ValueError_raise
  only_ValueError_require only_ValueError_int only_ValueError_new : only_ve.

Lemma only_ValueError_strptime data_string format :
  only_ValueError (Strptime.strptime data_string format).
Proof.
  unfold Strptime.strptime.
  destruct (Strptime.pattern format); [|auto with only_ve].
  destruct (Re.match_ _ _) as [[found_dict []]|]; [|auto with only_ve..].
  unfold Strptime.group_int, Strptime.group_fraction,
    Datetime._check_date_fields.
  repeat (apply only_ValueError_bind; [|intros ?]);
    repeat match goal with
           | |- context [Re.lookup ?n ?g] => destruct (Re.lookup n g)
           end; auto with only_ve.
Qed.

Lemma only_ValueError_fromisoformat date_string :
  only_ValueError (IsoFormat.fromisoformat date_string).
Proof.
  unfold IsoFormat.fromisoformat.
  destruct (IsoFormat.parse_isoformat_date _) as [[[[y m] d] [|sep tstr]]|];
    [auto with only_ve| |auto with only_ve].
  destruct (IsoFormat.parse_isoformat_time _)
    as [[[[[h mi] sec] us] [[tzoffset tzusec]|]]|]; [|auto with only_ve..].
  apply only_ValueError_bind; [|auto with only_ve].
  unfold IsoFormat.tzinfo_from_isoformat_results, IsoFormat.timezone.
  repeat match goal with
         | |- context [if ?c then _ else _] => destruct c
         end; auto with only_ve.
Qed.

Lemma only_ValueError_parse_date date_str : only_ValueError (parse_date date_str).
Proof.
  unfold parse_date, try_except_ValueError. intros e.
  pose proof (only_ValueError_strptime date_str
                "%Y-%m-%dT%H:%M:%S.%fZ"%string) as Ha.
  pose proof (only_ValueError_strptime date_str "%Y-%m-%dT%H:%M:%SZ"%string)
    as Hb.
  pose proof (only_ValueError_fromisoformat
                (PyStr.replace "Z" "+00:00" date_str)) as Hc.
  destruct (Strptime.strptime date_str "%Y-%m-%dT%H:%M:%S.%fZ") as [ea|];
    [|done].
  rewrite (Ha ea eq_refl).
  destruct (Strptime.strptime date_str "%Y-%m-%dT%H:%M:%SZ") as [eb|];
    [|done].
  rewrite (Hb eb eq_refl). apply Hc.
Qed.

(** ** The loop of [search_channels] *)

Section search_loop_facts.
Context {Item : Type} (stats : Item → option Channel.t).
Context (min_date max_date : option Datetime.datetime).

(** The loop returns exactly when the date filter raises for none of the
    channels whose statistics resolve, and then returns those that pass
    it, in the order of the items. *)
Lemma search_loop_inr items channels out :
  search_loop stats min_date max_date items channels = inr out ↔
  (∀ c, c ∈ omap stats items → ∃ keep, date_filter min_date max_date c = inr keep)
  ∧ out = channels ++ filter (kept min_date max_date) (omap stats items).
Proof.
  revert channels. induction items as [|item items IH]; intros channels.
  - simpl. rewrite app_nil_r. split.
    + intros [= <-]. split; [|done]. by intros c ?%elem_of_nil.
    + by intros [_ ->].
  - simpl. destruct (stats item) as [c|]; [|apply IH].
    destruct (date_filter min_date max_date c) as [e|keep] eqn:Hc; simpl.
    { split; [done|]. intros [H _].
      destruct (H c) as [keep Hkeep]; [left|]. by rewrite Hc in Hkeep. }
    assert ((if keep then
               search_loop stats min_date max_date items (channels ++ [c])
             else search_loop stats min_date max_date items channels)
            = search_loop stats min_date max_date items
                (channels ++ filter (kept min_date max_date) [c])) as ->.
    { rewrite filter_cons.
      destruct (decide (kept min_date max_date c)) as [Hk|Hk]; unfold kept in Hk;
        rewrite Hc in Hk; destruct keep; try done.
      by rewrite app_nil_r. }
    rewrite IH, <-app_assoc, <-filter_app. simpl. split.
    + intros [H ->]. split; [|done].
      intros c' [->|?]%elem_of_cons; eauto.
    + intros [H ->]. split; [|done]. intros c' ?. apply H. by right.
Qed.

Lemma search_loop_inl items channel e :
  channel ∈ omap stats items →
  date_filter min_date max_date channel = inl e →
  ∃ e', search_loop stats min_date max_date items [] = inl e'.
Proof.
  intros Hin He.
  destruct (search_loop stats min_date max_date items []) as [e'|out] eqn:H;
    [by eauto|].
  apply search_loop_inr in H as [H _].
  destruct (H channel Hin) as [keep Hkeep]. by rewrite He in Hkeep.
Qed.
End search_loop_facts.

(** C7: a string that none of the three attempts of [parse_date] can parse
    makes [parse_date] raise [ValueError]; no time is put in its place.
    The exception reaches the callers: [analyze_channels_growth] raises it
    for a list that starts with such a channel and raises some exception
    for every list that holds one; the loop of [search_channels] raises
    as soon as the statistics of an item resolve to such a channel. *)
Theorem parse_date_unrecognized date_str :
  (∀ t, Strptime.strptime date_str "%Y-%m-%dT%H:%M:%S.%fZ" ≠ inr t) →
  (∀ t, Strptime.strptime date_str "%Y-%m-%dT%H:%M:%SZ" ≠ inr t) →
  (∀ t, IsoFormat.fromisoformat (PyStr.replace "Z" "+00:00" date_str) ≠ inr t) →
  parse_date date_str = inl ValueError
  ∧ (∀ clock channel channels days,
       Channel.published_at channel = date_str →
       analyze_channels_growth clock (channel :: channels) days
       = inl ValueError)
  ∧ (∀ clock channel channels days,
       Channel.published_at channel = date_str → channel ∈ channels →
       ∃ e, analyze_channels_growth clock channels days = inl e)
  ∧ (∀ youtube query max_results min_date max_date item channel,
       item ∈ Api.search_list youtube query max_results →
       get_channel_stats youtube item = Some channel →
       Channel.published_at channel = date_str →
       ∃ e, search_channels youtube query max_results min_date max_date
            = inl e).
Proof.
  intros Ha Hb Hc.
  assert (parse_date date_str = inl ValueError) as Hparse.
  { unfold parse_date, try_except_ValueError.
    pose proof (only_ValueError_strptime date_str
                  "%Y-%m-%dT%H:%M:%S.%fZ"%string) as Ha'.
    pose proof (only_ValueError_strptime date_str
                  "%Y-%m-%dT%H:%M:%SZ"%string) as Hb'.
    pose proof (only_ValueError_fromisoformat
                  (PyStr.replace "Z" "+00:00" date_str)) as Hc'.
    destruct (Strptime.strptime date_str "%Y-%m-%dT%H:%M:%S.%fZ") as [ea|t];
      [|by destruct (Ha t)].
    rewrite (Ha' ea eq_refl).
    destruct (Strptime.strptime date_str "%Y-%m-%dT%H:%M:%SZ") as [eb|t];
      [|by destruct (Hb t)].
    rewrite (Hb' eb eq_refl).
    destruct (IsoFormat.fromisoformat _) as [ec|t]; [|by destruct (Hc t)].
    by rewrite (Hc' ec eq_refl). }
  assert (∀ now channel, Channel.published_at channel = date_str →
            growth_row now channel = inl ValueError) as Hrow.
  { intros now channel Hp. unfold growth_row, days_since_creation.
    by rewrite Hp, Hparse. }
  split; [done|]. split; [|split].
  - intros clock channel channels days Hp.
    unfold analyze_channels_growth. simpl. by rewrite (Hrow _ _ Hp).
  - intros clock channel channels days Hp (i & Hi)%list_elem_of_lookup.
    destruct (analyze_channels_growth clock channels days) as [e|rows] eqn:H;
      [by eauto|].
    apply analyze_channels_growth_inr in H as (results & Hrows & _).
    destruct (rows_in_order_lookup _ _ _ _ _ Hrows Hi) as (row & _ & Hg).
    by rewrite (Hrow _ _ Hp) in Hg.
  - intros youtube query max_results min_date max_date item channel
      Hitem Hstats Hp.
    unfold search_channels.
    apply (search_loop_inl _ _ _ _ channel ValueError).
    + apply list_elem_of_omap. eauto.
    + unfold date_filter. by rewrite Hp, Hparse.
Qed.

Section parse_date_examples.
Local Open Scope string_scope.

(** Not a timestamp at all. *)
Lemma parse_date_unrecognized_example :
  parse_date "yesterday" = inl ValueError
  ∧ (∀ clock channel channels days,
       Channel.published_at channel = "yesterday" →
       analyze_channels_growth clock (channel :: channels) days
       = inl ValueError)
  ∧ (∀ clock channel channels days,
       Channel.published_at channel = "yesterday" → channel ∈ channels →
       ∃ e, analyze_channels_growth clock channels days = inl e)
  ∧ (∀ youtube query max_results min_date max_date item channel,
       item ∈ Api.search_list youtube query max_results →
       get_channel_stats youtube item = Some channel →
       Channel.published_at channel = "yesterday" →
       ∃ e, search_channels youtube query max_results min_date max_date
            = inl e).
Proof.
  apply (parse_date_unrecognized "yesterday"); intros t; vm_compute; discriminate.
Defined.
End parse_date_examples.

(** [strptime] with a format without [%z] returns naive values. *)
Lemma strptime_naive date_str format t :
  Strptime.strptime date_str format = inr t → Datetime.tzinfo t = None.
Proof.
  unfold Strptime.strptime.
  destruct (Strptime.pattern format); [|done].
  destruct (Re.match_ _ _) as [[found_dict []]|]; [|done..].
  intros H. repeat apply bind_inr in H as (? & _ & H).
  by injection H as <-.
Qed.

(** ** [parse_date] on the three shapes of an instant *)

Module ShapeFacts.

Import Shape Re.
Local Open Scope char_scope.
Local Open Scope Z_scope.

Ltac small_cases d :=
  let H := fresh in
  assert (H : d = 0 ∨ d = 1 ∨ d = 2 ∨ d = 3 ∨ d = 4 ∨ d = 5 ∨ d = 6 ∨ d = 7
              ∨ d = 8 ∨ d = 9) by lia;
  destruct H as [->|[->|[->|[->|[->|[->|[->|[->|[->| ->]]]]]]]]].

Lemma digit_case (P : ascii → Prop) :
  P "0" → P "1" → P "2" → P "3" → P "4" → P "5" → P "6" → P "7" → P "8" →
  P "9" → ∀ v, P (digit v).
Proof.
  intros H0 H1 H2 H3 H4 H5 H6 H7 H8 H9 v. unfold digit.
  assert (Hd : 0 <= v mod 10 < 10) by (apply Z.mod_pos_bound; lia).
  set (d := v mod 10) in *. clearbody d. small_cases d; assumption.
Qed.

Lemma is_digit_digit v : PyStr.is_digit (digit v) = true.
Proof. by apply (digit_case (λ c, PyStr.is_digit c = true)). Qed.

Lemma in_range_digit v : PyStr.in_range "0" "9" (digit v) = true.
Proof. by apply (digit_case (λ c, PyStr.in_range "0" "9" c = true)). Qed.

Lemma digit_value_digit v : PyStr.digit_value (digit v) = v mod 10.
Proof.
  unfold digit.
  assert (Hd : 0 <= v mod 10 < 10) by (apply Z.mod_pos_bound; lia).
  set (d := v mod 10) in *. clearbody d. small_cases d; reflexivity.
Qed.

Lemma eqb_digit x v : PyStr.is_digit x = false → Ascii.eqb (digit v) x = false.
Proof.
  intros Hx. apply Ascii.eqb_neq. intros <-.
  by rewrite is_digit_digit in Hx.
Qed.

Lemma lower_is_digit c : PyStr.is_digit c = true → PyStr.lower c = c.
Proof.
  destruct c as [b0 b1 b2 b3 b4 b5 b6 b7].
  destruct b0, b1, b2, b3, b4, b5, b6, b7; intros H; vm_compute in H;
    try discriminate H; reflexivity.
Qed.

Lemma lit_fails_on_digits {A} x r (k : string → groupdict → option A) :
  PyStr.is_digit (PyStr.lower x) = false →
  fails_on_digits (λ s g, run (Cat (Lit x) r) s g k).
Proof.
  intros Hx c s g Hc. cbn [run]. rewrite (lower_is_digit c Hc).
  replace (Ascii.eqb (PyStr.lower x) c) with false; [done|].
  symmetry. apply Ascii.eqb_neq. intros Heq. congruence.
Qed.

Lemma take_1 a rest :
  PyStr.take (String.length (String a rest) - String.length rest)
             (String a rest) = String a "".
Proof.
  replace (String.length (String a rest) - String.length rest)%nat
    with 1%nat by (cbn [String.length]; lia).
  reflexivity.
Qed.

Lemma take_2 a b rest :
  PyStr.take (String.length (String a (String b rest)) - String.length rest)
             (String a (String b rest)) = String a (String b "").
Proof.
  replace (String.length (String a (String b rest)) - String.length rest)%nat
    with 2%nat by (cbn [String.length]; lia).
  reflexivity.
Qed.

Lemma take_4 a b c d rest :
  PyStr.take
    (String.length (String a (String b (String c (String d rest))))
     - String.length rest)
    (String a (String b (String c (String d rest))))
  = String a (String b (String c (String d ""))).
Proof.
  replace (String.length (String a (String b (String c (String d rest))))
           - String.length rest)%nat
    with 4%nat by (cbn [String.length]; lia).
  reflexivity.
Qed.

Lemma take_6 a b c d e f rest :
  PyStr.take
    (String.length
       (String a (String b (String c (String d (String e (String f rest))))))
     - String.length rest)
    (String a (String b (String c (String d (String e (String f rest))))))
  = String a (String b (String c (String d (String e (String f ""))))).
Proof.
  replace (String.length
       (String a (String b (String c (String d (String e (String f rest))))))
           - String.length rest)%nat
    with 6%nat by (cbn [String.length]; lia).
  reflexivity.
Qed.

(** *** The directives on their digits *)

Lemma run_Y {A} y rest g (k : string → groupdict → option A) :
  run (re "Y") (pad4 y rest) g k = k rest (("Y", pad4 y "") :: g).
Proof.
  unfold pad4, pad2.
  change (re "Y") with (Group "Y" (Cat Strptime.d_
    (Cat Strptime.d_ (Cat Strptime.d_ Strptime.d_)))).
  unfold Strptime.d_. cbn [run]. rewrite !is_digit_digit.
  by rewrite take_4.
Qed.

Ltac enum n lo fuel :=
  lazymatch fuel with
  | O => exfalso; lia
  | S ?f =>
      let Hne := fresh in
      destruct (Z.eq_dec n lo) as [->|Hne];
      [| let lo' := eval cbv in (lo + 1) in
         assert (lo' <= n) by lia; clear Hne; enum n lo' f ]
  end.

Ltac run_two_digits Hk :=
  cbv -[String.length Nat.sub PyStr.take];
  rewrite ?take_1, ?take_2;
  rewrite ?Hk by reflexivity;
  rewrite ?take_1, ?take_2;
  match goal with
  | |- context [?k ?rest ?g] =>
      lazymatch rest with String _ _ => fail | _ => destruct (k rest g) end
  end; reflexivity.

Lemma run_m {A} n rest g (k : string → groupdict → option A) :
  fails_on_digits k → 1 <= n <= 12 →
  run (re "m") (pad2 n rest) g k = k rest (("m", pad2 n "") :: g).
Proof.
  intros Hk Hn. enum n 1 12%nat; run_two_digits Hk.
Qed.

Lemma run_d {A} n rest g (k : string → groupdict → option A) :
  fails_on_digits k → 1 <= n <= 31 →
  run (re "d") (pad2 n rest) g k = k rest (("d", pad2 n "") :: g).
Proof.
  intros Hk Hn. enum n 1 31%nat; run_two_digits Hk.
Qed.

Lemma run_H {A} n rest g (k : string → groupdict → option A) :
  fails_on_digits k → 0 <= n <= 23 →
  run (re "H") (pad2 n rest) g k = k rest (("H", pad2 n "") :: g).
Proof.
  intros Hk Hn. enum n 0 24%nat; run_two_digits Hk.
Qed.

Lemma run_M {A} n rest g (k : string → groupdict → option A) :
  fails_on_digits k → 0 <= n <= 59 →
  run (re "M") (pad2 n rest) g k = k rest (("M", pad2 n "") :: g).
Proof.
  intros Hk Hn. enum n 0 60%nat; run_two_digits Hk.
Qed.

Lemma run_S {A} n rest g (k : string → groupdict → option A) :
  fails_on_digits k → 0 <= n <= 59 →
  run (re "S") (pad2 n rest) g k = k rest (("S", pad2 n "") :: g).
Proof.
  intros Hk Hn. enum n 0 60%nat; run_two_digits Hk.
Qed.

Lemma run_f {A} n rest g (k : string → groupdict → option A) :
  fails_on_digits k →
  run (re "f") (pad6 n rest) g k = k rest (("f", pad6 n "") :: g).
Proof.
  intros Hk. unfold pad6, pad4, pad2.
  change (re "f") with (Group "f" (rep1 6 (Strptime.rng "0" "9"))).
  cbv [rep1 upto opt Nat.sub Strptime.rng]. cbn [run].
  rewrite !in_range_digit, take_6.
  rewrite !Hk by apply is_digit_digit.
  by destruct (k rest _).
Qed.

(** *** The digits as integers *)

Lemma lstrip_digit v s : PyStr.lstrip (String (digit v) s) = String (digit v) s.
Proof.
  by apply (digit_case (λ c, PyStr.lstrip (String c s) = String c s)).
Qed.

Lemma int_pad2 n : 0 <= n <= 99 → PyStr.int (pad2 n "") = inr n.
Proof.
  intros Hn. unfold PyStr.int, pad2. rewrite lstrip_digit.
  cbn [PyStr.all_digits PyStr.digits_value]. rewrite !is_digit_digit.
  rewrite !digit_value_digit. cbn [andb ret]. f_equal.
  Z.div_mod_to_equations. lia.
Qed.

Lemma int_pad4 n : 0 <= n <= 9999 → PyStr.int (pad4 n "") = inr n.
Proof.
  intros Hn. unfold PyStr.int, pad4, pad2. rewrite lstrip_digit.
  cbn [PyStr.all_digits PyStr.digits_value]. rewrite !is_digit_digit.
  rewrite !digit_value_digit. cbn [andb ret]. f_equal.
  Z.div_mod_to_equations. lia.
Qed.

Lemma int_pad6 n : 0 <= n <= 999999 → PyStr.int (pad6 n "") = inr n.
Proof.
  intros Hn. unfold PyStr.int, pad6, pad4, pad2. rewrite lstrip_digit.
  cbn [PyStr.all_digits PyStr.digits_value]. rewrite !is_digit_digit.
  rewrite !digit_value_digit. cbn [andb ret]. f_equal.
  Z.div_mod_to_equations. lia.
Qed.

(** *** The fields of a valid value *)

Lemma require_inr c e u : require c e = inr u → c = true.
Proof. by destruct c. Qed.

Lemma _days_in_month_le y m : 1 <= m <= 12 → Datetime._days_in_month y m <= 31.
Proof.
  intros Hm. unfold Datetime._days_in_month.
  destruct (_ && _); [lia|]. enum m 1 12%nat; simpl; lia.
Qed.

Lemma valid_fields t :
  valid t →
  (1 <= Datetime.year t <= 9999 ∧ 1 <= Datetime.month t <= 12
   ∧ 1 <= Datetime.day t <= 31)
  ∧ (0 <= Datetime.hour t <= 23 ∧ 0 <= Datetime.minute t <= 59
     ∧ 0 <= Datetime.second t <= 59
     ∧ 0 <= Datetime.microsecond t <= 999999)
  ∧ Datetime._check_date_fields (Datetime.year t) (Datetime.month t)
      (Datetime.day t) = inr ().
Proof.
  unfold valid, Datetime.new. intros H.
  apply bind_inr in H as ([] & Hdate & H).
  apply bind_inr in H as ([] & Htime & _).
  split; [|split; [|done]].
  - unfold Datetime._check_date_fields in Hdate.
    apply bind_inr in Hdate as ([] & Hy & Hdate).
    apply bind_inr in Hdate as ([] & Hm & Hd).
    apply require_inr in Hy, Hm, Hd.
    unfold Datetime.MINYEAR, Datetime.MAXYEAR in Hy.
    assert (1 <= Datetime.month t <= 12) by lia.
    pose proof (_days_in_month_le (Datetime.year t) (Datetime.month t)).
    lia.
  - unfold Datetime._check_time_fields in Htime.
    apply bind_inr in Htime as ([] & Hh & Htime).
    apply bind_inr in Htime as ([] & Hmi & Htime).
    apply bind_inr in Htime as ([] & Hs & Hus).
    apply require_inr in Hh, Hmi, Hs, Hus. lia.
Qed.

Lemma valid_naive t : valid t → Datetime.tzinfo t = None.
Proof.
  unfold valid, Datetime.new. intros H.
  apply bind_inr in H as ([] & _ & H).
  by apply bind_inr in H as ([] & _ & [= <-]).
Qed.

(** *** [strptime] on the shapes *)

Lemma run_Cat {A} r1 r2 s g (k : string → groupdict → option A) :
  run (Cat r1 r2) s g k = run r1 s g (λ s' g', run r2 s' g' k).
Proof. reflexivity. Qed.

Lemma run_Lit {A} x s g (k : string → groupdict → option A) :
  run (Lit x) (String x s) g k = k s g.
Proof. cbn [run]. by rewrite Ascii.eqb_refl. Qed.

Ltac run_step :=
  rewrite run_Cat;
  first
    [ rewrite run_Lit
    | rewrite run_Y
    | rewrite run_m by first [by apply lit_fails_on_digits | lia]
    | rewrite run_d by first [by apply lit_fails_on_digits | lia]
    | rewrite run_H by first [by apply lit_fails_on_digits | lia]
    | rewrite run_M by first [by apply lit_fails_on_digits | lia]
    | rewrite run_S by first [by apply lit_fails_on_digits | assumption | lia]
    | rewrite run_f by first [by apply lit_fails_on_digits | assumption] ];
  cbv beta.

Lemma run_seconds {A} t r rest g (k : string → groupdict → option A) :
  valid t → fails_on_digits (λ s g, run r s g k) →
  run (seconds_re r) (seconds t rest) g k = run r rest (groups t ++ g) k.
Proof.
  intros Ht Hk. apply valid_fields in Ht as (Hdate & Htime & _).
  unfold seconds_re, seconds. by do 11 run_step.
Qed.

Lemma pattern_a :
  Strptime.pattern "%Y-%m-%dT%H:%M:%S.%fZ"
  = Some (seconds_re (Cat (Lit ".") (Cat (re "f") (Cat (Lit "Z") Eps)))).
Proof. reflexivity. Qed.

Lemma pattern_b :
  Strptime.pattern "%Y-%m-%dT%H:%M:%SZ"
  = Some (seconds_re (Cat (Lit "Z") Eps)).
Proof. reflexivity. Qed.

Lemma pad6_padded n :
  (pad6 n "" +:+ string_of_list_ascii
                   (repeat "0"%char (6 - String.length (pad6 n ""))))%string
  = pad6 n "".
Proof. reflexivity. Qed.

Ltac groups_to_fields Hdate Htime :=
  unfold Strptime.group_int, Strptime.group_fraction, groups;
  cbn [lookup app Ascii.eqb Bool.eqb andb];
  rewrite ?pad6_padded;
  rewrite int_pad4 by lia; rewrite !int_pad2 by lia;
  rewrite ?int_pad6 by lia;
  cbn [bind ret].

Lemma strptime_shape_a t :
  valid t → Strptime.strptime (shape_a t) "%Y-%m-%dT%H:%M:%S.%fZ" = inr t.
Proof.
  intros Ht. pose proof (valid_fields t Ht) as (Hdate & Htime & Hcheck).
  unfold Strptime.strptime, match_, shape_a. rewrite pattern_a.
  rewrite run_seconds by (done || by apply lit_fails_on_digits).
  do 3 run_step. cbn [run].
  groups_to_fields Hdate Htime. by rewrite Hcheck.
Qed.

Lemma strptime_shape_b t :
  valid t →
  Strptime.strptime (shape_b t) "%Y-%m-%dT%H:%M:%S.%fZ" = inl ValueError
  ∧ (Datetime.microsecond t = 0 →
     Strptime.strptime (shape_b t) "%Y-%m-%dT%H:%M:%SZ" = inr t).
Proof.
  intros Ht. pose proof (valid_fields t Ht) as (Hdate & Htime & Hcheck).
  unfold Strptime.strptime, match_, shape_b. rewrite pattern_a, pattern_b.
  rewrite !run_seconds by (done || by apply lit_fails_on_digits).
  split; [done|]. intros Hus. run_step. cbn [run].
  groups_to_fields Hdate Htime. rewrite Hcheck. cbn [bind].
  unfold valid in Ht. by rewrite Hus in Ht.
Qed.

Lemma strptime_shape_c t format :
  valid t →
  format = "%Y-%m-%dT%H:%M:%S.%fZ"%string ∨ format = "%Y-%m-%dT%H:%M:%SZ"%string →
  Strptime.strptime (shape_c t) format = inl ValueError.
Proof.
  intros Ht Hformat.
  unfold Strptime.strptime, match_, shape_c.
  destruct Hformat as [-> | ->]; rewrite ?pattern_a, ?pattern_b;
    rewrite run_seconds by (done || by apply lit_fails_on_digits);
    destruct (Datetime.microsecond t =? 0); try done.
  by do 2 run_step.
Qed.

(** *** [fromisoformat] on shape (c) *)

Lemma replace_digit new v s :
  PyStr.replace "Z" new (String (digit v) s)
  = String (digit v) (PyStr.replace "Z" new s).
Proof. cbn [PyStr.replace]. by rewrite eqb_digit. Qed.

Lemma replace_pad2 new n rest :
  PyStr.replace "Z" new (pad2 n rest) = pad2 n (PyStr.replace "Z" new rest).
Proof. unfold pad2. by rewrite !replace_digit. Qed.

Lemma replace_shape_c t : PyStr.replace "Z" "+00:00" (shape_c t) = shape_c t.
Proof.
  unfold shape_c, seconds, pad6, pad4.
  rewrite !replace_digit, replace_pad2.
  do 5 (cbn [PyStr.replace Ascii.eqb Bool.eqb andb]; rewrite replace_pad2).
  destruct (Datetime.microsecond t =? 0); [done|].
  cbn [PyStr.replace Ascii.eqb Bool.eqb andb].
  rewrite !eqb_digit by reflexivity. unfold pad2.
  cbn [PyStr.replace Ascii.eqb Bool.eqb andb].
  by rewrite !eqb_digit by reflexivity.
Qed.

Lemma parse_digits_pad2 n rest :
  0 <= n <= 99 → IsoFormat.parse_digits 2 (pad2 n rest) = Some (n, rest).
Proof.
  intros Hn. unfold IsoFormat.parse_digits, pad2.
  cbn [PyStr.take PyStr.drop String.length Nat.eqb PyStr.all_digits
       PyStr.digits_value].
  rewrite !is_digit_digit, !digit_value_digit. cbn [andb]. do 2 f_equal.
  Z.div_mod_to_equations. lia.
Qed.

Lemma parse_digits_pad4 n rest :
  0 <= n <= 9999 → IsoFormat.parse_digits 4 (pad4 n rest) = Some (n, rest).
Proof.
  intros Hn. unfold IsoFormat.parse_digits, pad4, pad2.
  cbn [PyStr.take PyStr.drop String.length Nat.eqb PyStr.all_digits
       PyStr.digits_value].
  rewrite !is_digit_digit, !digit_value_digit. cbn [andb]. do 2 f_equal.
  Z.div_mod_to_equations. lia.
Qed.

Lemma parse_digits_pad6 n rest :
  0 <= n <= 999999 → IsoFormat.parse_digits 6 (pad6 n rest) = Some (n, rest).
Proof.
  intros Hn. unfold IsoFormat.parse_digits, pad6, pad4, pad2.
  cbn [PyStr.take PyStr.drop String.length Nat.eqb PyStr.all_digits
       PyStr.digits_value].
  rewrite !is_digit_digit, !digit_value_digit. cbn [andb]. do 2 f_equal.
  Z.div_mod_to_equations. lia.
Qed.

Lemma split_tz_digit v s :
  IsoFormat.split_tz (String (digit v) s)
  = let '(t, tz) := IsoFormat.split_tz s in (String (digit v) t, tz).
Proof. cbn [IsoFormat.split_tz]. by rewrite !eqb_digit. Qed.

Lemma split_tz_pad2 n s :
  IsoFormat.split_tz (pad2 n s)
  = let '(t, tz) := IsoFormat.split_tz s in (pad2 n t, tz).
Proof.
  unfold pad2. rewrite !split_tz_digit. by destruct (IsoFormat.split_tz s).
Qed.

Lemma split_tz_pad6 n s :
  IsoFormat.split_tz (pad6 n s)
  = let '(t, tz) := IsoFormat.split_tz s in (pad6 n t, tz).
Proof.
  unfold pad6, pad4. rewrite !split_tz_digit, split_tz_pad2.
  by destruct (IsoFormat.split_tz s).
Qed.

Lemma new_utc t :
  valid t →
  Datetime.new (Datetime.year t) (Datetime.month t) (Datetime.day t)
               (Datetime.hour t) (Datetime.minute t) (Datetime.second t)
               (Datetime.microsecond t) (Some 0) = inr (utc t).
Proof.
  unfold valid, Datetime.new. intros H.
  apply bind_inr in H as ([] & -> & H).
  by apply bind_inr in H as ([] & -> & _).
Qed.

Lemma parse_hh_mm_ss h mi sec :
  0 <= h <= 99 → 0 <= mi <= 99 → 0 <= sec <= 99 →
  IsoFormat.parse_hh_mm_ss_ff
    (pad2 h (String ":" (pad2 mi (String ":" (pad2 sec "")))))
  = Some (h, mi, sec, 0).
Proof.
  intros. unfold IsoFormat.parse_hh_mm_ss_ff.
  rewrite parse_digits_pad2 by lia.
  cbn [mbind option_bind IsoFormat.expect Ascii.eqb Bool.eqb andb].
  rewrite parse_digits_pad2 by lia.
  cbn [mbind option_bind IsoFormat.expect Ascii.eqb Bool.eqb andb].
  by rewrite parse_digits_pad2 by lia.
Qed.

Lemma parse_hh_mm_ss_ffffff h mi sec us :
  0 <= h <= 99 → 0 <= mi <= 99 → 0 <= sec <= 99 → 0 <= us <= 999999 →
  IsoFormat.parse_hh_mm_ss_ff
    (pad2 h (String ":" (pad2 mi (String ":"
       (pad2 sec (String "." (pad6 us "")))))))
  = Some (h, mi, sec, us).
Proof.
  intros. unfold IsoFormat.parse_hh_mm_ss_ff.
  rewrite parse_digits_pad2 by lia.
  cbn [mbind option_bind IsoFormat.expect Ascii.eqb Bool.eqb andb].
  rewrite parse_digits_pad2 by lia.
  cbn [mbind option_bind IsoFormat.expect Ascii.eqb Bool.eqb andb].
  rewrite parse_digits_pad2 by lia.
  cbn [mbind option_bind IsoFormat.expect Ascii.eqb Bool.eqb andb].
  change (String.length (pad6 us "")) with 6%nat. cbn match.
  by rewrite parse_digits_pad6 by lia.
Qed.

Lemma parse_utc_offset :
  IsoFormat.parse_hh_mm_ss_ff "00:00" = Some (0, 0, 0, 0).
Proof. reflexivity. Qed.

Lemma fromisoformat_shape_c t :
  valid t → IsoFormat.fromisoformat (shape_c t) = inr (utc t).
Proof.
  intros Ht. pose proof (valid_fields t Ht) as (Hdate & Htime & _).
  unfold IsoFormat.fromisoformat, IsoFormat.parse_isoformat_date, shape_c,
    seconds.
  rewrite parse_digits_pad4 by lia.
  cbn [mbind option_bind IsoFormat.expect Ascii.eqb Bool.eqb andb].
  rewrite parse_digits_pad2 by lia.
  cbn [mbind option_bind IsoFormat.expect Ascii.eqb Bool.eqb andb].
  rewrite parse_digits_pad2 by lia.
  cbn [mbind option_bind].
  unfold IsoFormat.parse_isoformat_time.
  rewrite split_tz_pad2. cbn [IsoFormat.split_tz Ascii.eqb Bool.eqb andb].
  rewrite split_tz_pad2. cbn [IsoFormat.split_tz Ascii.eqb Bool.eqb andb].
  rewrite split_tz_pad2.
  destruct (Z.eqb_spec (Datetime.microsecond t) 0) as [Hus|Hus].
  - cbn [IsoFormat.split_tz Ascii.eqb Bool.eqb andb].
    rewrite parse_hh_mm_ss by lia. rewrite parse_utc_offset.
    cbn [mbind option_bind String.length].
    change (IsoFormat.tzinfo_from_isoformat_results _ _) with (@inr exn Z 0).
    cbn [bind]. rewrite <- (new_utc t Ht). by rewrite Hus.
  - cbn [IsoFormat.split_tz Ascii.eqb Bool.eqb andb].
    rewrite split_tz_pad6.
    cbn [IsoFormat.split_tz Ascii.eqb Bool.eqb andb].
    rewrite parse_hh_mm_ss_ffffff by lia. rewrite parse_utc_offset.
    cbn [mbind option_bind String.length].
    change (IsoFormat.tzinfo_from_isoformat_results _ _) with (@inr exn Z 0).
    cbn [bind]. by apply new_utc.
Qed.

(** *** [parse_date] on the shapes *)

Lemma parse_date_shape_a t : valid t → parse_date (shape_a t) = inr t.
Proof.
  intros Ht. unfold parse_date. by rewrite strptime_shape_a.
Qed.

Lemma parse_date_shape_b t :
  valid t → Datetime.microsecond t = 0 → parse_date (shape_b t) = inr t.
Proof.
  intros Ht Hus. unfold parse_date.
  destruct (strptime_shape_b t Ht) as [-> Hb]. by rewrite Hb.
Qed.

Lemma parse_date_shape_c t : valid t → parse_date (shape_c t) = inr (utc t).
Proof.
  intros Ht. unfold parse_date.
  rewrite !strptime_shape_c by auto.
  rewrite replace_shape_c. by apply fromisoformat_shape_c.
Qed.

End ShapeFacts.

(** C2 fails on the code.  For every instant, shape (a) parses to the
    naive value of its fields, and so does shape (b) when the instant has
    no fraction of a second; but shape (c) reaches the fallback and parses
    to an aware value, which is not equal to the naive one.  [strptime]
    gives naive values only; an aware value is not equal to a naive one,
    and each use the code makes of it, the comparison with a naive bound in
    [search_channels] and the subtraction from the naive [datetime.now()]
    in [analyze_channels_growth], raises [TypeError]. *)
Theorem parse_date_fallback_is_aware :
  (∀ t, Shape.valid t →
     parse_date (Shape.shape_a t) = inr t
     ∧ (Datetime.microsecond t = 0 → parse_date (Shape.shape_b t) = inr t)
     ∧ parse_date (Shape.shape_c t) = inr (Shape.utc t)
     ∧ Shape.utc t ≠ t
     ∧ Datetime.eq t (Shape.utc t) = inr false)
  ∧ (∀ date_str format t,
       Strptime.strptime date_str format = inr t → Datetime.tzinfo t = None)
  ∧ (∀ naive aware,
       Datetime.tzinfo naive = None → Datetime.tzinfo aware ≠ None →
       Datetime.eq naive aware = inr false
       ∧ Datetime.lt aware naive = inl TypeError
       ∧ Datetime.gt aware naive = inl TypeError
       ∧ Datetime.sub naive aware = inl TypeError)
  ∧ (let naive := Datetime.mk_datetime 2020 1 1 0 0 0 0 None in
     let aware := Datetime.mk_datetime 2020 1 1 0 0 0 0 (Some 0) in
     parse_date "2020-01-01T00:00:00.000000Z" = inr naive
     ∧ parse_date "2020-01-01T00:00:00Z" = inr naive
     ∧ parse_date "2020-01-01 00:00:00Z" = inr aware
     ∧ parse_date "2020-01-01T00:00:00+00:00" = inr aware
     ∧ naive ≠ aware
     ∧ date_filter (Some (combine_min_time 2020 1 1))
                   (Some (combine_max_time 2020 12 31))
                   (channel_of "C" 1000 50000 "2020-01-01 00:00:00Z")
       = inl TypeError
     ∧ analyze_channels_growth (frozen noon)
         [channel_of "C" 1000 50000 "2020-01-01 00:00:00Z"] 30
       = inl TypeError).
Proof.
  assert (Hmixed : ∀ naive aware,
            Datetime.tzinfo naive = None → Datetime.tzinfo aware ≠ None →
            Datetime.eq naive aware = inr false
            ∧ Datetime.lt aware naive = inl TypeError
            ∧ Datetime.gt aware naive = inl TypeError
            ∧ Datetime.sub naive aware = inl TypeError).
  { intros naive aware Hn Ha.
    unfold Datetime.eq, Datetime.lt, Datetime.gt, Datetime.sub, Datetime._cmp.
    rewrite Hn. by destruct (Datetime.tzinfo aware). }
  split; [|split; [exact strptime_naive|split; [exact Hmixed|]]].
  - intros t Ht. pose proof (ShapeFacts.valid_naive t Ht) as Hnaive.
    split; [by apply ShapeFacts.parse_date_shape_a|].
    split; [by apply ShapeFacts.parse_date_shape_b|].
    split; [by apply ShapeFacts.parse_date_shape_c|].
    split.
    + intros Heq. by rewrite <- Heq in Hnaive.
    + by apply Hmixed.
  - vm_compute. by repeat split.
Qed.

(** The three shapes of midnight of 1 January 2020, and the value of the
    fallback against the bound [main] builds and against the clock. *)
Lemma parse_date_fallback_is_aware_utc :
  (parse_date (Shape.shape_a (combine_min_time 2020 1 1))
   = inr (combine_min_time 2020 1 1)
   ∧ (Datetime.microsecond (combine_min_time 2020 1 1) = 0 →
      parse_date (Shape.shape_b (combine_min_time 2020 1 1))
      = inr (combine_min_time 2020 1 1))
   ∧ parse_date (Shape.shape_c (combine_min_time 2020 1 1))
     = inr (Shape.utc (combine_min_time 2020 1 1))
   ∧ Shape.utc (combine_min_time 2020 1 1) ≠ combine_min_time 2020 1 1
   ∧ Datetime.eq (combine_min_time 2020 1 1)
                 (Shape.utc (combine_min_time 2020 1 1)) = inr false)
  ∧ Datetime.eq (combine_min_time 2020 1 1)
                (Datetime.mk_datetime 2020 1 1 0 0 0 0 (Some 0)) = inr false
  ∧ Datetime.lt (Datetime.mk_datetime 2020 1 1 0 0 0 0 (Some 0))
                (combine_min_time 2020 1 1) = inl TypeError
  ∧ Datetime.gt (Datetime.mk_datetime 2020 1 1 0 0 0 0 (Some 0))
                (combine_min_time 2020 1 1) = inl TypeError
  ∧ Datetime.sub (combine_min_time 2020 1 1)
                 (Datetime.mk_datetime 2020 1 1 0 0 0 0 (Some 0))
    = inl TypeError.
Proof.
  split.
  - apply (proj1 parse_date_fallback_is_aware (combine_min_time 2020 1 1)).
    reflexivity.
  - apply (proj1 (proj2 (proj2 parse_date_fallback_is_aware))
                 (combine_min_time 2020 1 1)
                 (Datetime.mk_datetime 2020 1 1 0 0 0 0 (Some 0))).
    + reflexivity.
    + simpl. discriminate.
Defined.

(** ** Claims on the date filter of [search_channels] *)

Lemma _cmp_tuple_antisym x y :
  Datetime._cmp_tuple y x = - Datetime._cmp_tuple x y.
Proof.
  revert y. induction x as [|a x IH]; intros [|b y]; simpl; try done.
  destruct (Z.ltb_spec a b), (Z.ltb_spec b a); try lia; by try apply IH.
Qed.

Lemma _cmp_same_zone a b allow_mixed :
  same_zone a b →
  Datetime._cmp a b allow_mixed
  = inr (Datetime._cmp_tuple (Datetime.fields a) (Datetime.fields b)).
Proof.
  unfold same_zone, Datetime._cmp. intros ->.
  destruct (Datetime.tzinfo b) as [offset|]; [|done].
  by rewrite Z.eqb_refl.
Qed.

Lemma lt_same_zone a b :
  same_zone a b →
  Datetime.lt a b
  = inr (Datetime._cmp_tuple (Datetime.fields a) (Datetime.fields b) <? 0).
Proof. intros H. unfold Datetime.lt. by rewrite _cmp_same_zone. Qed.

Lemma gt_same_zone a b :
  same_zone a b →
  Datetime.gt a b
  = inr (0 <? Datetime._cmp_tuple (Datetime.fields a) (Datetime.fields b)).
Proof. intros H. unfold Datetime.gt. by rewrite _cmp_same_zone. Qed.

Lemma le_same_zone a b :
  same_zone a b →
  Datetime.le a b
  = inr (Datetime._cmp_tuple (Datetime.fields a) (Datetime.fields b) <=? 0).
Proof. intros H. unfold Datetime.le. by rewrite _cmp_same_zone. Qed.

Lemma before_bound_same_zone min_date published_at :
  bound_in_zone min_date published_at →
  ∃ b, before_bound min_date published_at = inr b
       ∧ (b = false ↔ not_before min_date published_at).
Proof.
  intros Hmin. destruct min_date as [bound|]; unfold before_bound.
  - specialize (Hmin bound eq_refl).
    rewrite (lt_same_zone _ _ (eq_sym Hmin)).
    eexists. split; [done|]. unfold not_before.
    pose proof (le_same_zone _ _ Hmin) as Hle.
    rewrite (_cmp_tuple_antisym (Datetime.fields published_at)) in Hle.
    generalize dependent
      (Datetime._cmp_tuple (Datetime.fields published_at)
                           (Datetime.fields bound)).
    intros c Hle. rewrite Z.ltb_ge. split.
    + intros H b [= <-]. rewrite Hle. f_equal. apply Z.leb_le. lia.
    + intros H. rewrite (H bound eq_refl) in Hle. injection Hle as Hle.
      symmetry in Hle. apply Z.leb_le in Hle. lia.
  - exists false. split; [done|]. split; [|done]. by intros _ b.
Qed.

Lemma after_bound_same_zone max_date published_at :
  bound_in_zone max_date published_at →
  ∃ b, after_bound max_date published_at = inr b
       ∧ (b = false ↔ not_after max_date published_at).
Proof.
  intros Hmax. destruct max_date as [bound|]; unfold after_bound.
  - specialize (Hmax bound eq_refl).
    rewrite (gt_same_zone _ _ (eq_sym Hmax)).
    eexists. split; [done|]. unfold not_after.
    pose proof (le_same_zone _ _ (eq_sym Hmax)) as Hle.
    generalize dependent
      (Datetime._cmp_tuple (Datetime.fields published_at)
                           (Datetime.fields bound)).
    intros c Hle. rewrite Z.ltb_ge. split.
    + intros H b [= <-]. rewrite Hle. f_equal. by apply Z.leb_le.
    + intros H. rewrite (H bound eq_refl) in Hle. injection Hle as Hle.
      symmetry in Hle. by apply Z.leb_le in Hle.
  - exists false. split; [done|]. split; [|done]. by intros _ b.
Qed.

Lemma date_filter_same_zone min_date max_date channel published_at :
  parse_date (Channel.published_at channel) = inr published_at →
  bound_in_zone min_date published_at →
  bound_in_zone max_date published_at →
  ∃ keep, date_filter min_date max_date channel = inr keep
          ∧ (keep = true ↔ not_before min_date published_at
                            ∧ not_after max_date published_at).
Proof.
  intros Hparse Hmin Hmax. unfold date_filter. rewrite Hparse. simpl.
  destruct (before_bound_same_zone min_date published_at Hmin)
    as (early & -> & Hearly).
  destruct (after_bound_same_zone max_date published_at Hmax)
    as (late & Hlate_eq & Hlate).
  simpl. destruct early.
  { exists false. split; [done|]. split; [done|]. intros [H _].
    by apply Hearly in H. }
  rewrite Hlate_eq. simpl. destruct late.
  - exists false. split; [done|]. split; [done|]. intros [_ H].
    by apply Hlate in H.
  - exists true. split; [done|]. split; [|done]. intros _.
    split; [by apply Hearly|by apply Hlate].
Qed.

(** C6: when the bounds that are supplied can be compared with
    [published_at] (all naive, as in the program, or all aware with one
    offset), a channel passes the date filter exactly when
    [min_date <= published_at] and [published_at <= max_date], each for a
    bound that is supplied; [search_channels] then returns exactly the
    resolved channels for which this holds.  With the bounds [main] builds
    for the range from 2020-01-01 to 2020-12-31, a channel published at
    2021-01-01 is dropped, and one published exactly at either bound is
    kept. *)
Theorem date_filter_inclusive :
  (∀ min_date max_date channel published_at,
     parse_date (Channel.published_at channel) = inr published_at →
     bound_in_zone min_date published_at →
     bound_in_zone max_date published_at →
     ∃ keep, date_filter min_date max_date channel = inr keep
             ∧ (keep = true ↔ not_before min_date published_at
                               ∧ not_after max_date published_at))
  ∧ (∀ youtube query max_results min_date max_date,
       (∀ item channel,
          item ∈ Api.search_list youtube query max_results →
          get_channel_stats youtube item = Some channel →
          ∃ p, parse_date (Channel.published_at channel) = inr p
               ∧ bound_in_zone min_date p ∧ bound_in_zone max_date p) →
       ∃ channels,
         search_channels youtube query max_results min_date max_date
         = inr channels
         ∧ ∀ channel,
             channel ∈ channels ↔
             (∃ item, item ∈ Api.search_list youtube query max_results
                      ∧ get_channel_stats youtube item = Some channel)
             ∧ ∃ p, parse_date (Channel.published_at channel) = inr p
                    ∧ not_before min_date p ∧ not_after max_date p)
  ∧ (let min_date := Some (combine_min_time 2020 1 1) in
     let max_date := Some (combine_max_time 2020 12 31) in
     date_filter min_date max_date
       (channel_of "C1" 1000 50000 "2021-01-01T00:00:00Z") = inr false
     ∧ date_filter min_date max_date
         (channel_of "C2" 1000 50000 "2020-01-01T00:00:00Z") = inr true
     ∧ date_filter min_date max_date
         (channel_of "C3" 1000 50000 "2020-12-31T23:59:59.999999Z")
       = inr true).
Proof.
  split; [exact date_filter_same_zone|]. split; [|by vm_compute].
  intros youtube query max_results min_date max_date Hall.
  unfold search_channels.
  set (items := Api.search_list youtube query max_results) in *.
  eexists. split.
  - apply search_loop_inr. split; [|done].
    intros c (item & Hitem & Hstats)%list_elem_of_omap.
    destruct (Hall item c Hitem Hstats) as (p & Hparse & Hmin & Hmax).
    destruct (date_filter_same_zone min_date max_date c p Hparse Hmin Hmax)
      as (keep & Hkeep & _). eauto.
  - intros channel. simpl. rewrite list_elem_of_filter, list_elem_of_omap.
    unfold kept. split.
    + intros [Hkeep (item & Hitem & Hstats)]. split; [by eauto|].
      destruct (Hall item channel Hitem Hstats) as (p & Hparse & Hmin & Hmax).
      destruct (date_filter_same_zone min_date max_date channel p
                  Hparse Hmin Hmax) as (keep & Hkeep' & Hiff).
      rewrite Hkeep in Hkeep'. injection Hkeep' as <-.
      exists p. split; [done|]. by apply Hiff.
    + intros [(item & Hitem & Hstats) (p & Hparse & Hlo & Hhi)].
      split; [|by eauto].
      destruct (Hall item channel Hitem Hstats) as (p' & Hparse' & Hmin & Hmax).
      rewrite Hparse in Hparse'. injection Hparse' as <-.
      destruct (date_filter_same_zone min_date max_date channel p
                  Hparse Hmin Hmax) as (keep & -> & Hiff).
      f_equal. by apply Hiff.
Qed.

(** A channel published at the last microsecond of the range. *)
Lemma date_filter_inclusive_upper_bound :
  ∃ keep,
    date_filter (Some (combine_min_time 2020 1 1))
                (Some (combine_max_time 2020 12 31))
                (channel_of "C3" 1000 50000 "2020-12-31T23:59:59.999999Z")
    = inr keep
    ∧ (keep = true ↔
       not_before (Some (combine_min_time 2020 1 1))
                  (combine_max_time 2020 12 31)
       ∧ not_after (Some (combine_max_time 2020 12 31))
                   (combine_max_time 2020 12 31)).
Proof.
  apply (proj1 date_filter_inclusive
               (Some (combine_min_time 2020 1 1))
               (Some (combine_max_time 2020 12 31))
               (channel_of "C3" 1000 50000 "2020-12-31T23:59:59.999999Z")
               (combine_max_time 2020 12 31)).
  - vm_compute. reflexivity.
  - intros t [= <-]. reflexivity.
  - intros t [= <-]. reflexivity.
Defined.

(** C8: filtering is idempotent: running the loop of [search_channels] with
    the same bounds over the channels it has returned gives the same
    channels; when the first run raises, there is nothing to filter
    again. *)
Theorem date_filter_idempotent {Item : Type} (stats : Item → option Channel.t)
        (min_date max_date : option Datetime.datetime) (items : list Item) :
  (let* channels := search_loop stats min_date max_date items [] in
   search_loop Some min_date max_date channels [])
  = search_loop stats min_date max_date items [].
Proof.
  destruct (search_loop stats min_date max_date items []) as [e|out] eqn:H;
    simpl; [done|].
  apply search_loop_inr in H as [_ Hout]. simpl in Hout.
  assert (omap Some out = out) as Hid.
  { clear. induction out as [|c out IH]; simpl; [done|]. by f_equal. }
  assert (Forall (kept min_date max_date) out) as Hkept.
  { rewrite Hout. apply Forall_forall. by intros c [? _]%list_elem_of_filter. }
  apply search_loop_inr. rewrite Hid. split.
  - intros c Hc. exists true. by eapply Forall_forall in Hkept.
  - simpl. clear Hout Hid. induction Hkept as [|c out Hc _ IH]; [done|].
    rewrite filter_cons. destruct (decide (kept min_date max_date c)); [|done].
    by f_equal.
Qed.

(** ** The store: [analyze_channels_growth] against the pure function *)

Module StoreFacts.

Local Abbreviation analyze_pure := analyze_channels_growth.

Import Store.

Lemma preserved_refl h : preserved h h.
Proof. by intros l o. Qed.

Lemma fresh_lookup (h : heap) : h !! fresh (dom h) = None.
Proof. apply not_elem_of_dom, is_fresh. Qed.

(** Allocating, and updating an object that [h0] does not have, leave the
    objects of [h0] as they are. *)
Lemma preserved_alloc h0 h o :
  preserved h0 h → preserved h0 (<[fresh (dom h):=o]> h).
Proof.
  intros Hp l o' Hl. rewrite lookup_insert_ne; [by apply Hp|].
  intros <-. apply Hp in Hl. by rewrite fresh_lookup in Hl.
Qed.

Lemma preserved_update h0 h l o :
  h0 !! l = None → preserved h0 h → preserved h0 (<[l:=o]> h).
Proof.
  intros Hl Hp l' o' Hl'. rewrite lookup_insert_ne; [by apply Hp|].
  intros <-. by rewrite Hl in Hl'.
Qed.

Lemma loop_body_spec now h channel results c ps :
  h !! channel = Some (ChannelDict c) → holds h results ps →
  match growth_row now c with
  | inl e => loop_body now channel results h = (inl e, h)
  | inr row =>
      ∃ h', loop_body now channel results h = (inr tt, h')
            ∧ (∀ h0, h0 !! results = None → preserved h0 h → preserved h0 h')
            ∧ holds h' results (ps ++ [(fresh (dom h), row)])
  end.
Proof.
  intros Hc [Hr Hps]. unfold loop_body, mbind, get_channel, lift.
  rewrite Hc. destruct (growth_row now c) as [e|row]; [done|].
  unfold alloc, append, mbind, get_list, set_list.
  assert (fresh (dom h) ≠ results) as Hne.
  { intros Heq. by rewrite <-Heq, fresh_lookup in Hr. }
  rewrite lookup_insert_ne, Hr by done.
  eexists. split; [done|]. split; [|split].
  - intros h0 Hnone Hp. by apply preserved_update, preserved_alloc.
  - rewrite lookup_insert_eq. by rewrite fmap_app.
  - apply Forall_app. split.
    + eapply Forall_impl; [exact Hps|]. intros [l row'] Hl. simpl in *.
      rewrite !lookup_insert_ne; [done| |].
      * intros <-. by rewrite fresh_lookup in Hl.
      * intros <-. by rewrite Hr in Hl.
    + constructor; [|done]. simpl.
      by rewrite lookup_insert_ne, lookup_insert_eq.
Qed.

Lemma for_loop_step fuel clock i channels results h items :
  h !! channels = Some (ListObj items) →
  for_loop (S fuel) clock i channels results h
  = match items !! i with
    | None => (inr true, h)
    | Some channel =>
        match loop_body (clock i) channel results h with
        | (inl e, h') => (inl e, h')
        | (inr _, h') => for_loop fuel clock (S i) channels results h'
        end
    end.
Proof.
  intros H. simpl. unfold mbind, get_list. rewrite H.
  by destruct (items !! i).
Qed.

Lemma for_loop_spec clock h0 channels results all_items :
  h0 !! channels = Some (ListObj all_items) → h0 !! results = None →
  ∀ after cs before fuel h ps,
    all_items = before ++ after →
    Forall2 (λ r c, h0 !! r = Some (ChannelDict c)) after cs →
    preserved h0 h → holds h results ps →
    (length after < fuel)%nat →
    loop_outcome h0 results
      (analyze_loop clock (length before) cs ps.*2)
      (for_loop fuel clock (length before) channels results h).
Proof.
  intros Hchannels Hresults after.
  induction after as [|r after IH];
    intros cs before fuel h ps -> Hcs Hp Hps Hfuel;
    destruct fuel as [|fuel]; try (simpl in Hfuel; lia);
    rewrite (for_loop_step _ _ _ _ _ _ _ (Hp _ _ Hchannels)).
  - apply Forall2_nil_inv_l in Hcs as ->.
    rewrite lookup_ge_None_2 by (rewrite length_app; simpl; lia).
    split; [done|]. simpl. split; [done|]. by exists ps.
  - apply Forall2_cons_inv_l in Hcs as (c & cs' & Hc & Hcs & ->).
    rewrite list_lookup_middle by done.
    pose proof (loop_body_spec (clock (length before)) h r results c ps
                  (Hp _ _ Hc) Hps) as Hbody.
    simpl. destruct (growth_row (clock (length before)) c) as [e|row].
    { rewrite Hbody. by split. }
    destruct Hbody as (h1 & -> & Hp1 & Hps1). simpl.
    specialize (IH cs' (before ++ [r]) fuel h1
                   (ps ++ [(fresh (dom h), row)])).
    rewrite length_app, Nat.add_1_r, fmap_app in IH. apply IH.
    + by rewrite <-app_assoc.
    + done.
    + by apply Hp1.
    + done.
    + simpl in Hfuel. lia.
Qed.

Lemma keys_spec h ps :
  Forall (λ p, h !! p.1 = Some (GrowthDict p.2)) ps →
  keys ps.*1 h = (inr (prod_map id Growth.growth_rate <$> ps), h).
Proof.
  induction 1 as [|[l row] ps Hl _ IH]; [done|].
  rewrite !fmap_cons. cbn [keys fst snd prod_map] in *.
  unfold mbind, get_growth. by rewrite Hl, IH.
Qed.

(** Sorting commutes with a map that keeps the keys. *)
Lemma insert_fmap {A B K} (f : A → B) (keyA : A → K) (keyB : B → K) lt x l :
  (∀ y, keyB (f y) = keyA y) →
  PyList.insert keyB lt (f x) (f <$> l) = f <$> PyList.insert keyA lt x l.
Proof.
  intros Hkey. induction l as [|y l IH]; csimpl; [done|].
  rewrite !Hkey. destruct (lt (keyA y) (keyA x)); csimpl; [|done].
  by rewrite IH.
Qed.

Lemma sort_fmap {A B K} (f : A → B) (keyA : A → K) (keyB : B → K) lt rev l :
  (∀ y, keyB (f y) = keyA y) →
  PyList.sort keyB lt rev (f <$> l) = f <$> PyList.sort keyA lt rev l.
Proof.
  intros Hkey.
  assert (∀ l, PyList.sort_ascending keyB lt (f <$> l)
               = f <$> PyList.sort_ascending keyA lt l) as Hasc.
  { clear l. induction l as [|x l IH]; csimpl; [done|].
    by rewrite IH, (insert_fmap f keyA keyB). }
  destruct rev; simpl; [|apply Hasc].
  by rewrite <-fmap_reverse, Hasc, fmap_reverse.
Qed.

Lemma sort_by_growth_rate_spec h results ps :
  holds h results ps →
  ∃ h', sort_by_growth_rate results h = (inr tt, h')
        ∧ (∀ h0, h0 !! results = None → preserved h0 h → preserved h0 h')
        ∧ ∃ ps', holds h' results ps'
                 ∧ ps'.*2 = PyList.sort Growth.growth_rate PyFloat.lt true ps.*2.
Proof.
  intros [Hr Hps]. unfold sort_by_growth_rate, mbind, get_list, set_list.
  rewrite Hr, (keys_spec h ps Hps).
  set (sorted := PyList.sort (λ p, Growth.growth_rate p.2) PyFloat.lt true ps).
  assert (PyList.sort snd PyFloat.lt true
            (prod_map id Growth.growth_rate <$> ps)
          = prod_map id Growth.growth_rate <$> sorted) as ->.
  { by apply sort_fmap. }
  eexists. split; [done|]. split.
  { intros h0 Hnone Hp. by apply preserved_update. }
  exists sorted. split; [split|].
  - rewrite lookup_insert_eq. do 2 f_equal.
    rewrite <-list_fmap_compose. by apply list_fmap_ext.
  - assert (Forall (λ p, h !! p.1 = Some (GrowthDict p.2)) sorted) as Hs.
    { unfold sorted. by rewrite PyListFacts.sort_Permutation. }
    eapply Forall_impl; [exact Hs|]. intros [l row] Hl. simpl in *.
    rewrite lookup_insert_ne; [done|]. intros <-. by rewrite Hr in Hl.
  - unfold sorted. symmetry. by apply sort_fmap.
Qed.

Lemma holds_rows_at h results ps : holds h results ps → rows_at h results ps.*2.
Proof.
  intros [Hr Hps]. exists ps.*1. split; [done|].
  clear Hr. induction Hps as [|[l row] ps Hl _ IH]; csimpl; by constructor.
Qed.

(** The function on the store does what the pure function does, and leaves
    every object that was there before the call as it was. *)
Lemma analyze_channels_growth_refines h channels cs clock days fuel :
  channels_at h channels cs → (length cs < fuel)%nat →
  ∃ r h',
    Store.analyze_channels_growth fuel clock channels days h = (r, h')
    ∧ preserved h h'
    ∧ match analyze_pure clock cs days with
      | inl e => r = inl e
      | inr rows =>
          ∃ results, r = inr (Some results) ∧ h !! results = None
                     ∧ rows_at h' results rows
      end.
Proof.
  intros (items & Hitems & Hcs) Hfuel.
  unfold Store.analyze_channels_growth, mbind, alloc.
  set (results := fresh (dom h)).
  assert (h !! results = None) as Hnone by apply fresh_lookup.
  assert (preserved h (<[results:=ListObj []]> h)) as Hp0.
  { subst results. apply preserved_alloc, preserved_refl. }
  assert (holds (<[results:=ListObj []]> h) results []) as Hps0.
  { split; [by rewrite lookup_insert_eq|constructor]. }
  assert (length items < fuel)%nat as Hfuel'.
  { by rewrite (Forall2_length _ _ _ Hcs). }
  destruct (for_loop_spec clock h channels results items Hitems Hnone
              items cs [] fuel (<[results:=ListObj []]> h) [] eq_refl Hcs
              Hp0 Hps0 Hfuel') as [Hp1 Hloop].
  unfold analyze_pure, analyze_channels_growth.
  cbn [length fmap list_fmap] in Hp1, Hloop. revert Hp1 Hloop.
  destruct (for_loop fuel clock 0 channels results _) as [r1 h1].
  simpl. intros Hp1 Hloop.
  destruct (analyze_loop clock 0 cs []) as [e|rows]; simpl in *.
  { subst r1. by exists (inl e), h1. }
  destruct Hloop as (-> & ps & -> & Hps). simpl.
  destruct (sort_by_growth_rate_spec h1 results ps Hps)
    as (h2 & Hsort & Hp2 & ps' & Hps' & Hsorted).
  unfold mbind. rewrite Hsort.
  exists (inr (Some results)), h2. split; [done|]. split; [by apply Hp2|].
  exists results. split; [done|]. split; [done|].
  unfold PyList.sort in Hsorted. rewrite <-Hsorted. by apply holds_rows_at.
Qed.

End StoreFacts.

(** ** Claim on the fields carried through and on the input *)

(** The rows of channels whose days are positive and whose quotients are
    floats can all be computed, and each carries the fields of its
    channel. *)
Lemma rows_in_order_carried clock channels :
  (∀ i channel, channels !! i = Some channel →
     ∃ d, days_since_creation (clock i) channel = inr d ∧ 0 < d
          ∧ quotient_is_float (Channel.subscriber_count channel) d
          ∧ quotient_is_float (Channel.view_count channel) d) →
  ∃ results, rows_in_order clock channels = inr <$> results
             ∧ Forall2 carried_through channels results.
Proof.
  unfold rows_in_order. revert clock.
  induction channels as [|c channels IH]; intros clock Hall.
  { exists []. by split. }
  destruct (Hall 0%nat c eq_refl) as (d & Hd & _ & [ds Hds] & [dv Hdv]).
  destruct (IH (clock ∘ S)) as (results & Hrows & Hcarried).
  { intros i c' Hi. exact (Hall (S i) c' Hi). }
  eexists (_ :: results). rewrite imap_cons, fmap_cons. split.
  - f_equal; [|exact Hrows].
    apply growth_row_inr. by exists d, ds, dv.
  - by constructor.
Qed.

(** C10: when every channel has a positive number of days since its
    creation and the quotients of its two counts by that number are floats,
    [analyze_channels_growth] returns, and the rows it returns are a
    rearrangement of one row for each channel, in which the title, the
    identifier, the two counts and the [published_at] string of the channel
    stand unchanged.  The same holds of the rows of every call that
    returns, whatever the days.  On the store, under the same conditions,
    the call returns a new list of new rows, which are the rows of the pure
    function, and leaves every object that existed before it as it was, so
    the list [channels] still holds the same dictionaries with the same
    contents.  The objects that existed before are also left as they were
    by a call that raises. *)
Theorem analyze_carries_fields_and_preserves_input :
  (∀ clock channels days,
     (∀ i channel, channels !! i = Some channel →
        ∃ d, days_since_creation (clock i) channel = inr d ∧ 0 < d
             ∧ quotient_is_float (Channel.subscriber_count channel) d
             ∧ quotient_is_float (Channel.view_count channel) d) →
     ∃ rows results,
       analyze_channels_growth clock channels days = inr rows
       ∧ rows ≡ₚ results ∧ Forall2 carried_through channels results)
  ∧ (∀ clock channels days rows,
       analyze_channels_growth clock channels days = inr rows →
       ∃ results, rows ≡ₚ results ∧ Forall2 carried_through channels results)
  ∧ (∀ h channels cs clock days fuel,
       Store.channels_at h channels cs → (length cs < fuel)%nat →
       (∀ i channel, cs !! i = Some channel →
          ∃ d, days_since_creation (clock i) channel = inr d ∧ 0 < d
               ∧ quotient_is_float (Channel.subscriber_count channel) d
               ∧ quotient_is_float (Channel.view_count channel) d) →
       ∃ results h' rows in_order,
         Store.analyze_channels_growth fuel clock channels days h
         = (inr (Some results), h')
         ∧ analyze_channels_growth clock cs days = inr rows
         ∧ h !! results = None
         ∧ Store.rows_at h' results rows
         ∧ rows ≡ₚ in_order
         ∧ Forall2 carried_through cs in_order
         ∧ Store.preserved h h'
         ∧ Store.channels_at h' channels cs)
  ∧ (∀ h channels cs clock days fuel,
       Store.channels_at h channels cs → (length cs < fuel)%nat →
       ∃ r h',
         Store.analyze_channels_growth fuel clock channels days h = (r, h')
         ∧ Store.preserved h h'
         ∧ Store.channels_at h' channels cs
         ∧ match analyze_channels_growth clock cs days with
           | inl e => r = inl e
           | inr rows =>
               ∃ results, r = inr (Some results) ∧ h !! results = None
                          ∧ Store.rows_at h' results rows
           end).
Proof.
  assert (∀ clock channels days,
     (∀ i channel, channels !! i = Some channel →
        ∃ d, days_since_creation (clock i) channel = inr d ∧ 0 < d
             ∧ quotient_is_float (Channel.subscriber_count channel) d
             ∧ quotient_is_float (Channel.view_count channel) d) →
     ∃ rows results,
       analyze_channels_growth clock channels days = inr rows
       ∧ rows ≡ₚ results ∧ Forall2 carried_through channels results)
    as Hreturns.
  { intros clock channels days Hall.
    destruct (rows_in_order_carried clock channels Hall)
      as (results & Hrows & Hcarried).
    exists (PyList.sort Growth.growth_rate PyFloat.lt true results), results.
    split; [apply analyze_channels_growth_inr; by exists results|].
    split; [apply PyListFacts.sort_Permutation|done]. }
  assert (∀ h channels cs clock days fuel,
       Store.channels_at h channels cs → (length cs < fuel)%nat →
       ∃ r h',
         Store.analyze_channels_growth fuel clock channels days h = (r, h')
         ∧ Store.preserved h h'
         ∧ Store.channels_at h' channels cs
         ∧ match analyze_channels_growth clock cs days with
           | inl e => r = inl e
           | inr rows =>
               ∃ results, r = inr (Some results) ∧ h !! results = None
                          ∧ Store.rows_at h' results rows
           end) as Hstore.
  { intros h channels cs clock days fuel Hat Hfuel.
    destruct (StoreFacts.analyze_channels_growth_refines
                h channels cs clock days fuel Hat Hfuel)
      as (r & h' & Hrun & Hp & Hpure).
    exists r, h'. split; [done|]. split; [done|]. split; [|done].
    destruct Hat as (items & Hitems & Hcs). exists items.
    split; [by apply Hp|].
    eapply Forall2_impl; [exact Hcs|]. intros l c Hl. by apply Hp. }
  split; [exact Hreturns|]. split; [|split; [|exact Hstore]].
  - intros clock channels days rows
      (results & Hrows & ->)%analyze_channels_growth_inr.
    exists results. split; [apply PyListFacts.sort_Permutation|].
    apply Forall2_same_length_lookup_2.
    { symmetry. by eapply rows_in_order_length. }
    intros i channel row Hc Hr.
    destruct (rows_in_order_lookup _ _ _ _ _ Hrows Hc) as (row' & Hr' & Hg).
    rewrite Hr in Hr'. injection Hr' as <-.
    by apply growth_row_inr in Hg as (d & ds & dv & _ & _ & _ & ->).
  - intros h channels cs clock days fuel Hat Hfuel Hall.
    destruct (Hreturns clock cs days Hall)
      as (rows & in_order & Hrows & Hperm & Hcarried).
    destruct (Hstore h channels cs clock days fuel Hat Hfuel)
      as (r & h' & Hrun & Hp & Hat' & Hpure).
    rewrite Hrows in Hpure. destruct Hpure as (results & -> & Hnew & Hat_rows).
    by exists results, h', rows, in_order.
Qed.

(** Scenario B on the store: the call returns a new list that holds the
    rows of scenario B, each with the fields of its channel, and the three
    dictionaries of the input are where they were. *)
Lemma analyze_carries_fields_and_preserves_input_scenario_B :
  ∃ results h' in_order,
    Store.analyze_channels_growth 4 (frozen noon) 4%nat 30 scenario_B_heap
    = (inr (Some results), h')
    ∧ analyze_channels_growth (frozen noon) scenario_B 30
      = inr scenario_B_rows
    ∧ scenario_B_heap !! results = None
    ∧ Store.rows_at h' results scenario_B_rows
    ∧ scenario_B_rows ≡ₚ in_order
    ∧ Forall2 carried_through scenario_B in_order
    ∧ Store.preserved scenario_B_heap h'
    ∧ Store.channels_at h' 4%nat scenario_B.
Proof.
  destruct (proj1 (proj2 (proj2 analyze_carries_fields_and_preserves_input))
              scenario_B_heap 4%nat scenario_B (frozen noon) 30 4%nat)
    as (results & h' & rows & in_order & Hrun & Hrows & Hnew & Hat_rows
        & Hperm & Hcarried & Hp & Hat).
  - exists [1; 2; 3]%nat. split; [reflexivity|].
    repeat constructor.
  - simpl. lia.
  - intros [|[|[|i]]] c Hc; [| | |done]; injection Hc as <-.
    + exists 100. split; [by vm_compute|]. split; [done|].
      split; eexists; vm_compute; reflexivity.
    + exists 200. split; [by vm_compute|]. split; [done|].
      split; eexists; vm_compute; reflexivity.
    + exists 100. split; [by vm_compute|]. split; [done|].
      split; eexists; vm_compute; reflexivity.
  - assert (analyze_channels_growth (frozen noon) scenario_B 30
            = inr scenario_B_rows) as Hconcrete by (vm_compute; reflexivity).
    rewrite Hconcrete in Hrows. injection Hrows as <-.
    exists results, h', in_order.
    exact (conj Hrun (conj Hconcrete (conj Hnew (conj Hat_rows
             (conj Hperm (conj Hcarried (conj Hp Hat))))))).
Defined.

(** * More properties *)

(** ** What [parse_date] returns *)

Lemma try_except_ValueError_inr {A} (m h : result A) x :
  try_except_ValueError m h = inr x → m = inr x ∨ h = inr x.
Proof. destruct m as [[]|]; simpl; auto. Qed.

Lemma new_inr y m d h mi s us tz t :
  Datetime.new y m d h mi s us tz = inr t →
  t = Datetime.mk_datetime y m d h mi s us tz
  ∧ (1 <= y <= 9999 ∧ 1 <= m <= 12 ∧ 1 <= d <= Datetime._days_in_month y m)
  ∧ (0 <= h <= 23 ∧ 0 <= mi <= 59 ∧ 0 <= s <= 59 ∧ 0 <= us <= 999999).
Proof.
  unfold Datetime.new, Datetime._check_date_fields,
    Datetime._check_time_fields, Datetime.MINYEAR, Datetime.MAXYEAR.
  intros H. apply bind_inr in H as ([] & Hdate & H).
  apply bind_inr in H as ([] & Htime & [= <-]).
  apply bind_inr in Hdate as ([] & Hy%ShapeFacts.require_inr & Hdate).
  apply bind_inr in Hdate
    as ([] & Hm%ShapeFacts.require_inr & Hd%ShapeFacts.require_inr).
  apply bind_inr in Htime as ([] & Hh%ShapeFacts.require_inr & Htime).
  apply bind_inr in Htime as ([] & Hmi%ShapeFacts.require_inr & Htime).
  apply bind_inr in Htime
    as ([] & Hs%ShapeFacts.require_inr & Hus%ShapeFacts.require_inr).
  repeat split; lia.
Qed.

Lemma strptime_inr data_string format t :
  Strptime.strptime data_string format = inr t →
  ∃ y m d h mi s us, Datetime.new y m d h mi s us None = inr t.
Proof.
  unfold Strptime.strptime.
  destruct (Strptime.pattern format); [|done].
  destruct (Re.match_ _ _) as [[found_dict []]|]; [|done..].
  intros H. do 8 apply bind_inr in H as (? & _ & H). eauto 10.
Qed.

Lemma fromisoformat_inr date_string t :
  IsoFormat.fromisoformat date_string = inr t →
  ∃ y m d h mi s us tz,
    Datetime.new y m d h mi s us tz = inr t
    ∧ ∀ offset, tz = Some offset → -86400000000 < offset < 86400000000.
Proof.
  unfold IsoFormat.fromisoformat.
  destruct (IsoFormat.parse_isoformat_date _) as [[[[y m] d] [|sep tstr]]|];
    [|destruct (IsoFormat.parse_isoformat_time _)
        as [[[[[h mi] sec] us] [[tzoffset tzusec]|]]|]|]; try done.
  - intros H. by exists y, m, d, 0, 0, 0, 0, None.
  - intros H. apply bind_inr in H as (tz & Htz & H).
    exists y, m, d, h, mi, sec, us, (Some tz). split; [done|].
    intros offset [= <-].
    unfold IsoFormat.tzinfo_from_isoformat_results, IsoFormat.timezone in Htz.
    destruct (tzoffset =? 0); [injection Htz as <-; lia|].
    destruct (_ && _) eqn:Hrange; [|done]. injection Htz as <-. lia.
  - intros H. by exists y, m, d, h, mi, sec, us, None.
Qed.

Lemma parse_date_inr date_str t :
  parse_date date_str = inr t →
  ∃ y m d h mi s us tz,
    Datetime.new y m d h mi s us tz = inr t
    ∧ ∀ offset, tz = Some offset → -86400000000 < offset < 86400000000.
Proof.
  unfold parse_date.
  intros [H|[H|H]%try_except_ValueError_inr]%try_except_ValueError_inr.
  - apply strptime_inr in H as (y & m & d & h & mi & s & us & H).
    by exists y, m, d, h, mi, s, us, None.
  - apply strptime_inr in H as (y & m & d & h & mi & s & us & H).
    by exists y, m, d, h, mi, s, us, None.
  - exact (fromisoformat_inr _ _ H).
Qed.

Lemma parse_date_naive_in_calendar date_str p :
  parse_date date_str = inr p → Datetime.tzinfo p = None → in_calendar p.
Proof.
  intros (y & m & d & h & mi & s & us & tz & Hnew & _)%parse_date_inr Hnaive.
  apply new_inr in Hnew as (-> & Hdate & Htime). by split.
Qed.

(** X1: every value [parse_date] returns is a date and a time of day that
    exist: the month is 1 to 12, the day is a day of that month in that
    year, the time fields are in their ranges, and the offset of an aware
    value is less than 24 hours.  A string such as 30 February is not
    parsed to some other day; it raises. *)
Theorem parse_date_in_calendar date_str t :
  parse_date date_str = inr t →
  (1 <= Datetime.year t <= 9999 ∧ 1 <= Datetime.month t <= 12
   ∧ 1 <= Datetime.day t
       <= Datetime._days_in_month (Datetime.year t) (Datetime.month t))
  ∧ (0 <= Datetime.hour t <= 23 ∧ 0 <= Datetime.minute t <= 59
     ∧ 0 <= Datetime.second t <= 59 ∧ 0 <= Datetime.microsecond t <= 999999)
  ∧ (∀ offset, Datetime.tzinfo t = Some offset →
       -86400000000 < offset < 86400000000).
Proof.
  intros (y & m & d & h & mi & s & us & tz & Hnew & Htz)%parse_date_inr.
  apply new_inr in Hnew as (-> & Hdate & Htime). by simpl.
Qed.

Section parse_date_in_calendar_examples.
Local Open Scope string_scope.

(** The last day of February of a leap year. *)
Lemma parse_date_in_calendar_leap_day :
  parse_date "2020-02-30T12:00:00Z" = inl ValueError
  ∧ parse_date "2021-02-29T12:00:00Z" = inl ValueError
  ∧ let t := Datetime.mk_datetime 2020 2 29 12 0 0 0 None in
    (1 <= Datetime.year t <= 9999 ∧ 1 <= Datetime.month t <= 12
     ∧ 1 <= Datetime.day t
         <= Datetime._days_in_month (Datetime.year t) (Datetime.month t))
    ∧ (0 <= Datetime.hour t <= 23 ∧ 0 <= Datetime.minute t <= 59
       ∧ 0 <= Datetime.second t <= 59
       ∧ 0 <= Datetime.microsecond t <= 999999)
    ∧ (∀ offset, Datetime.tzinfo t = Some offset →
         -86400000000 < offset < 86400000000).
Proof.
  split; [by vm_compute|]. split; [by vm_compute|].
  apply (parse_date_in_calendar "2020-02-29T12:00:00Z"). by vm_compute.
Defined.
End parse_date_in_calendar_examples.

(** ** More on the loop of [search_channels] *)

Lemma filter_sublist_impl {A} (P Q : A → Prop) `{!∀ x, Decision (P x)}
      `{!∀ x, Decision (Q x)} (l : list A) :
  (∀ x, x ∈ l → P x → Q x) → filter P l `sublist_of` filter Q l.
Proof.
  induction l as [|x l IH]; intros Himpl; [done|].
  rewrite !filter_cons.
  assert (filter P l `sublist_of` filter Q l) as Hl.
  { apply IH. intros y Hy. apply Himpl. by right. }
  destruct (decide (P x)) as [HP|HP].
  - destruct (decide (Q x)) as [HQ|HQ]; [by apply sublist_skip|].
    destruct HQ. apply Himpl; [left|done].
  - destruct (decide (Q x)); [by apply sublist_cons|exact Hl].
Qed.

Lemma length_omap_le {A B} (f : A → option B) (l : list A) :
  (length (omap f l) <= length l)%nat.
Proof.
  induction l as [|x l IH]; csimpl; [done|]. destruct (f x); csimpl; lia.
Qed.

(** X2: what [search_channels] returns is the list of the channels that
    the items of the response resolve to and that pass the date filter,
    in the order of the response and as often as the response names them;
    it never holds more channels than the response has items. *)
Theorem search_channels_in_order youtube query max_results min_date max_date
        channels :
  search_channels youtube query max_results min_date max_date = inr channels →
  channels
  = filter (kept min_date max_date)
      (omap (get_channel_stats youtube)
            (Api.search_list youtube query max_results))
  ∧ channels `sublist_of`
      omap (get_channel_stats youtube)
           (Api.search_list youtube query max_results)
  ∧ (length channels
     <= length (Api.search_list youtube query max_results))%nat.
Proof.
  unfold search_channels. intros [_ ->]%search_loop_inr. simpl.
  split; [done|]. split; [apply sublist_filter|].
  etrans; [apply sublist_length, sublist_filter|apply length_omap_le].
Qed.

Section search_channels_examples.
Local Open Scope string_scope.

(** The example client with the range of the year 2020: channel A, which
    the response names twice, comes out twice. *)
Lemma search_channels_in_order_example :
  search_channels example_api "q" 50 (Some (combine_min_time 2020 1 1))
                  (Some (combine_max_time 2020 12 31))
  = inr [channel_A; channel_A]
  ∧ [channel_A; channel_A]
    = filter (kept (Some (combine_min_time 2020 1 1))
                   (Some (combine_max_time 2020 12 31)))
        (omap (get_channel_stats example_api)
              (Api.search_list example_api "q" 50))
  ∧ [channel_A; channel_A] `sublist_of`
      omap (get_channel_stats example_api)
           (Api.search_list example_api "q" 50)
  ∧ (length [channel_A; channel_A]
     <= length (Api.search_list example_api "q" 50))%nat.
Proof.
  assert (search_channels example_api "q" 50
            (Some (combine_min_time 2020 1 1))
            (Some (combine_max_time 2020 12 31))
          = inr [channel_A; channel_A]) as H by (by vm_compute).
  split; [exact H|].
  exact (search_channels_in_order example_api "q" 50 _ _ _ H).
Defined.
End search_channels_examples.

(** ** The order of [datetime] values *)

Lemma _cmp_tuple_le_trans x y z :
  Datetime._cmp_tuple x y <= 0 → Datetime._cmp_tuple y z <= 0 →
  Datetime._cmp_tuple x z <= 0.
Proof.
  revert y z. induction x as [|a x IH]; intros [|b y] [|c z]; simpl;
    try lia.
  destruct (Z.ltb_spec a b), (Z.ltb_spec b a), (Z.ltb_spec b c),
    (Z.ltb_spec c b), (Z.ltb_spec a c), (Z.ltb_spec c a); try lia.
  apply IH.
Qed.

Lemma le_trans_same_zone a b c :
  same_zone a b → same_zone b c →
  Datetime.le a b = inr true → Datetime.le b c = inr true →
  Datetime.le a c = inr true.
Proof.
  intros Hab Hbc.
  assert (same_zone a c) as Hac by (unfold same_zone in *; congruence).
  pose proof (_cmp_tuple_le_trans (Datetime.fields a) (Datetime.fields b)
                (Datetime.fields c)) as Htrans.
  rewrite !le_same_zone by done.
  set (ab := Datetime._cmp_tuple _ _) in *.
  set (bc := Datetime._cmp_tuple _ _) in *.
  set (ac := Datetime._cmp_tuple _ _) in *. clearbody ab bc ac.
  intros [= H1] [= H2]. f_equal. apply Z.leb_le in H1, H2. apply Z.leb_le.
  by apply Htrans.
Qed.

Lemma not_before_widened min_date' min_date p :
  bound_in_zone min_date p → bound_in_zone min_date' p →
  lower_bound_widened min_date' min_date →
  not_before min_date p → not_before min_date' p.
Proof.
  intros Hz Hz' Hwide H bound' ->.
  destruct min_date as [bound|]; [|done]. simpl in Hwide.
  specialize (Hz bound eq_refl). specialize (Hz' bound' eq_refl).
  apply (le_trans_same_zone bound' bound p); [|done|done|by apply H].
  unfold same_zone in *. congruence.
Qed.

Lemma not_after_widened max_date' max_date p :
  bound_in_zone max_date p → bound_in_zone max_date' p →
  upper_bound_widened max_date' max_date →
  not_after max_date p → not_after max_date' p.
Proof.
  intros Hz Hz' Hwide H bound' ->.
  destruct max_date as [bound|]; [|done]. simpl in Hwide.
  specialize (Hz bound eq_refl). specialize (Hz' bound' eq_refl).
  apply (le_trans_same_zone p bound bound'); [| |by apply H|done].
  - done.
  - unfold same_zone in *. congruence.
Qed.

(** X3: a wider range of dates loses no channel.  When the bounds can be
    compared with the dates of the channels, the search with the earlier
    [min_date'] and the later [max_date'] (a bound left out being the
    widest) returns the channels of the search with [min_date] and
    [max_date], in the same order, possibly with others between them. *)
Theorem search_channels_widened youtube query max_results
        min_date max_date min_date' max_date' :
  (∀ item channel,
     item ∈ Api.search_list youtube query max_results →
     get_channel_stats youtube item = Some channel →
     ∃ p, parse_date (Channel.published_at channel) = inr p
          ∧ bound_in_zone min_date p ∧ bound_in_zone max_date p
          ∧ bound_in_zone min_date' p ∧ bound_in_zone max_date' p) →
  lower_bound_widened min_date' min_date →
  upper_bound_widened max_date' max_date →
  ∃ channels channels',
    search_channels youtube query max_results min_date max_date
    = inr channels
    ∧ search_channels youtube query max_results min_date' max_date'
      = inr channels'
    ∧ channels `sublist_of` channels'.
Proof.
  intros Hall Hlo Hhi. unfold search_channels.
  set (items := Api.search_list youtube query max_results) in *.
  do 2 eexists. split; [|split].
  - apply search_loop_inr. split; [|done].
    intros c (item & Hitem & Hstats)%list_elem_of_omap.
    destruct (Hall item c Hitem Hstats) as (p & Hp & Hmin & Hmax & _).
    destruct (date_filter_same_zone min_date max_date c p Hp Hmin Hmax)
      as (keep & Hkeep & _). eauto.
  - apply search_loop_inr. split; [|done].
    intros c (item & Hitem & Hstats)%list_elem_of_omap.
    destruct (Hall item c Hitem Hstats) as (p & Hp & _ & _ & Hmin & Hmax).
    destruct (date_filter_same_zone min_date' max_date' c p Hp Hmin Hmax)
      as (keep & Hkeep & _). eauto.
  - simpl. apply filter_sublist_impl.
    intros c (item & Hitem & Hstats)%list_elem_of_omap. unfold kept.
    destruct (Hall item c Hitem Hstats)
      as (p & Hp & Hmin & Hmax & Hmin' & Hmax').
    destruct (date_filter_same_zone min_date max_date c p Hp Hmin Hmax)
      as (keep & -> & Hiff).
    destruct (date_filter_same_zone min_date' max_date' c p Hp Hmin' Hmax')
      as (keep' & -> & Hiff').
    intros [= ->]. f_equal. apply Hiff'.
    destruct (proj1 Hiff eq_refl) as [Hnb Hna]. split.
    + exact (not_before_widened _ _ _ Hmin Hmin' Hlo Hnb).
    + exact (not_after_widened _ _ _ Hmax Hmax' Hhi Hna).
Qed.

(** ** The bounds of [main]: whole days *)

Lemma _cmp_tuple_date_time y m d t y' m' d' t' :
  Datetime._cmp_tuple (y :: m :: d :: t) (y' :: m' :: d' :: t')
  = if Datetime._cmp_tuple [y; m; d] [y'; m'; d'] =? 0
    then Datetime._cmp_tuple t t'
    else Datetime._cmp_tuple [y; m; d] [y'; m'; d'].
Proof.
  cbn [Datetime._cmp_tuple].
  destruct (y <? y'), (y' <? y), (m <? m'), (m' <? m), (d <? d'), (d' <? d);
    reflexivity.
Qed.

Lemma _cmp_tuple_min_time y m d h mi s us y1 m1 d1 :
  0 <= h → 0 <= mi → 0 <= s → 0 <= us →
  (Datetime._cmp_tuple [y; m; d; h; mi; s; us] [y1; m1; d1; 0; 0; 0; 0] <? 0)
  = negb (date_le [y1; m1; d1] [y; m; d]).
Proof.
  intros. unfold date_le.
  rewrite (_cmp_tuple_antisym [y; m; d] [y1; m1; d1]), _cmp_tuple_date_time.
  assert (0 <= Datetime._cmp_tuple [h; mi; s; us] [0; 0; 0; 0]).
  { simpl.
    repeat match goal with
           | |- context [?a <? ?b] => destruct (Z.ltb_spec a b)
           end; lia. }
  generalize dependent (Datetime._cmp_tuple [h; mi; s; us] [0; 0; 0; 0]).
  generalize (Datetime._cmp_tuple [y; m; d] [y1; m1; d1]). intros c tail ?.
  destruct (Z.eqb_spec c 0), (Z.ltb_spec tail 0), (Z.ltb_spec c 0),
    (Z.leb_spec (- c) 0); simpl; lia || done.
Qed.

Lemma _cmp_tuple_max_time y m d h mi s us y2 m2 d2 :
  h <= 23 → mi <= 59 → s <= 59 → us <= 999999 →
  (0 <? Datetime._cmp_tuple [y; m; d; h; mi; s; us]
                            [y2; m2; d2; 23; 59; 59; 999999])
  = negb (date_le [y; m; d] [y2; m2; d2]).
Proof.
  intros. unfold date_le. rewrite _cmp_tuple_date_time.
  assert (Datetime._cmp_tuple [h; mi; s; us] [23; 59; 59; 999999] <= 0).
  { simpl.
    repeat match goal with
           | |- context [?a <? ?b] => destruct (Z.ltb_spec a b)
           end; lia. }
  generalize dependent
    (Datetime._cmp_tuple [h; mi; s; us] [23; 59; 59; 999999]).
  generalize (Datetime._cmp_tuple [y; m; d] [y2; m2; d2]). intros c tail ?.
  destruct (Z.eqb_spec c 0), (Z.ltb_spec 0 tail), (Z.ltb_spec 0 c),
    (Z.leb_spec c 0); simpl; lia || done.
Qed.

Lemma before_min_time p y1 m1 d1 :
  Datetime.tzinfo p = None → 0 <= Datetime.hour p → 0 <= Datetime.minute p →
  0 <= Datetime.second p → 0 <= Datetime.microsecond p →
  before_bound (Some (combine_min_time y1 m1 d1)) p
  = inr (negb (date_le [y1; m1; d1] (date_of p))).
Proof.
  intros. unfold before_bound. rewrite lt_same_zone by done.
  unfold date_of, Datetime.fields, combine_min_time.
  cbn [Datetime.year Datetime.month Datetime.day Datetime.hour Datetime.minute
       Datetime.second Datetime.microsecond].
  by rewrite _cmp_tuple_min_time.
Qed.

Lemma after_max_time p y2 m2 d2 :
  Datetime.tzinfo p = None → Datetime.hour p <= 23 →
  Datetime.minute p <= 59 → Datetime.second p <= 59 →
  Datetime.microsecond p <= 999999 →
  after_bound (Some (combine_max_time y2 m2 d2)) p
  = inr (negb (date_le (date_of p) [y2; m2; d2])).
Proof.
  intros. unfold after_bound. rewrite gt_same_zone by done.
  unfold date_of, Datetime.fields, combine_max_time.
  cbn [Datetime.year Datetime.month Datetime.day Datetime.hour Datetime.minute
       Datetime.second Datetime.microsecond].
  by rewrite _cmp_tuple_max_time.
Qed.

(** X4: with the bounds [main] builds from the two dates of the side bar,
    midnight of the first and the last microsecond of the second, the date
    filter looks at the calendar date of a (naive) [published_at] only: a
    channel passes exactly when its date is from the first date to the
    second, both days in full, whatever the time of day. *)
Theorem date_filter_whole_days y1 m1 d1 y2 m2 d2 channel p :
  parse_date (Channel.published_at channel) = inr p →
  Datetime.tzinfo p = None →
  date_filter (Some (combine_min_time y1 m1 d1))
              (Some (combine_max_time y2 m2 d2)) channel
  = inr (date_le [y1; m1; d1] (date_of p) && date_le (date_of p) [y2; m2; d2]).
Proof.
  intros Hp Hnaive.
  destruct (parse_date_naive_in_calendar _ _ Hp Hnaive) as (_ & _ & Htime).
  unfold date_filter. rewrite Hp. cbn [bind].
  rewrite before_min_time, after_max_time by (done || lia). cbn [bind].
  by destruct (date_le [y1; m1; d1] _), (date_le _ [y2; m2; d2]).
Qed.

Section date_filter_examples.
Local Open Scope string_scope.

Lemma example_api_naive min_date max_date min_date' max_date' :
  (∀ b, min_date = Some b → Datetime.tzinfo b = None) →
  (∀ b, max_date = Some b → Datetime.tzinfo b = None) →
  (∀ b, min_date' = Some b → Datetime.tzinfo b = None) →
  (∀ b, max_date' = Some b → Datetime.tzinfo b = None) →
  ∀ item channel,
    item ∈ Api.search_list example_api "q" 50 →
    get_channel_stats example_api item = Some channel →
    ∃ p, parse_date (Channel.published_at channel) = inr p
         ∧ bound_in_zone min_date p ∧ bound_in_zone max_date p
         ∧ bound_in_zone min_date' p ∧ bound_in_zone max_date' p.
Proof.
  intros H1 H2 H3 H4 item channel Hin Hstats.
  assert (∀ p bound, Datetime.tzinfo p = None →
            (∀ b, bound = Some b → Datetime.tzinfo b = None) →
            bound_in_zone bound p) as Hzone.
  { intros p bound Hp Hb t Ht. unfold same_zone. by rewrite Hp, (Hb t Ht). }
  cbn [Api.search_list example_api] in Hin.
  repeat (apply elem_of_cons in Hin as [->|Hin]);
    [..|by apply elem_of_nil in Hin];
    vm_compute in Hstats; try discriminate Hstats;
    injection Hstats as <-;
    (eexists; split; [by vm_compute|]); by repeat split; apply Hzone.
Qed.

(** The example client: the year 2020 against the years 2019 to 2024. *)
Lemma search_channels_widened_example :
  ∃ channels channels',
    search_channels example_api "q" 50 (Some (combine_min_time 2020 1 1))
                    (Some (combine_max_time 2020 12 31))
    = inr channels
    ∧ search_channels example_api "q" 50 (Some (combine_min_time 2019 1 1))
                      (Some (combine_max_time 2024 12 31))
      = inr channels'
    ∧ channels `sublist_of` channels'.
Proof.
  apply (search_channels_widened example_api "q" 50
           (Some (combine_min_time 2020 1 1))
           (Some (combine_max_time 2020 12 31))
           (Some (combine_min_time 2019 1 1))
           (Some (combine_max_time 2024 12 31))).
  - apply example_api_naive; by intros b [= <-].
  - by vm_compute.
  - by vm_compute.
Defined.

(** Channel A, of 15 June 2020 at 08:30, in the range from 15 June 2020 to
    15 June 2020. *)
Lemma date_filter_whole_days_example :
  date_filter (Some (combine_min_time 2020 6 15))
              (Some (combine_max_time 2020 6 15)) channel_A
  = inr (date_le [2020; 6; 15]
                 (date_of (Datetime.mk_datetime 2020 6 15 8 30 0 0 None))
         && date_le (date_of (Datetime.mk_datetime 2020 6 15 8 30 0 0 None))
                    [2020; 6; 15]).
Proof.
  apply (date_filter_whole_days 2020 6 15 2020 6 15 channel_A
           (Datetime.mk_datetime 2020 6 15 8 30 0 0 None)).
  - by vm_compute.
  - reflexivity.
Defined.
End date_filter_examples.

(** ** Ordinals, timestamps and the order of naive values *)

Lemma _days_before_year_succ y :
  Datetime._days_before_year (y + 1)
  = Datetime._days_before_year y
    + (if Datetime._is_leap y then 366 else 365).
Proof.
  unfold Datetime._days_before_year, Datetime._is_leap.
  replace (y + 1 - 1) with y by lia.
  destruct (Z.eqb_spec (y mod 4) 0), (Z.eqb_spec (y mod 100) 0),
    (Z.eqb_spec (y mod 400) 0); simpl; Z.div_mod_to_equations; lia.
Qed.

Lemma _days_before_year_mono y1 y2 :
  y1 <= y2 → Datetime._days_before_year y1 <= Datetime._days_before_year y2.
Proof.
  unfold Datetime._days_before_year. intros. Z.div_mod_to_equations. lia.
Qed.

Lemma _days_before_year_bounds y :
  1 <= y <= 9999 → 0 <= Datetime._days_before_year y <= 3651694.
Proof.
  unfold Datetime._days_before_year. intros. Z.div_mod_to_equations. lia.
Qed.

Lemma _days_before_month_succ y m :
  1 <= m <= 11 →
  Datetime._days_before_month y (m + 1)
  = Datetime._days_before_month y m + Datetime._days_in_month y m.
Proof.
  intros Hm. unfold Datetime._days_before_month, Datetime._days_in_month.
  destruct (Datetime._is_leap y); ShapeFacts.enum m 1 11%nat; reflexivity.
Qed.

Lemma _days_before_month_mono y m1 m2 :
  1 <= m1 → m1 <= m2 → m2 <= 12 →
  Datetime._days_before_month y m1 <= Datetime._days_before_month y m2.
Proof.
  intros H1 H12 H2. unfold Datetime._days_before_month.
  destruct (Datetime._is_leap y); ShapeFacts.enum m1 1 12%nat;
    ShapeFacts.enum m2 1 12%nat; simpl; lia.
Qed.

Lemma _days_in_year y m :
  1 <= m <= 12 →
  0 <= Datetime._days_before_month y m
  ∧ Datetime._days_before_month y m + Datetime._days_in_month y m
    <= (if Datetime._is_leap y then 366 else 365).
Proof.
  intros Hm. unfold Datetime._days_before_month, Datetime._days_in_month.
  destruct (Datetime._is_leap y); ShapeFacts.enum m 1 12%nat; simpl; lia.
Qed.

(** The ordinal of a date grows with the date. *)
Lemma _ymd2ord_lt y m d y' m' d' :
  1 <= m <= 12 → 1 <= d <= Datetime._days_in_month y m →
  1 <= m' <= 12 → 1 <= d' <= Datetime._days_in_month y' m' →
  Datetime._cmp_tuple [y; m; d] [y'; m'; d'] < 0 →
  Datetime._ymd2ord y m d < Datetime._ymd2ord y' m' d'.
Proof.
  intros Hm Hd Hm' Hd'. unfold Datetime._ymd2ord. simpl.
  pose proof (_days_in_year y m Hm). pose proof (_days_in_year y' m' Hm').
  destruct (Z.ltb_spec y y').
  { intros _. pose proof (_days_before_year_succ y).
    pose proof (_days_before_year_mono (y + 1) y'). lia. }
  destruct (Z.ltb_spec y' y); [lia|]. assert (y' = y) as -> by lia.
  destruct (Z.ltb_spec m m').
  { intros _. pose proof (_days_before_month_succ y m).
    pose proof (_days_before_month_mono y (m + 1) m'). lia. }
  destruct (Z.ltb_spec m' m); [lia|]. assert (m' = m) as -> by lia.
  destruct (Z.ltb_spec d d'); [lia|]. destruct (Z.ltb_spec d' d); lia.
Qed.

Lemma _cmp_tuple_eq_0 x y :
  length x = length y → Datetime._cmp_tuple x y = 0 → x = y.
Proof.
  revert y. induction x as [|a x IH]; intros [|b y]; simpl; try done.
  intros [= Hlen].
  destruct (Z.ltb_spec a b); [lia|]. destruct (Z.ltb_spec b a); [lia|].
  intros Hxy. f_equal; [lia|by apply IH].
Qed.

Lemma toordinal_bounds t :
  in_calendar t → 1 <= Datetime.toordinal t <= 3652060.
Proof.
  intros (_ & (Hy & Hm & Hd) & _).
  unfold Datetime.toordinal, Datetime._ymd2ord.
  pose proof (_days_before_year_bounds _ Hy).
  pose proof (_days_in_year (Datetime.year t) _ Hm).
  destruct (Datetime._is_leap _); lia.
Qed.

(** The seconds and microseconds of the time of day. *)
Lemma _cmp_tuple_time h mi s us h' mi' s' us' :
  0 <= mi <= 59 → 0 <= s <= 59 → 0 <= us <= 999999 →
  0 <= mi' <= 59 → 0 <= s' <= 59 → 0 <= us' <= 999999 →
  let tod := (h * 3600 + mi * 60 + s) * 1000000 + us in
  let tod' := (h' * 3600 + mi' * 60 + s') * 1000000 + us' in
  (Datetime._cmp_tuple [h; mi; s; us] [h'; mi'; s'; us'] < 0 ↔ tod < tod')
  ∧ (Datetime._cmp_tuple [h; mi; s; us] [h'; mi'; s'; us'] = 0 ↔ tod = tod').
Proof.
  intros. simpl.
  repeat match goal with
         | |- context [?a <? ?b] => destruct (Z.ltb_spec a b)
         end; lia.
Qed.

(** The order of naive values is the order of their timestamps. *)
Lemma _cmp_tuple_timestamp a b :
  in_calendar a → in_calendar b →
  (Datetime._cmp_tuple (Datetime.fields a) (Datetime.fields b) < 0
   ↔ timestamp a < timestamp b)
  ∧ (Datetime._cmp_tuple (Datetime.fields a) (Datetime.fields b) = 0
     ↔ timestamp a = timestamp b).
Proof.
  intros (_ & (Hy & Hm & Hd) & (Hh & Hmi & Hs & Hus))
         (_ & (Hy' & Hm' & Hd') & (Hh' & Hmi' & Hs' & Hus')).
  unfold Datetime.fields, timestamp, Datetime.toordinal.
  rewrite _cmp_tuple_date_time.
  pose proof (_ymd2ord_lt _ _ _ _ _ _ Hm Hd Hm' Hd') as Hlt.
  pose proof (_ymd2ord_lt _ _ _ _ _ _ Hm' Hd' Hm Hd) as Hgt.
  rewrite (_cmp_tuple_antisym [Datetime.year a; _; _]) in Hgt.
  pose proof (_cmp_tuple_eq_0 [Datetime.year a; Datetime.month a; Datetime.day a]
                [Datetime.year b; Datetime.month b; Datetime.day b] eq_refl)
    as Heq.
  pose proof (_cmp_tuple_time (Datetime.hour a) _ _ _ (Datetime.hour b) _ _ _
                Hmi Hs Hus Hmi' Hs' Hus') as [Htlt Hteq].
  cbv zeta in Htlt, Hteq.
  set (c := Datetime._cmp_tuple [Datetime.year a; _; _] _) in *.
  set (tail := Datetime._cmp_tuple [Datetime.hour a; _; _; _] _) in *.
  clearbody c tail.
  set (o := Datetime._ymd2ord (Datetime.year a) _ _) in *.
  set (o' := Datetime._ymd2ord (Datetime.year b) _ _) in *.
  destruct (Z.eqb_spec c 0) as [Hc|Hc].
  - assert (o = o') as <-.
    { specialize (Heq Hc). injection Heq as Hy1 Hm1 Hd1. subst o o'.
      by rewrite Hy1, Hm1, Hd1. }
    clearbody o. split; [rewrite Htlt|rewrite Hteq]; lia.
  - clearbody o o'. split; [|lia]. split; [lia|]. intros ?.
    destruct (Z.lt_trichotomy c 0) as [?|[?|?]]; [done|done|lia].
Qed.

Lemma new_timedelta_days d s us :
  -3652060 <= d <= 3652060 → -86400 < s < 86400 → -1000000 < us < 1000000 →
  Datetime.new_timedelta d s us
  = inr (Datetime.mk_timedelta
           (((d * 86400 + s) * 1000000 + us) `div` 86400000000)
           ((s + us `div` 1000000) `mod` 86400)
           (us `mod` 1000000)).
Proof.
  intros Hd Hs Hus. unfold Datetime.new_timedelta. cbv zeta.
  assert (d + (s + us `div` 1000000) `div` 86400
          = ((d * 86400 + s) * 1000000 + us) `div` 86400000000) as ->.
  { Z.div_mod_to_equations. lia. }
  destruct (Z.ltb_spec 999999999
              (Z.abs (((d * 86400 + s) * 1000000 + us) `div` 86400000000)));
    [|done].
  exfalso. Z.div_mod_to_equations. lia.
Qed.

Lemma sub_naive now p :
  in_calendar now → in_calendar p →
  Datetime.sub now p
  = inr (Datetime.mk_timedelta
           ((timestamp now - timestamp p) `div` 86400000000)
           ((Datetime.second now + Datetime.minute now * 60
             + Datetime.hour now * 3600
             - (Datetime.second p + Datetime.minute p * 60
                + Datetime.hour p * 3600)
             + (Datetime.microsecond now - Datetime.microsecond p)
               `div` 1000000) `mod` 86400)
           ((Datetime.microsecond now - Datetime.microsecond p)
              `mod` 1000000)).
Proof.
  intros Hnow Hp.
  pose proof (toordinal_bounds _ Hnow). pose proof (toordinal_bounds _ Hp).
  destruct Hnow as (Hn1 & _ & Ht1). destruct Hp as (Hn2 & _ & Ht2).
  unfold Datetime.sub. rewrite Hn1, Hn2. cbv zeta.
  rewrite new_timedelta_days by lia. do 2 f_equal. unfold timestamp.
  f_equal. lia.
Qed.

(** X5: for naive values that the calendar holds, the comparisons of the
    date filter are the comparisons of the timestamps, the microseconds
    from the start of the calendar. *)
Theorem datetime_order_is_timestamp_order a b :
  in_calendar a → in_calendar b →
  Datetime.lt a b = inr (timestamp a <? timestamp b)
  ∧ Datetime.gt a b = inr (timestamp b <? timestamp a)
  ∧ Datetime.le a b = inr (timestamp a <=? timestamp b)
  ∧ Datetime.eq a b = inr (timestamp a =? timestamp b).
Proof.
  intros Ha Hb. pose proof (_cmp_tuple_timestamp a b Ha Hb) as [Hlt Heq].
  assert (same_zone a b) as Hz.
  { destruct Ha as [Ha _], Hb as [Hb _]. unfold same_zone. congruence. }
  rewrite lt_same_zone, gt_same_zone, le_same_zone by done.
  unfold Datetime.eq. rewrite _cmp_same_zone by done. cbn [bind ret].
  set (c := Datetime._cmp_tuple _ _) in *. clearbody c.
  repeat split; f_equal.
  - destruct (Z.ltb_spec c 0), (Z.ltb_spec (timestamp a) (timestamp b)); lia.
  - destruct (Z.ltb_spec 0 c), (Z.ltb_spec (timestamp b) (timestamp a)); lia.
  - destruct (Z.leb_spec c 0), (Z.leb_spec (timestamp a) (timestamp b)); lia.
  - destruct (Z.eqb_spec c 0), (Z.eqb_spec (timestamp a) (timestamp b)); lia.
Qed.

Lemma days_since_creation_naive now channel p :
  in_calendar now →
  parse_date (Channel.published_at channel) = inr p →
  Datetime.tzinfo p = None →
  days_since_creation now channel
  = inr ((timestamp now - timestamp p) `div` 86400000000).
Proof.
  intros Hnow Hp Hnaive.
  pose proof (parse_date_naive_in_calendar _ _ Hp Hnaive) as Hcal.
  unfold days_since_creation. rewrite Hp. simpl.
  by rewrite (sub_naive now p Hnow Hcal).
Qed.

(** The clock is naive: the subtraction returns for naive values only. *)
Lemma days_since_creation_inr now channel d :
  in_calendar now →
  days_since_creation now channel = inr d →
  ∃ p, parse_date (Channel.published_at channel) = inr p
       ∧ Datetime.tzinfo p = None
       ∧ d = (timestamp now - timestamp p) `div` 86400000000.
Proof.
  intros Hnow Hd. pose proof Hd as Hd'. unfold days_since_creation in Hd'.
  apply bind_inr in Hd' as (p & Hp & Hsub).
  apply bind_inr in Hsub as (delta & Hsub & _).
  assert (Datetime.tzinfo p = None) as Hnaive.
  { destruct Hnow as (Hn & _). unfold Datetime.sub in Hsub.
    rewrite Hn in Hsub. by destruct (Datetime.tzinfo p). }
  exists p. split; [done|]. split; [done|].
  rewrite (days_since_creation_naive now channel p Hnow Hp Hnaive) in Hd.
  by injection Hd.
Qed.

(** X6: [days_since_creation] is the number of whole days from
    [published_at] to the clock value, rounded down: the quotient of the
    difference of the two timestamps by the microseconds of a day.  It is
    0 during the first 24 hours, and it is negative exactly when
    [published_at > now] in the sense of the date filter. *)
Theorem days_since_creation_whole_days now channel p :
  in_calendar now →
  parse_date (Channel.published_at channel) = inr p →
  Datetime.tzinfo p = None →
  days_since_creation now channel
  = inr ((timestamp now - timestamp p) `div` 86400000000)
  ∧ (0 <= timestamp now - timestamp p < 86400000000 →
     days_since_creation now channel = inr 0)
  ∧ Datetime.gt p now
    = inr ((timestamp now - timestamp p) `div` 86400000000 <? 0).
Proof.
  intros Hnow Hp Hnaive.
  pose proof (parse_date_naive_in_calendar _ _ Hp Hnaive) as Hcal.
  pose proof (days_since_creation_naive now channel p Hnow Hp Hnaive)
    as Hdays.
  split; [done|]. split.
  - intros Hday. rewrite Hdays. f_equal. by apply Z.div_small.
  - pose proof (_cmp_tuple_timestamp now p Hnow Hcal) as [Hlt _].
    assert (same_zone p now) as Hz.
    { destruct Hnow as [Hnow _]. unfold same_zone. congruence. }
    rewrite gt_same_zone, (_cmp_tuple_antisym (Datetime.fields now)) by done.
    set (c := Datetime._cmp_tuple _ _) in *. clearbody c.
    f_equal.
    destruct (Z.ltb_spec 0 (- c)),
      (Z.ltb_spec ((timestamp now - timestamp p) `div` 86400000000) 0);
      try done; exfalso; Z.div_mod_to_equations; lia.
Qed.

Section timestamp_examples.

Lemma noon_in_calendar : in_calendar noon.
Proof. by vm_compute. Qed.

Lemma combine_min_time_2020_in_calendar :
  in_calendar (combine_min_time 2020 1 1).
Proof. by vm_compute. Qed.

(** Midnight of 1 January 2020 against [noon]. *)
Lemma datetime_order_is_timestamp_order_example :
  Datetime.lt (combine_min_time 2020 1 1) noon
  = inr (timestamp (combine_min_time 2020 1 1) <? timestamp noon)
  ∧ Datetime.gt (combine_min_time 2020 1 1) noon
    = inr (timestamp noon <? timestamp (combine_min_time 2020 1 1))
  ∧ Datetime.le (combine_min_time 2020 1 1) noon
    = inr (timestamp (combine_min_time 2020 1 1) <=? timestamp noon)
  ∧ Datetime.eq (combine_min_time 2020 1 1) noon
    = inr (timestamp (combine_min_time 2020 1 1) =? timestamp noon).
Proof.
  apply (datetime_order_is_timestamp_order (combine_min_time 2020 1 1) noon).
  - exact combine_min_time_2020_in_calendar.
  - exact noon_in_calendar.
Defined.

(** Scenario A at [noon]: 100 days. *)
Lemma days_since_creation_whole_days_example :
  days_since_creation noon scenario_A
  = inr ((timestamp noon
          - timestamp (Datetime.mk_datetime 2024 2 22 12 0 0 0 None))
         `div` 86400000000)
  ∧ (0 <= timestamp noon
          - timestamp (Datetime.mk_datetime 2024 2 22 12 0 0 0 None)
     < 86400000000 →
     days_since_creation noon scenario_A = inr 0)
  ∧ Datetime.gt (Datetime.mk_datetime 2024 2 22 12 0 0 0 None) noon
    = inr ((timestamp noon
            - timestamp (Datetime.mk_datetime 2024 2 22 12 0 0 0 None))
           `div` 86400000000 <? 0).
Proof.
  apply (days_since_creation_whole_days noon scenario_A
           (Datetime.mk_datetime 2024 2 22 12 0 0 0 None)).
  - exact noon_in_calendar.
  - by vm_compute.
  - reflexivity.
Defined.
End timestamp_examples.

(** ** When [analyze_channels_growth] returns *)

Lemma imap_inr {A B} (f : nat → A → result B) (l : list A) :
  (∀ i x, l !! i = Some x → ∃ y, f i x = inr y) →
  ∃ ys, imap f l = inr <$> ys.
Proof.
  revert f. induction l as [|x l IH]; intros f Hf; [by exists []|].
  destruct (Hf 0%nat x eq_refl) as [y Hy].
  destruct (IH (f ∘ S)) as [ys Hys].
  { intros i x' Hi. by apply (Hf (S i)). }
  exists (y :: ys). simpl. by rewrite Hy, Hys.
Qed.

(** X7: with a clock of naive values of the calendar,
    [analyze_channels_growth] returns exactly when every channel has a
    [published_at] that parses to a naive value and the quotients of its
    two counts by its whole days of age are floats; the quotient by 0 days
    is none.  In every other case it raises. *)
Theorem analyze_channels_growth_returns_iff clock channels days :
  (∀ k, in_calendar (clock k)) →
  (∃ rows, analyze_channels_growth clock channels days = inr rows) ↔
  ∀ i channel, channels !! i = Some channel →
    ∃ p, parse_date (Channel.published_at channel) = inr p
         ∧ Datetime.tzinfo p = None
         ∧ quotient_is_float
             (Channel.subscriber_count channel)
             ((timestamp (clock i) - timestamp p) `div` 86400000000)
         ∧ quotient_is_float
             (Channel.view_count channel)
             ((timestamp (clock i) - timestamp p) `div` 86400000000).
Proof.
  intros Hclock. split.
  - intros (rows & (results & Hrows & _)%analyze_channels_growth_inr) i c Hi.
    destruct (rows_in_order_lookup _ _ _ _ _ Hrows Hi) as (row & _ & Hrow).
    apply growth_row_inr in Hrow as (d & ds & dv & Hd & Hds & Hdv & _).
    apply days_since_creation_inr in Hd as (p & Hp & Hnaive & ->); [|done].
    exists p. split; [done|]. split; [done|].
    split; [by exists ds|by exists dv].
  - intros Hall.
    destruct (imap_inr (λ i channel, growth_row (clock i) channel) channels)
      as [results Hresults].
    { intros i c Hi.
      destruct (Hall i c Hi) as (p & Hp & Hnaive & [ds Hds] & [dv Hdv]).
      eexists. apply growth_row_inr.
      exists ((timestamp (clock i) - timestamp p) `div` 86400000000), ds, dv.
      split; [by apply days_since_creation_naive|]. by split. }
    eexists. apply analyze_channels_growth_inr. by exists results.
Qed.

(** X8: a channel created earlier on the calendar day of the clock gets
    through the date filter whenever the range ends on that day, which is
    the range the side bar proposes, and its [days_since_creation] is 0:
    the analysis of a list that starts with it raises
    [ZeroDivisionError]. *)
Theorem created_today_passes_filter_and_stops_analysis
        clock channel channels days p y1 m1 d1 :
  in_calendar (clock 0%nat) →
  parse_date (Channel.published_at channel) = inr p →
  Datetime.tzinfo p = None →
  date_of p = date_of (clock 0%nat) →
  timestamp p <= timestamp (clock 0%nat) →
  date_le [y1; m1; d1] (date_of p) = true →
  date_filter (Some (combine_min_time y1 m1 d1))
              (Some (combine_max_time (Datetime.year (clock 0%nat))
                                      (Datetime.month (clock 0%nat))
                                      (Datetime.day (clock 0%nat))))
              channel = inr true
  ∧ days_since_creation (clock 0%nat) channel = inr 0
  ∧ analyze_channels_growth clock (channel :: channels) days
    = inl ZeroDivisionError.
Proof.
  intros Hnow Hp Hnaive Hdate Hle Hmin.
  pose proof (parse_date_naive_in_calendar _ _ Hp Hnaive) as Hcal.
  assert (days_since_creation (clock 0%nat) channel = inr 0) as Hdays.
  { rewrite (days_since_creation_naive _ _ p Hnow Hp Hnaive). f_equal.
    apply Z.div_small. split; [lia|].
    unfold timestamp, Datetime.toordinal in *. unfold date_of in Hdate.
    injection Hdate as -> -> ->.
    destruct Hnow as (_ & _ & ?), Hcal as (_ & _ & ?). lia. }
  split; [|split; [done|]].
  - unfold date_filter. rewrite Hp. cbn [bind].
    destruct Hcal as (_ & _ & ?).
    rewrite before_min_time, after_max_time by (done || lia).
    rewrite Hmin, Hdate. cbn [bind negb]. unfold date_le, date_of.
    generalize (Datetime.year (clock 0%nat)), (Datetime.month (clock 0%nat)),
      (Datetime.day (clock 0%nat)). intros y m d. simpl.
    by rewrite !Z.ltb_irrefl.
  - unfold analyze_channels_growth. simpl. unfold growth_row.
    by rewrite Hdays.
Qed.

Section analysis_examples.

(** Scenario B at [noon]. *)
Lemma analyze_channels_growth_returns_iff_example :
  (∃ rows, analyze_channels_growth (frozen noon) scenario_B 30 = inr rows) ↔
  ∀ i channel, scenario_B !! i = Some channel →
    ∃ p, parse_date (Channel.published_at channel) = inr p
         ∧ Datetime.tzinfo p = None
         ∧ quotient_is_float
             (Channel.subscriber_count channel)
             ((timestamp (frozen noon i) - timestamp p) `div` 86400000000)
         ∧ quotient_is_float
             (Channel.view_count channel)
             ((timestamp (frozen noon i) - timestamp p) `div` 86400000000).
Proof.
  apply (analyze_channels_growth_returns_iff (frozen noon) scenario_B 30).
  intros k. exact noon_in_calendar.
Defined.

(** The channel published at midnight of the day of [noon], with a range
    from 1 June 2019 to the day of [noon]. *)
Lemma created_today_passes_filter_and_stops_analysis_example :
  date_filter (Some (combine_min_time 2019 6 1))
              (Some (combine_max_time (Datetime.year (frozen noon 0%nat))
                                      (Datetime.month (frozen noon 0%nat))
                                      (Datetime.day (frozen noon 0%nat))))
              published_today = inr true
  ∧ days_since_creation (frozen noon 0%nat) published_today = inr 0
  ∧ analyze_channels_growth (frozen noon) (published_today :: scenario_B) 30
    = inl ZeroDivisionError.
Proof.
  apply (created_today_passes_filter_and_stops_analysis
           (frozen noon) published_today scenario_B 30
           (Datetime.mk_datetime 2024 6 1 0 0 0 0 None) 2019 6 1).
  - exact noon_in_calendar.
  - by vm_compute.
  - reflexivity.
  - reflexivity.
  - by vm_compute.
  - by vm_compute.
Defined.
End analysis_examples.

(** ** From the search to the analysis *)

Lemma analyze_loop_inl_first clock k channels results e :
  analyze_loop clock k channels results = inl e →
  ∃ i channel, channels !! i = Some channel
               ∧ growth_row (clock (k + i)%nat) channel = inl e.
Proof.
  revert k results. induction channels as [|c channels IH]; intros k results;
    [done|].
  simpl. destruct (growth_row (clock k) c) as [e'|row] eqn:Hrow; simpl.
  - intros [= <-]. exists 0%nat, c. by rewrite Nat.add_0_r.
  - intros (i & c' & Hi & Hg)%IH. exists (S i), c'.
    by rewrite Nat.add_succ_r.
Qed.

Lemma bind_inl_inv {A B} (m : result A) (k : A → result B) e :
  bind m k = inl e → m = inl e ∨ ∃ x, m = inr x ∧ k x = inl e.
Proof. destruct m as [e'|x]; simpl; [intros [= <-]; by left|eauto]. Qed.

Lemma growth_row_inl now channel e :
  growth_row now channel = inl e →
  days_since_creation now channel = inl e
  ∨ ∃ d, days_since_creation now channel = inr d
         ∧ (PyFloat.int_true_divide (Channel.subscriber_count channel) d
            = inl e
            ∨ PyFloat.int_true_divide (Channel.view_count channel) d
              = inl e).
Proof.
  unfold growth_row.
  intros [Hd|(d & Hd & H)]%bind_inl_inv; [by left|]. right. exists d.
  split; [done|].
  apply bind_inl_inv in H as [Hs|(ds & Hs & H)]; [by left|].
  apply bind_inl_inv in H as [Hv|(dv & Hv & H)]; [by right|].
  apply bind_inl_inv in H as [Hq|(q & Hq & H)]; [by left|done].
Qed.

Lemma int_true_divide_inl a b e :
  PyFloat.int_true_divide a b = inl e →
  e = ZeroDivisionError ∨ e = OverflowError.
Proof.
  unfold PyFloat.int_true_divide.
  destruct (b =? 0); [intros [= <-]; by left|].
  destruct (a =? 0); [done|].
  destruct (SFdiv _ _ _ _); try done. intros [= <-]. by right.
Qed.

Lemma kept_lower_bound_naive bound max_date c :
  Datetime.tzinfo bound = None →
  kept (Some bound) max_date c →
  ∃ p, parse_date (Channel.published_at c) = inr p
       ∧ Datetime.tzinfo p = None.
Proof.
  intros Hb Hkept. unfold kept, date_filter in Hkept.
  apply bind_inr in Hkept as (p & Hp & Hkept).
  apply bind_inr in Hkept as (early & Hearly & _).
  exists p. split; [done|].
  unfold before_bound, Datetime.lt, Datetime._cmp in Hearly.
  rewrite Hb in Hearly. by destruct (Datetime.tzinfo p).
Qed.

(** X17: what the search hands over, the analysis can parse.  When
    [search_channels] has returned with a naive lower bound, as [main]
    always supplies one, and the clock gives naive values of the calendar,
    the analysis of the channels returned raises nothing but the
    [ZeroDivisionError] of a channel less than a day old or dated after
    the clock, or the [OverflowError] of a count beyond the floats: no
    date fails to parse and none is aware. *)
Theorem analysis_of_search_results youtube query max_results bound max_date
        channels clock days :
  Datetime.tzinfo bound = None →
  (∀ k, in_calendar (clock k)) →
  search_channels youtube query max_results (Some bound) max_date
  = inr channels →
  (∀ channel, channel ∈ channels →
     ∃ p, parse_date (Channel.published_at channel) = inr p
          ∧ Datetime.tzinfo p = None)
  ∧ (∀ e, analyze_channels_growth clock channels days = inl e →
          e = ZeroDivisionError ∨ e = OverflowError).
Proof.
  intros Hbound Hclock Hsearch.
  assert (∀ channel, channel ∈ channels →
            ∃ p, parse_date (Channel.published_at channel) = inr p
                 ∧ Datetime.tzinfo p = None) as Hnaive.
  { intros c Hc. unfold search_channels in Hsearch.
    apply search_loop_inr in Hsearch as [_ ->]. simpl in Hc.
    apply list_elem_of_filter in Hc as [Hkept _].
    by eapply kept_lower_bound_naive. }
  split; [done|]. intros e He. unfold analyze_channels_growth in He.
  apply bind_inl_inv in He as [Hloop|(rows & _ & He)]; [|done].
  apply analyze_loop_inl_first in Hloop as (i & c & Hi & Hg).
  destruct (Hnaive c) as (p & Hp & Htz); [by eapply list_elem_of_lookup_2|].
  apply growth_row_inl in Hg as [Hd|(d & _ & [Hq|Hq])].
  - by rewrite (days_since_creation_naive _ _ p (Hclock _) Hp Htz) in Hd.
  - by eapply int_true_divide_inl.
  - by eapply int_true_divide_inl.
Qed.

Section analysis_of_search_results_examples.
Local Open Scope string_scope.

(** The example client, the year 2020 and the clock at [noon]. *)
Lemma analysis_of_search_results_example :
  (∀ channel, channel ∈ [channel_A; channel_A] →
     ∃ p, parse_date (Channel.published_at channel) = inr p
          ∧ Datetime.tzinfo p = None)
  ∧ (∀ e, analyze_channels_growth (frozen noon) [channel_A; channel_A] 30
          = inl e →
          e = ZeroDivisionError ∨ e = OverflowError).
Proof.
  apply (analysis_of_search_results example_api "q" 50
           (combine_min_time 2020 1 1) (Some (combine_max_time 2020 12 31))
           [channel_A; channel_A] (frozen noon) 30).
  - reflexivity.
  - intros k. exact noon_in_calendar.
  - by vm_compute.
Defined.
End analysis_of_search_results_examples.

(** ** The sign of the metrics *)

Lemma binary_round_aux_signed sx mx ex lx :
  0 <= mx → signed (binary_round_aux PyFloat.prec PyFloat.emax sx mx ex lx) sx.
Proof.
  intros H.
  pose proof (PyFloatFacts.binary_round_aux_not_nan sx mx ex lx H) as Hnan.
  unfold binary_round_aux in *.
  destruct (shr_fexp _ _ mx ex lx) as [mrs' e'].
  destruct (shr_fexp _ _ _ e' loc_Exact) as [mrs'' e''].
  destruct (shr_m mrs'') as [|m|m]; [done| |done].
  by destruct (e'' <=? _).
Qed.

Lemma int_true_divide_signed a b q :
  PyFloat.int_true_divide a b = inr q →
  signed q (xorb (a <? 0) (b <? 0)).
Proof.
  unfold PyFloat.int_true_divide.
  destruct (b =? 0) eqn:Hb; [done|].
  destruct (a =? 0) eqn:Ha.
  { intros [= <-]. apply Z.eqb_eq in Ha as ->. by simpl. }
  destruct a as [|a|a], b as [|b|b]; try done; simpl.
  all: match goal with
       | |- context [SFdiv_core_binary _ _ ?m1 ?e1 ?m2 ?e2] =>
           pose proof (PyFloatFacts.SFdiv_core_binary_nonneg m1 e1 m2 e2
                         ltac:(lia) ltac:(lia)) as Hq;
           destruct (SFdiv_core_binary PyFloat.prec PyFloat.emax m1 e1 m2 e2)
             as [[mz ez] lz]; simpl in Hq
       end.
  all: match goal with
       | |- context [binary_round_aux _ _ ?s ?m ?e ?l] =>
           pose proof (binary_round_aux_signed s m e l Hq) as Hs;
           destruct (binary_round_aux PyFloat.prec PyFloat.emax s m e l)
       end; try done; by intros [= <-].
Qed.

Lemma mul_100_signed q s :
  PyFloat.is_finite q = true → signed q s →
  signed (PyFloat.mul q (PyFloat.of_int 100)) s.
Proof.
  change (PyFloat.of_int 100) with (S754_finite false 7036874417766400 (-46)).
  destruct q as [s'|s'| |s' m e]; try done; simpl; intros _ ->.
  - by destruct s.
  - replace s with (xorb s false) at 2 by (by destruct s).
    apply binary_round_aux_signed. lia.
Qed.

Lemma signed_ge_0 x : signed x false → PyFloat.ge x (PyFloat.of_int 0) = true.
Proof.
  change (PyFloat.of_int 0) with (S754_zero false).
  by destruct x as [[]|[]| |[]].
Qed.

Lemma signed_le_0 x : signed x true → PyFloat.le x (PyFloat.of_int 0) = true.
Proof.
  change (PyFloat.of_int 0) with (S754_zero false).
  by destruct x as [[]|[]| |[]].
Qed.

Lemma analyze_row_of_channel clock channels days rows row :
  analyze_channels_growth clock channels days = inr rows → row ∈ rows →
  ∃ i channel, channels !! i = Some channel
               ∧ growth_row (clock i) channel = inr row.
Proof.
  intros (results & Hrows & ->)%analyze_channels_growth_inr Hrow.
  rewrite PyListFacts.sort_Permutation in Hrow.
  apply list_elem_of_lookup in Hrow as [i Hi].
  assert (rows_in_order clock channels !! i = Some (inr row)) as Hl
    by (by rewrite Hrows, list_lookup_fmap, Hi).
  unfold rows_in_order in Hl. rewrite list_lookup_imap in Hl.
  destruct (channels !! i) as [c|] eqn:Hc; [|done]. injection Hl as Hl.
  by exists i, c.
Qed.

(** X9: in the rows [analyze_channels_growth] returns, no metric is a NaN,
    and the sign of a metric is the sign of its count and of the days: a
    row of positive age with a count that is not negative has
    [daily_subs], [daily_views] and [growth_rate] [>= 0.0]; a row with a
    negative number of days, a channel dated after the clock value, has
    them [<= 0.0]. *)
Theorem analyze_metrics_sign clock channels days rows row :
  analyze_channels_growth clock channels days = inr rows → row ∈ rows →
  (PyFloat.is_nan (Growth.daily_subs row) = false
   ∧ PyFloat.is_nan (Growth.daily_views row) = false
   ∧ PyFloat.is_nan (Growth.growth_rate row) = false)
  ∧ (0 < Growth.days_since_creation row →
     (0 <= Growth.current_subs row →
      PyFloat.ge (Growth.daily_subs row) (PyFloat.of_int 0) = true
      ∧ PyFloat.ge (Growth.growth_rate row) (PyFloat.of_int 0) = true)
     ∧ (0 <= Growth.current_views row →
        PyFloat.ge (Growth.daily_views row) (PyFloat.of_int 0) = true))
  ∧ (Growth.days_since_creation row < 0 →
     (0 <= Growth.current_subs row →
      PyFloat.le (Growth.daily_subs row) (PyFloat.of_int 0) = true
      ∧ PyFloat.le (Growth.growth_rate row) (PyFloat.of_int 0) = true)
     ∧ (0 <= Growth.current_views row →
        PyFloat.le (Growth.daily_views row) (PyFloat.of_int 0) = true)).
Proof.
  intros Hrows Hrow.
  destruct (analyze_row_of_channel _ _ _ _ _ Hrows Hrow)
    as (i & c & _ & Hg).
  apply growth_row_inr in Hg as (d & ds & dv & _ & Hds & Hdv & ->). simpl.
  pose proof (PyFloatFacts.int_true_divide_finite _ _ _ Hds) as Hfs.
  pose proof (PyFloatFacts.int_true_divide_finite _ _ _ Hdv) as Hfv.
  pose proof (int_true_divide_signed _ _ _ Hds) as Hss.
  pose proof (int_true_divide_signed _ _ _ Hdv) as Hsv.
  split; [|split].
  - repeat split.
    + by destruct ds.
    + by destruct dv.
    + by apply PyFloatFacts.mul_100_not_nan.
  - intros Hd.
    assert ((d <? 0) = false) as Hneg by (apply Z.ltb_ge; lia).
    rewrite Hneg in Hss, Hsv. split.
    + intros Hsubs.
      assert ((Channel.subscriber_count c <? 0) = false) as E
          by (apply Z.ltb_ge; lia).
      rewrite E in Hss. split; apply signed_ge_0; [done|].
      by apply mul_100_signed.
    + intros Hviews.
      assert ((Channel.view_count c <? 0) = false) as E
          by (apply Z.ltb_ge; lia).
      rewrite E in Hsv. by apply signed_ge_0.
  - intros Hd.
    assert ((d <? 0) = true) as Hneg by (apply Z.ltb_lt; lia).
    rewrite Hneg in Hss, Hsv. split.
    + intros Hsubs.
      assert ((Channel.subscriber_count c <? 0) = false) as E
          by (apply Z.ltb_ge; lia).
      rewrite E in Hss. split; apply signed_le_0; [done|].
      by apply mul_100_signed.
    + intros Hviews.
      assert ((Channel.view_count c <? 0) = false) as E
          by (apply Z.ltb_ge; lia).
      rewrite E in Hsv. by apply signed_le_0.
Qed.

Section ranking_examples.

Lemma scenario_B_analysed :
  analyze_channels_growth (frozen noon) scenario_B 30 = inr scenario_B_rows.
Proof. by vm_compute. Qed.

(** The first row of scenario B. *)
Lemma analyze_metrics_sign_example :
  ∃ row,
    scenario_B_rows !! 0%nat = Some row
    ∧ (PyFloat.is_nan (Growth.daily_subs row) = false
       ∧ PyFloat.is_nan (Growth.daily_views row) = false
       ∧ PyFloat.is_nan (Growth.growth_rate row) = false)
    ∧ (0 < Growth.days_since_creation row →
       (0 <= Growth.current_subs row →
        PyFloat.ge (Growth.daily_subs row) (PyFloat.of_int 0) = true
        ∧ PyFloat.ge (Growth.growth_rate row) (PyFloat.of_int 0) = true)
       ∧ (0 <= Growth.current_views row →
          PyFloat.ge (Growth.daily_views row) (PyFloat.of_int 0) = true))
    ∧ (Growth.days_since_creation row < 0 →
       (0 <= Growth.current_subs row →
        PyFloat.le (Growth.daily_subs row) (PyFloat.of_int 0) = true
        ∧ PyFloat.le (Growth.growth_rate row) (PyFloat.of_int 0) = true)
       ∧ (0 <= Growth.current_views row →
          PyFloat.le (Growth.daily_views row) (PyFloat.of_int 0) = true)).
Proof.
  eexists. split; [reflexivity|].
  apply (analyze_metrics_sign (frozen noon) scenario_B 30 scenario_B_rows).
  - exact scenario_B_analysed.
  - left.
Defined.

(** ** The ranking *)

Lemma Sorted_pairs {A} (R : relation A) (good : A → Prop) (l : list A) :
  (∀ x y z, good x → good y → good z → R x y → R y z → R x z) →
  Forall good l → Sorted R l →
  ∀ i j x y, (i < j)%nat → l !! i = Some x → l !! j = Some y → R x y.
Proof.
  intros Htrans. induction l as [|z l IH]; intros Hgood Hsorted i j x y Hij Hx Hy.
  { done. }
  pose proof (PyListFacts.Sorted_head_least R good Htrans z l Hgood Hsorted)
    as Hleast.
  destruct j as [|j]; [lia|]. simpl in Hy. destruct i as [|i]; simpl in Hx.
  - injection Hx as <-. eapply Forall_forall in Hleast; [done|].
    by eapply list_elem_of_lookup_2.
  - apply (IH (Forall_inv_tail Hgood) (proj1 (Sorted_inv Hsorted)) i j);
      [lia|done..].
Qed.

Lemma analyze_rates_not_nan clock channels days rows :
  analyze_channels_growth clock channels days = inr rows →
  Forall (λ r, PyFloat.is_nan (Growth.growth_rate r) = false) rows.
Proof.
  intros Hrows. apply Forall_forall. intros row Hrow.
  destruct (analyze_row_of_channel _ _ _ _ _ Hrows Hrow) as (i & c & _ & Hg).
  by eapply growth_rate_not_nan.
Qed.

Lemma analyze_pairs clock channels days rows i j r1 r2 :
  analyze_channels_growth clock channels days = inr rows →
  (i <= j)%nat → rows !! i = Some r1 → rows !! j = Some r2 →
  PyFloat.ge (Growth.growth_rate r1) (Growth.growth_rate r2) = true.
Proof.
  intros Hrows Hij H1 H2.
  pose proof (analyze_rates_not_nan _ _ _ _ Hrows) as Hnan.
  assert (PyFloat.is_nan (Growth.growth_rate r1) = false) as Hn1.
  { eapply Forall_forall in Hnan; [done|]. by eapply list_elem_of_lookup_2. }
  assert (PyFloat.is_nan (Growth.growth_rate r2) = false) as Hn2.
  { eapply Forall_forall in Hnan; [done|]. by eapply list_elem_of_lookup_2. }
  apply PyFloatFacts.not_lt_ge; [done..|].
  destruct (decide (i = j)) as [->|Hne].
  { rewrite H1 in H2. injection H2 as <-. apply PyFloatFacts.lt_irrefl. }
  apply analyze_channels_growth_inr in Hrows as (results & _ & ->).
  pose proof (PyListFacts.Sorted_sort_reverse Growth.growth_rate PyFloat.lt
                PyFloatFacts.lt_asym results) as Hsorted.
  apply (Sorted_pairs
           (λ x y, PyFloat.lt (Growth.growth_rate x) (Growth.growth_rate y)
                   = false)
           (λ r, PyFloat.is_nan (Growth.growth_rate r) = false)
           _ (λ x y z Hx Hy Hz, PyFloatFacts.not_lt_trans _ _ _ Hx Hy Hz)
           Hnan Hsorted i j); [lia|done..].
Qed.

(** X10: the rows [analyze_channels_growth] returns are ranked: a row is
    [>=] in [growth_rate] to every row after it, not only to the next one.
    So [results[:5]], the channels [main] shows as growing fast, are the
    first rows of the ranking, five of them or all when there are fewer,
    and each of them has a [growth_rate] [>=] that of every row left out. *)
Theorem top_growth_is_the_top clock channels days rows :
  analyze_channels_growth clock channels days = inr rows →
  (∀ i j r1 r2,
     (i <= j)%nat → rows !! i = Some r1 → rows !! j = Some r2 →
     PyFloat.ge (Growth.growth_rate r1) (Growth.growth_rate r2) = true)
  ∧ length (top_growth rows) = (length rows `min` 5)%nat
  ∧ rows = top_growth rows ++ drop 5 rows
  ∧ (∀ shown left_out,
       shown ∈ top_growth rows → left_out ∈ drop 5 rows →
       PyFloat.ge (Growth.growth_rate shown) (Growth.growth_rate left_out)
       = true).
Proof.
  intros Hrows. unfold top_growth.
  split; [by intros; eapply analyze_pairs|].
  split; [by rewrite length_take; lia|].
  split; [by rewrite take_drop|].
  intros r1 r2 [i Hi]%list_elem_of_lookup [j Hj]%list_elem_of_lookup.
  rewrite lookup_take_Some in Hi. destruct Hi as [Hi Hlt].
  rewrite lookup_drop in Hj.
  apply (analyze_pairs clock channels days rows i (5 + j) r1 r2); [done|lia|done..].
Qed.

(** Scenario B: three rows, all of them shown. *)
Lemma top_growth_is_the_top_example :
  (∀ i j r1 r2,
     (i <= j)%nat → scenario_B_rows !! i = Some r1 →
     scenario_B_rows !! j = Some r2 →
     PyFloat.ge (Growth.growth_rate r1) (Growth.growth_rate r2) = true)
  ∧ length (top_growth scenario_B_rows) = (length scenario_B_rows `min` 5)%nat
  ∧ scenario_B_rows = top_growth scenario_B_rows ++ drop 5 scenario_B_rows
  ∧ (∀ shown left_out,
       shown ∈ top_growth scenario_B_rows →
       left_out ∈ drop 5 scenario_B_rows →
       PyFloat.ge (Growth.growth_rate shown) (Growth.growth_rate left_out)
       = true).
Proof.
  apply (top_growth_is_the_top (frozen noon) scenario_B 30 scenario_B_rows).
  exact scenario_B_analysed.
Defined.

(** ** The order of the input *)

Lemma fmap_inr_Forall2 {A B} (f : A → result B) (l : list A) (ys : list B) :
  f <$> l = inr <$> ys ↔ Forall2 (λ x y, f x = inr y) l ys.
Proof.
  revert ys. induction l as [|x l IH]; intros [|y ys]; csimpl; split;
    try done; try by inversion 1.
  - intros [= Hx Hl]. constructor; [done|by apply IH].
  - inversion 1 as [|???? Hx Hl]; subst. f_equal; [done|by apply IH].
Qed.

Lemma fmap_inr_Permutation {A B} (f : A → result B) (l l' : list A)
      (ys : list B) :
  l ≡ₚ l' → f <$> l = inr <$> ys →
  ∃ ys', f <$> l' = inr <$> ys' ∧ ys ≡ₚ ys'.
Proof.
  intros Hperm Hl%fmap_inr_Forall2.
  destruct (Permutation_Forall2 Hperm Hl) as (ys' & Hys & Hl').
  exists ys'. split; [by apply fmap_inr_Forall2|done].
Qed.

Lemma filter_Permutation_at_most_one {A} (P : A → Prop)
      `{!∀ x, Decision (P x)} (l1 l2 : list A) :
  l1 ≡ₚ l2 → (length (filter P l1) <= 1)%nat → filter P l1 = filter P l2.
Proof.
  intros Hperm Hlen.
  assert (filter P l1 ≡ₚ filter P l2) as Hf by (by rewrite Hperm).
  destruct (filter P l1) as [|x [|??]]; simpl in Hlen; [| |lia].
  - by apply Permutation_nil_l in Hf.
  - by apply Permutation_singleton_l in Hf.
Qed.

(** X11: the ranking does not depend on the order in which the channels
    come in, up to the order among ties.  With the clock standing still,
    a rearranged input is analysed exactly when the input is, the rows are
    the same rows, and when no two rows have equal growth rates they come
    out in the same order. *)
Theorem analyze_rearranged_input now channels channels' days rows :
  channels ≡ₚ channels' →
  analyze_channels_growth (frozen now) channels days = inr rows →
  ∃ rows',
    analyze_channels_growth (frozen now) channels' days = inr rows'
    ∧ rows ≡ₚ rows'
    ∧ (no_ties rows → rows' = rows).
Proof.
  intros Hperm Hrows.
  pose proof (analyze_rates_not_nan _ _ _ _ Hrows) as Hnan.
  apply analyze_channels_growth_inr in Hrows as (results & Hres & ->).
  unfold rows_in_order, frozen in Hres.
  change (λ (_ : nat) channel, growth_row now channel)
    with (@const _ nat (growth_row now)) in Hres.
  rewrite imap_const in Hres.
  destruct (fmap_inr_Permutation _ _ _ _ Hperm Hres)
    as (results' & Hres' & Hperm').
  exists (PyList.sort Growth.growth_rate PyFloat.lt true results').
  split; [|split].
  - apply analyze_channels_growth_inr. exists results'. split; [|done].
    unfold rows_in_order, frozen.
    change (λ (_ : nat) channel, growth_row now channel)
      with (@const _ nat (growth_row now)).
    by rewrite imap_const.
  - by rewrite !PyListFacts.sort_Permutation.
  - intros Hties. symmetry.
    assert (PyList.sort Growth.growth_rate PyFloat.lt true results
            ≡ₚ results') as Hp
      by (by rewrite PyListFacts.sort_Permutation).
    apply sort_by_growth_rate_unique.
    + by rewrite <-Hp.
    + done.
    + apply (PyListFacts.Sorted_sort_reverse Growth.growth_rate PyFloat.lt
               PyFloatFacts.lt_asym).
    + intros x. by apply filter_Permutation_at_most_one.
Qed.

(** Scenario B in reverse: the two channels that tie change places. *)
Lemma analyze_rearranged_input_example :
  ∃ rows',
    analyze_channels_growth (frozen noon) (reverse scenario_B) 30 = inr rows'
    ∧ scenario_B_rows ≡ₚ rows'
    ∧ (no_ties scenario_B_rows → rows' = scenario_B_rows).
Proof.
  apply (analyze_rearranged_input noon scenario_B (reverse scenario_B) 30
           scenario_B_rows).
  - symmetry. apply reverse_Permutation.
  - exact scenario_B_analysed.
Defined.
End ranking_examples.

(** ** [int] on decimal numerals *)

Lemma scan_digit c acc k s :
  PyStr.is_digit c = true →
  PyInt.scan false acc k (String c s)
  = PyInt.scan false (acc * 10 + PyStr.digit_value c) (k + 1) s.
Proof. intros Hc. cbn [PyInt.scan]. by rewrite Hc. Qed.

Lemma scan_uint_acc d (acc : positive) k :
  PyInt.scan false (Z.pos acc) k (DecimalString.NilEmpty.string_of_uint d)
  = Some (Z.pos (Pos.of_uint_acc d acc), k + Z.of_nat (Decimal.nb_digits d),
          ""%string).
Proof.
  revert acc k.
  induction d as [|d IH|d IH|d IH|d IH|d IH|d IH|d IH|d IH|d IH|d IH];
    intros acc k;
    cbn [DecimalString.NilEmpty.string_of_uint Decimal.nb_digits
         Pos.of_uint_acc].
  { cbn. by rewrite Z.add_0_r. }
  all: rewrite scan_digit by reflexivity.
  all: match goal with
       | |- PyInt.scan false ?a _ _ = Some (Z.pos (Pos.of_uint_acc _ ?acc'), _, _) =>
           replace a with (Z.pos acc')
             by (match goal with
                 | |- context [PyStr.digit_value ?c] =>
                     let v := eval vm_compute in (PyStr.digit_value c) in
                     change (PyStr.digit_value c) with v
                 end; lia)
       end.
  all: rewrite IH;
       replace (k + 1 + Z.of_nat (Decimal.nb_digits d))
         with (k + Z.of_nat (S (Decimal.nb_digits d))) by lia;
       reflexivity.
Qed.

Lemma scan_uint d k :
  PyInt.scan false 0 k (DecimalString.NilEmpty.string_of_uint d)
  = Some (Z.of_N (Pos.of_uint d), k + Z.of_nat (Decimal.nb_digits d),
          ""%string).
Proof.
  revert k.
  induction d as [|d IH|d IH|d IH|d IH|d IH|d IH|d IH|d IH|d IH|d IH];
    intros k;
    cbn [DecimalString.NilEmpty.string_of_uint Decimal.nb_digits Pos.of_uint].
  { cbn. by rewrite Z.add_0_r. }
  { rewrite scan_digit by reflexivity.
    change (0 * 10 + PyStr.digit_value "0") with 0.
    rewrite IH.
    replace (k + 1 + Z.of_nat (Decimal.nb_digits d))
      with (k + Z.of_nat (S (Decimal.nb_digits d))) by lia.
    reflexivity. }
  all: rewrite scan_digit by reflexivity.
  all: match goal with
       | |- PyInt.scan false ?a _ _ = Some (Z.of_N (N.pos (Pos.of_uint_acc _ ?acc')), _, _) =>
           change a with (Z.pos acc')
       end.
  all: rewrite scan_uint_acc;
       replace (k + 1 + Z.of_nat (Decimal.nb_digits d))
         with (k + Z.of_nat (S (Decimal.nb_digits d))) by lia;
       reflexivity.
Qed.

Lemma is_digit_not_special c :
  PyStr.is_digit c = true →
  PyInt.is_space c = false ∧ Ascii.eqb c "+" = false
  ∧ Ascii.eqb c "-" = false ∧ Ascii.eqb c "_" = false.
Proof.
  destruct c as [[] [] [] [] [] [] [] []]; intros H; vm_compute in H;
    try discriminate H; by vm_compute.
Qed.

Lemma string_of_uint_head d :
  d ≠ Decimal.Nil →
  ∃ c s, DecimalString.NilEmpty.string_of_uint d = String c s
         ∧ PyStr.is_digit c = true.
Proof. destruct d; try done; intros _; simpl; eauto. Qed.

Lemma int_digits d sign :
  d ≠ Decimal.Nil → (Decimal.nb_digits d <= 4300)%nat →
  (let '(sign', s) := (sign, DecimalString.NilEmpty.string_of_uint d) in
   if PyInt.starts_with_underscore s then raise ValueError
   else
     match PyInt.scan false 0 0 s with
     | None => raise ValueError
     | Some (n, digits, rest) =>
         if digits =? 0 then raise ValueError
         else if PyInt._MAX_STR_DIGITS <? digits then raise ValueError
         else
           match PyInt.skip_spaces rest with
           | EmptyString => ret (sign' * n)
           | String _ _ => raise ValueError
           end
     end)
  = inr (sign * Z.of_N (Pos.of_uint d)).
Proof.
  intros Hnil Hlen.
  destruct (string_of_uint_head d Hnil) as (c & s & Hs & Hc).
  destruct (is_digit_not_special c Hc) as (_ & _ & _ & Hunder).
  rewrite scan_uint. rewrite Hs. cbn [PyInt.starts_with_underscore].
  rewrite Hunder.
  assert (0 < Decimal.nb_digits d)%nat by (destruct d; simpl; lia || done).
  destruct (Z.eqb_spec (0 + Z.of_nat (Decimal.nb_digits d)) 0); [lia|].
  unfold PyInt._MAX_STR_DIGITS.
  by destruct (Z.ltb_spec 4300 (0 + Z.of_nat (Decimal.nb_digits d))); [lia|].
Qed.

Lemma length_string_of_uint d :
  String.length (DecimalString.NilEmpty.string_of_uint d)
  = Decimal.nb_digits d.
Proof. induction d; simpl; congruence. Qed.

Lemma string_of_uint_nonnil d :
  d ≠ Decimal.Nil →
  DecimalString.NilZero.string_of_uint d
  = DecimalString.NilEmpty.string_of_uint d.
Proof. by destruct d. Qed.

(** [int(str(n))] is [n] for a numeral within the limit of digits. *)
Lemma int_decimal n : (digits n <= 4300)%nat → PyInt.int (decimal n) = inr n.
Proof.
  unfold digits, decimal. destruct n as [|p|p]; [done| |].
  - change (DecimalString.NilZero.string_of_int (Z.to_int (Z.abs (Z.pos p))))
      with (DecimalString.NilZero.string_of_uint (Pos.to_uint p)).
    change (DecimalString.NilZero.string_of_int (Z.to_int (Z.pos p)))
      with (DecimalString.NilZero.string_of_uint (Pos.to_uint p)).
    pose proof (DecimalPos.Unsigned.to_uint_nonnil p) as Hnil.
    pose proof (DecimalPos.Unsigned.of_to p) as Hp.
    rewrite string_of_uint_nonnil, length_string_of_uint by done.
    intros Hlen. unfold PyInt.int.
    destruct (string_of_uint_head _ Hnil) as (c & s & Hs & Hc).
    destruct (is_digit_not_special c Hc) as (Hsp & Hplus & Hminus & _).
    rewrite Hs. cbn [PyInt.skip_spaces PyInt.sign]. rewrite Hsp.
    cbn [PyInt.sign]. rewrite Hplus, Hminus, <-Hs.
    by rewrite (int_digits _ 1 Hnil Hlen), Hp.
  - change (DecimalString.NilZero.string_of_int (Z.to_int (Z.abs (Z.neg p))))
      with (DecimalString.NilZero.string_of_uint (Pos.to_uint p)).
    change (DecimalString.NilZero.string_of_int (Z.to_int (Z.neg p)))
      with (String "-" (DecimalString.NilZero.string_of_uint (Pos.to_uint p))).
    pose proof (DecimalPos.Unsigned.to_uint_nonnil p) as Hnil.
    pose proof (DecimalPos.Unsigned.of_to p) as Hp.
    rewrite string_of_uint_nonnil, length_string_of_uint by done.
    intros Hlen. unfold PyInt.int. cbn [PyInt.skip_spaces].
    change (PyInt.is_space "-") with false. cbv iota.
    cbn [PyInt.sign]. change (Ascii.eqb "-" "+") with false.
    change (Ascii.eqb "-" "-") with true. cbv iota.
    by rewrite (int_digits _ (-1) Hnil Hlen), Hp.
Qed.

(** ** [get_channel_stats] and [search_channels] on the dictionaries *)

Lemma only_ValueError_PyInt s : only_ValueError (PyInt.int s).
Proof.
  unfold PyInt.int. destruct (PyInt.sign _) as [sign s'].
  destruct (PyInt.starts_with_underscore s'); [by intros e [= <-]|].
  destruct (PyInt.scan _ _ _ _) as [[[n digits] rest]|]; [|by intros e [= <-]].
  destruct (digits =? 0); [by intros e [= <-]|].
  destruct (_ <? _); [by intros e [= <-]|].
  destruct (PyInt.skip_spaces rest); [done|by intros e [= <-]].
Qed.

Lemma getitem_inl {V} (d : gmap string V) key e :
  Json.getitem d key = inl e → e = KeyError ∧ d !! key = None.
Proof. unfold Json.getitem. destruct (d !! key); [done|]. by intros [= <-]. Qed.

Lemma getfield_inl {V} (field : option V) e :
  Json.getfield field = inl e → e = KeyError ∧ field = None.
Proof. destruct field; [done|]. by intros [= <-]. Qed.

Lemma count_inl (stats : gmap string string) key e :
  (let* count := Json.getitem stats key in PyInt.int count) = inl e →
  e = KeyError ∨ e = ValueError.
Proof.
  destruct (Json.getitem stats key) as [e'|count] eqn:Hget; simpl.
  - intros [= <-]. left. by destruct (getitem_inl _ _ _ Hget) as [? _].
  - intros H. right. by apply only_ValueError_PyInt in H.
Qed.

Lemma get_channel_stats_inl youtube channel_id e :
  Json.get_channel_stats youtube channel_id = inl e →
  e = KeyError ∨ e = ValueError.
Proof.
  unfold Json.get_channel_stats.
  destruct (Json.getfield (Json.channels_items _)) as [e'|[|item rest]] eqn:Hitems;
    simpl; [|done|].
  { intros [= <-]. left. by destruct (getfield_inl _ _ Hitems) as [? _]. }
  destruct (Json.getfield (Json.statistics item)) as [e'|stats] eqn:Hstats;
    simpl.
  { intros [= <-]. left. by destruct (getfield_inl _ _ Hstats) as [? _]. }
  destruct (Json.getfield (Json.snippet item)) as [e'|snip] eqn:Hsnip; simpl.
  { intros [= <-]. left. by destruct (getfield_inl _ _ Hsnip) as [? _]. }
  destruct (Json.getitem snip "title") as [e'|title] eqn:Htitle; simpl.
  { intros [= <-]. left. by destruct (getitem_inl _ _ _ Htitle) as [? _]. }
  destruct (let* count := Json.getitem stats "subscriberCount" in _)
    as [e'|subs] eqn:Hsubs; cbn [bind].
  { intros [= <-]. by eapply count_inl. }
  destruct (let* count := Json.getitem stats "viewCount" in _)
    as [e'|views] eqn:Hviews; cbn [bind].
  { intros [= <-]. by eapply count_inl. }
  destruct (let* count := Json.getitem stats "videoCount" in _)
    as [e'|videos] eqn:Hvideos; cbn [bind].
  { intros [= <-]. by eapply count_inl. }
  destruct (Json.getitem snip "publishedAt") as [e'|published] eqn:Hpub;
    simpl; [|done].
  intros [= <-]. left. by destruct (getitem_inl _ _ _ Hpub) as [? _].
Qed.

(** X12: the edges of [get_channel_stats].  A response without the key
    [items] raises [KeyError]; an empty list of items gives [None]; a
    first item whose statistics have no [subscriberCount], the channel
    that hides its subscribers, raises [KeyError] although the rest is in
    place; whatever it raises is a [KeyError] or the [ValueError] of
    [int]; and the [channel_id] of a result is the identifier asked for,
    the other items of the response being ignored. *)
Theorem get_channel_stats_edges youtube channel_id :
  (Json.channels_items (Json.channels_list youtube channel_id) = None →
   Json.get_channel_stats youtube channel_id = inl KeyError)
  ∧ (Json.channels_items (Json.channels_list youtube channel_id) = Some [] →
     Json.get_channel_stats youtube channel_id = inr None)
  ∧ (∀ item rest stats snip title,
       Json.channels_items (Json.channels_list youtube channel_id)
       = Some (item :: rest) →
       Json.statistics item = Some stats → Json.snippet item = Some snip →
       snip !! "title"%string = Some title →
       stats !! "subscriberCount"%string = None →
       Json.get_channel_stats youtube channel_id = inl KeyError)
  ∧ (∀ e, Json.get_channel_stats youtube channel_id = inl e →
          e = KeyError ∨ e = ValueError)
  ∧ (∀ youtube' item rest rest' c,
       Json.channels_items (Json.channels_list youtube channel_id)
       = Some (item :: rest) →
       Json.channels_items (Json.channels_list youtube' channel_id)
       = Some (item :: rest') →
       Json.get_channel_stats youtube channel_id = inr (Some c) →
       Json.get_channel_stats youtube' channel_id = inr (Some c)
       ∧ Channel.channel_id c = channel_id).
Proof.
  split; [|split; [|split; [|split]]].
  - unfold Json.get_channel_stats. by intros ->.
  - unfold Json.get_channel_stats. by intros ->.
  - intros item rest stats snip title Hitems Hstats Hsnip Htitle Hsubs.
    unfold Json.get_channel_stats, Json.getitem.
    rewrite Hitems. simpl. rewrite Hstats, Hsnip. simpl.
    by rewrite Htitle, Hsubs.
  - apply get_channel_stats_inl.
  - intros youtube' item rest rest' c Hitems Hitems'.
    unfold Json.get_channel_stats. rewrite Hitems, Hitems'. simpl.
    intros H. split; [done|].
    repeat apply bind_inr in H as (? & _ & H). by injection H as <-.
Qed.

Lemma get_channel_stats_item_of youtube c rest :
  Json.channels_items (Json.channels_list youtube (Channel.channel_id c))
  = Some (item_of c :: rest) →
  (digits (Channel.subscriber_count c) <= 4300)%nat →
  (digits (Channel.view_count c) <= 4300)%nat →
  (digits (Channel.video_count c) <= 4300)%nat →
  Json.get_channel_stats youtube (Channel.channel_id c) = inr (Some c).
Proof.
  intros Hitems Hsubs Hviews Hvideos.
  unfold Json.get_channel_stats, Json.getitem. rewrite Hitems.
  cbn [Json.getfield bind ret item_of Json.statistics Json.snippet].
  rewrite !lookup_insert_eq.
  rewrite (lookup_insert_ne _ "subscriberCount" "viewCount") by done.
  rewrite (lookup_insert_ne _ "subscriberCount" "videoCount") by done.
  rewrite (lookup_insert_ne _ "viewCount" "videoCount") by done.
  rewrite (lookup_insert_ne _ "title" "publishedAt") by done.
  rewrite !lookup_insert_eq. cbn [bind ret].
  rewrite !int_decimal by done. cbn [bind ret]. by destruct c.
Qed.

(** X13: [get_channel_stats] reads back what the platform writes.  When
    the first item of the response carries the fields of a channel, its
    counts as decimal numerals of at most 4300 digits, the function
    returns exactly that channel under the identifier asked for. *)
Theorem get_channel_stats_round_trip youtube c rest :
  Json.channels_items (Json.channels_list youtube (Channel.channel_id c))
  = Some (item_of c :: rest) →
  (digits (Channel.subscriber_count c) <= 4300)%nat →
  (digits (Channel.view_count c) <= 4300)%nat →
  (digits (Channel.video_count c) <= 4300)%nat →
  Json.get_channel_stats youtube (Channel.channel_id c) = inr (Some c)
  ∧ PyInt.int (decimal (Channel.subscriber_count c))
    = inr (Channel.subscriber_count c)
  ∧ PyInt.int (decimal (Channel.view_count c)) = inr (Channel.view_count c)
  ∧ PyInt.int (decimal (Channel.video_count c)) = inr (Channel.video_count c).
Proof.
  intros Hitems Hsubs Hviews Hvideos.
  split; [by apply (get_channel_stats_item_of youtube c rest)|].
  by rewrite !int_decimal.
Qed.

Section get_channel_stats_examples.
Local Open Scope string_scope.

(** Channel A through the example client. *)
Lemma get_channel_stats_round_trip_example :
  Json.get_channel_stats example_youtube (Channel.channel_id channel_A)
  = inr (Some channel_A)
  ∧ PyInt.int (decimal (Channel.subscriber_count channel_A))
    = inr (Channel.subscriber_count channel_A)
  ∧ PyInt.int (decimal (Channel.view_count channel_A))
    = inr (Channel.view_count channel_A)
  ∧ PyInt.int (decimal (Channel.video_count channel_A))
    = inr (Channel.video_count channel_A).
Proof.
  apply (get_channel_stats_round_trip example_youtube channel_A []).
  - reflexivity.
  - vm_compute. lia.
  - vm_compute. lia.
  - vm_compute. lia.
Defined.
End get_channel_stats_examples.

(** ** The two levels of [search_channels] *)

Lemma json_search_loop_refines youtube api min_date max_date items ids
      channels :
  Forall2 (λ item id, ∃ d, Json.id item = Some d
                           ∧ d !! "channelId"%string = Some id) items ids →
  (∀ id, id ∈ ids →
     Json.get_channel_stats youtube id = inr (get_channel_stats api id)) →
  Json.search_loop youtube min_date max_date items channels
  = search_loop (get_channel_stats api) min_date max_date ids channels.
Proof.
  intros Hitems. revert channels.
  induction Hitems as [|item id items ids (d & Hd & Hid) _ IH];
    intros channels Hstats; [done|].
  cbn [Json.search_loop search_loop]. unfold Json.getitem.
  rewrite Hd. cbn [Json.getfield bind ret]. rewrite Hid. cbn [bind ret].
  rewrite Hstats by left. cbn [bind ret].
  assert (∀ id', id' ∈ ids →
            Json.get_channel_stats youtube id'
            = inr (get_channel_stats api id')) as Hstats'.
  { intros id' Hin. apply Hstats. by right. }
  destruct (get_channel_stats api id) as [c|]; [|by apply IH].
  destruct (date_filter min_date max_date c) as [e|[]]; cbn [bind];
    [done|by apply IH..].
Qed.

(** X14: [search_channels] on the dictionaries is the function on the
    typed answers that the other properties are about, whenever reading
    the dictionaries raises nothing: when the search response has its
    [items], every item its [id] with a [channelId], and
    [get_channel_stats] returns for these identifiers what the typed
    client gives. *)
Theorem json_search_channels_refines youtube api query max_results
        min_date max_date items :
  Json.search_items (Json.search_list youtube query max_results)
  = Some items →
  Forall2 (λ item id, ∃ d, Json.id item = Some d
                           ∧ d !! "channelId"%string = Some id)
          items (Api.search_list api query max_results) →
  (∀ id, id ∈ Api.search_list api query max_results →
     Json.get_channel_stats youtube id = inr (get_channel_stats api id)) →
  Json.search_channels youtube query max_results min_date max_date
  = search_channels api query max_results min_date max_date.
Proof.
  intros Hitems Hids Hstats.
  unfold Json.search_channels, search_channels. rewrite Hitems.
  cbn [Json.getfield bind ret]. by apply json_search_loop_refines.
Qed.

Section json_search_channels_examples.
Local Open Scope string_scope.

(** The two example clients, with the range of the year 2020. *)
Lemma json_search_channels_refines_example :
  Json.search_channels example_youtube "q" 50
    (Some (combine_min_time 2020 1 1)) (Some (combine_max_time 2020 12 31))
  = search_channels example_api "q" 50
      (Some (combine_min_time 2020 1 1)) (Some (combine_max_time 2020 12 31)).
Proof.
  apply (json_search_channels_refines example_youtube example_api "q" 50
           (Some (combine_min_time 2020 1 1))
           (Some (combine_max_time 2020 12 31))
           (search_item_of <$> ["A"; "B"; "A"; "gone"])).
  - reflexivity.
  - repeat constructor; eexists; (split; [reflexivity|]); by vm_compute.
  - intros id Hin. cbn [Api.search_list example_api] in Hin.
    repeat (apply elem_of_cons in Hin as [->|Hin]);
      [..|by apply elem_of_nil in Hin]; by vm_compute.
Defined.
End json_search_channels_examples.

Lemma date_filter_inl min_date max_date c e :
  (∀ b, min_date = Some b → Datetime.tzinfo b = None) →
  (∀ b, max_date = Some b → Datetime.tzinfo b = None) →
  date_filter min_date max_date c = inl e → e = ValueError ∨ e = TypeError.
Proof.
  intros Hmin Hmax. unfold date_filter.
  destruct (parse_date (Channel.published_at c)) as [e'|p] eqn:Hp; cbn [bind].
  { intros [= <-]. left. by apply only_ValueError_parse_date in Hp. }
  assert (∀ bound (f : Datetime.datetime → Datetime.datetime → result bool),
            (∀ b, bound = Some b → Datetime.tzinfo b = None) →
            f = Datetime.lt ∨ f = Datetime.gt →
            match bound with None => ret false | Some b => f p b end = inl e →
            e = TypeError) as Hcmp.
  { intros bound f Hb Hf. destruct bound as [b|]; [|done].
    specialize (Hb b eq_refl).
    destruct Hf as [-> | ->]; unfold Datetime.lt, Datetime.gt, Datetime._cmp;
      rewrite Hb; destruct (Datetime.tzinfo p); cbn [bind ret raise];
      by intros [= <-]. }
  destruct (before_bound min_date p) as [e'|early] eqn:Hearly; cbn [bind].
  { intros [= <-]. right.
    eapply (Hcmp min_date Datetime.lt Hmin); [by left|exact Hearly]. }
  destruct early; [done|].
  destruct (after_bound max_date p) as [e'|late] eqn:Hlate; cbn [bind].
  { intros [= <-]. right.
    eapply (Hcmp max_date Datetime.gt Hmax); [by right|exact Hlate]. }
  by destruct late.
Qed.

Lemma json_search_loop_inl youtube min_date max_date items channels e :
  (∀ b, min_date = Some b → Datetime.tzinfo b = None) →
  (∀ b, max_date = Some b → Datetime.tzinfo b = None) →
  Json.search_loop youtube min_date max_date items channels = inl e →
  e = KeyError ∨ e = ValueError ∨ e = TypeError.
Proof.
  intros Hmin Hmax. revert channels.
  induction items as [|item items IH]; intros channels; [done|].
  cbn [Json.search_loop].
  destruct (Json.getfield (Json.id item)) as [e'|d] eqn:Hd; cbn [bind].
  { intros [= <-]. left. by destruct (getfield_inl _ _ Hd) as [? _]. }
  destruct (Json.getitem d "channelId") as [e'|id] eqn:Hid; cbn [bind].
  { intros [= <-]. left. by destruct (getitem_inl _ _ _ Hid) as [? _]. }
  destruct (Json.get_channel_stats youtube id) as [e'|[c|]] eqn:Hstats;
    cbn [bind]; [|clear Hstats|by apply IH].
  { intros [= <-]. apply get_channel_stats_inl in Hstats. tauto. }
  destruct (date_filter min_date max_date c) as [e'|[]] eqn:Hkeep; cbn [bind];
    [|by apply IH..].
  intros [= <-]. apply date_filter_inl in Hkeep; tauto.
Qed.

(** X15: the edges of [search_channels].  A search response without the
    key [items] raises [KeyError]; an empty list of items gives the empty
    list; and with the naive bounds of [main], or none, whatever it raises
    is a [KeyError] of a missing key, a [ValueError] of a count or a date
    that cannot be parsed, or the [TypeError] of comparing an aware date
    with a naive bound. *)
Theorem json_search_channels_edges youtube query max_results
        min_date max_date :
  (Json.search_items (Json.search_list youtube query max_results) = None →
   Json.search_channels youtube query max_results min_date max_date
   = inl KeyError)
  ∧ (Json.search_items (Json.search_list youtube query max_results)
     = Some [] →
     Json.search_channels youtube query max_results min_date max_date
     = inr [])
  ∧ ((∀ b, min_date = Some b → Datetime.tzinfo b = None) →
     (∀ b, max_date = Some b → Datetime.tzinfo b = None) →
     ∀ e, Json.search_channels youtube query max_results min_date max_date
          = inl e →
          e = KeyError ∨ e = ValueError ∨ e = TypeError).
Proof.
  unfold Json.search_channels. split; [by intros ->|]. split; [by intros ->|].
  intros Hmin Hmax e.
  destruct (Json.getfield (Json.search_items _)) as [e'|items] eqn:Hitems;
    cbn [bind].
  { intros [= <-]. left. by destruct (getfield_inl _ _ Hitems) as [? _]. }
  by apply json_search_loop_inl.
Qed.

(** ** Other shapes [parse_date] accepts *)

Module FractionFacts.

Import Shape Re ShapeFacts.
Local Open Scope char_scope.
Local Open Scope Z_scope.

Lemma take_3 a b c rest :
  PyStr.take
    (String.length (String a (String b (String c rest))) - String.length rest)
    (String a (String b (String c rest)))
  = String a (String b (String c "")).
Proof.
  replace (String.length (String a (String b (String c rest)))
           - String.length rest)%nat
    with 3%nat by (cbn [String.length]; lia).
  reflexivity.
Qed.

Lemma take_5 a b c d e rest :
  PyStr.take
    (String.length (String a (String b (String c (String d (String e rest)))))
     - String.length rest)
    (String a (String b (String c (String d (String e rest)))))
  = String a (String b (String c (String d (String e "")))).
Proof.
  replace (String.length
             (String a (String b (String c (String d (String e rest)))))
           - String.length rest)%nat
    with 5%nat by (cbn [String.length]; lia).
  reflexivity.
Qed.

(** [%f] takes all the digits there are, up to six. *)
Lemma run_f_digits {A} ds rest g (k : string → groupdict → option A) :
  (1 <= length ds <= 6)%nat → fails_on_digits k →
  run (re "f") (fraction_digits ds (String "Z" rest)) g k
  = k (String "Z" rest) (("f", fraction_digits ds "") :: g).
Proof.
  intros Hlen Hk. unfold fails_on_digits in Hk.
  change (re "f") with (Group "f" (rep1 6 (Strptime.rng "0" "9"))).
  cbv [rep1 upto opt Nat.sub Strptime.rng].
  destruct ds as [|d1 [|d2 [|d3 [|d4 [|d5 [|d6 [|d7 ds]]]]]]];
    simpl in Hlen; try lia;
    cbn [fraction_digits foldr run];
    rewrite ?in_range_digit;
    change (PyStr.in_range "0" "9" "Z") with false; cbv iota;
    rewrite ?take_1, ?take_2, ?take_3, ?take_4, ?take_5, ?take_6;
    repeat match goal with
           | |- context [k (String (digit ?d) ?s) ?g'] =>
               rewrite (Hk (digit d) s g' (is_digit_digit d))
           end;
    try reflexivity;
    match goal with
    | |- context [k (String "Z" rest) ?g'] =>
        by destruct (k (String "Z" rest) g')
    end.
Qed.

Lemma int_fraction ds :
  (1 <= length ds <= 6)%nat →
  PyStr.int (fraction_digits ds ""
             +:+ string_of_list_ascii
                   (repeat "0" (6 - String.length (fraction_digits ds ""))))
  = inr (fraction_microseconds ds).
Proof.
  intros Hlen.
  destruct ds as [|d1 [|d2 [|d3 [|d4 [|d5 [|d6 [|d7 ds]]]]]]];
    simpl in Hlen; try lia;
    cbn [fraction_digits foldr String.length Nat.sub repeat
         string_of_list_ascii];
    cbv [String.append];
    unfold PyStr.int; rewrite lstrip_digit;
    cbn [PyStr.all_digits PyStr.digits_value];
    rewrite ?is_digit_digit, ?digit_value_digit;
    change (PyStr.is_digit "0") with true;
    change (PyStr.digit_value "0") with 0; cbn [andb ret]; f_equal;
    unfold fraction_microseconds;
    cbn [length Nat.sub replicate app foldl]; lia.
Qed.

Lemma strptime_shape_a_fraction t ds :
  valid t → (1 <= length ds <= 6)%nat →
  Datetime.microsecond t = fraction_microseconds ds →
  Strptime.strptime (shape_a_fraction t ds) "%Y-%m-%dT%H:%M:%S.%fZ" = inr t.
Proof.
  intros Ht Hlen Hus.
  pose proof (valid_fields t Ht) as (Hdate & Htime & Hcheck).
  unfold Strptime.strptime, match_, shape_a_fraction. rewrite pattern_a.
  rewrite run_seconds by (done || by apply lit_fails_on_digits).
  run_step. rewrite run_Cat, run_f_digits
    by (done || by apply lit_fails_on_digits).
  cbv beta. run_step. cbn [run].
  unfold Strptime.group_int, Strptime.group_fraction, groups.
  cbn [lookup app Ascii.eqb Bool.eqb andb].
  rewrite int_fraction by done.
  rewrite int_pad4 by lia. rewrite !int_pad2 by lia. cbn [bind ret].
  rewrite Hcheck. cbn [bind]. rewrite <-Hus. exact Ht.
Qed.

Lemma strptime_shape_date t format :
  valid t →
  format = "%Y-%m-%dT%H:%M:%S.%fZ"%string ∨ format = "%Y-%m-%dT%H:%M:%SZ"%string →
  Strptime.strptime (shape_date t) format = inl ValueError.
Proof.
  intros Ht Hformat.
  pose proof (valid_fields t Ht) as (Hdate & Htime & Hcheck).
  unfold Strptime.strptime, match_, shape_date.
  destruct Hformat as [-> | ->]; rewrite ?pattern_a, ?pattern_b;
    unfold seconds_re; by do 5 run_step.
Qed.

Lemma replace_shape_date t :
  PyStr.replace "Z" "+00:00" (shape_date t) = shape_date t.
Proof.
  unfold shape_date, pad4. rewrite !replace_digit, replace_pad2.
  do 2 (cbn [PyStr.replace Ascii.eqb Bool.eqb andb]; rewrite replace_pad2).
  done.
Qed.

Lemma fromisoformat_shape_date t :
  valid t →
  IsoFormat.fromisoformat (shape_date t)
  = Datetime.new (Datetime.year t) (Datetime.month t) (Datetime.day t)
                 0 0 0 0 None.
Proof.
  intros Ht. pose proof (valid_fields t Ht) as (Hdate & _ & _).
  unfold IsoFormat.fromisoformat, IsoFormat.parse_isoformat_date, shape_date.
  rewrite parse_digits_pad4 by lia.
  cbn [mbind option_bind IsoFormat.expect Ascii.eqb Bool.eqb andb].
  rewrite parse_digits_pad2 by lia.
  cbn [mbind option_bind IsoFormat.expect Ascii.eqb Bool.eqb andb].
  by rewrite parse_digits_pad2 by lia.
Qed.

End FractionFacts.

(** X16: [parse_date] takes more than the three shapes.  Shape (a) may
    carry one to six digits of fraction, which stand for the microseconds
    they would with zeros added on the right (so [.5] is half a second
    and [.123] is 123 milliseconds); and the date alone, a string that
    reaches the fallback, is midnight of that day as a naive value. *)
Theorem parse_date_other_shapes t :
  Shape.valid t →
  (∀ ds, (1 <= length ds <= 6)%nat →
         Datetime.microsecond t = fraction_microseconds ds →
         parse_date (shape_a_fraction t ds) = inr t)
  ∧ (Datetime.hour t = 0 → Datetime.minute t = 0 → Datetime.second t = 0 →
     Datetime.microsecond t = 0 →
     parse_date (shape_date t) = inr t).
Proof.
  intros Ht. split.
  - intros ds Hlen Hus. unfold parse_date.
    by rewrite FractionFacts.strptime_shape_a_fraction.
  - intros Hh Hmi Hs Hus. unfold parse_date.
    rewrite !FractionFacts.strptime_shape_date by auto.
    cbn [try_except_ValueError].
    rewrite FractionFacts.replace_shape_date,
      FractionFacts.fromisoformat_shape_date by done.
    unfold Shape.valid in Ht. by rewrite Hh, Hmi, Hs, Hus in Ht.
Qed.

(** Half a second after midnight, written with one digit of fraction, and
    midnight of 1 January 2020 written as the date alone. *)
Lemma parse_date_other_shapes_example :
  parse_date (shape_a_fraction half_past_midnight [5])
  = inr half_past_midnight
  ∧ parse_date (shape_date (combine_min_time 2020 1 1))
    = inr (combine_min_time 2020 1 1).
Proof.
  split.
  - apply (proj1 (parse_date_other_shapes half_past_midnight eq_refl) [5]).
    + simpl. lia.
    + reflexivity.
  - by apply (proj2 (parse_date_other_shapes (combine_min_time 2020 1 1)
                       eq_refl)).
Defined.
